(** * Paint-property binders: a shallow embedding of
      [src/data/program_configuration.js]

    The module binds style-layer paint properties to GPU uniforms and vertex
    attributes.  The embedding follows the source class by class:
    [packColor], the three binders ([ConstantBinder], [SourceExpressionBinder],
    [CompositeExpressionBinder]), [ProgramConfiguration] and the three table
    functions at the end of the file ([paintAttributeName],
    [getLayoutException], [layoutType]).

    - JavaScript numbers are IEEE 754 binary64 values, taken from the
      axiom-free specification [SpecFloat] (precision 53, emax 1024).
    - Objects used as maps are association lists in [for ... in] order;
      indexing one, [o[k]], also finds the members of [Object.prototype].
    - Paint vertex arrays hold [Float32] components: what is stored is the
      argument rounded to binary32.
    - GPU effects are recorded in an explicit [Context] that is threaded
      through every method that touches the GPU.
    - A JavaScript exception is a [Throw] completion. *)

From Stdlib Require Import ZArith List Bool String Ascii Lia.
From Stdlib Require Import Permutation Sorted.
From Stdlib Require Import Floats.SpecFloat.
Import ListNotations.

Local Open Scope string_scope.
Local Open Scope list_scope.

(* ================================================================== *)
(** ** JavaScript numbers and the pieces of the runtime the code uses  *)
(* ================================================================== *)

Module JS.

(** A JavaScript [number]: binary64. *)
Definition number : Type := spec_float.

Definition prec : Z := 53.
Definition emax : Z := 1024.

(** The number denoted by an integer literal. *)
Definition of_Z (z : Z) : number := binary_normalize prec emax z 0 false.

Definition NaN : number := S754_nan.
Definition neg_Infinity : number := S754_infinity true.

Definition add : number -> number -> number := SFadd prec emax.
Definition sub : number -> number -> number := SFsub prec emax.
Definition mul : number -> number -> number := SFmul prec emax.
Definition div : number -> number -> number := SFdiv prec emax.
Definition ltb : number -> number -> bool := SFltb.
Definition leb : number -> number -> bool := SFleb.

Definition is_NaN (x : number) : bool :=
  match x with S754_nan => true | _ => false end.

(** [Math.fround]: the binary32 value nearest to [x], ties to even, again
    as a number.  It is what an element of a [Float32Array] holds after [x]
    was stored in it: too large a value becomes an infinity, too small a
    value a zero of the same sign. *)
Definition fround (x : number) : number :=
  match x with
  | S754_finite s m e =>
      match binary_round 24 128 s m e with
      | S754_finite s' m' e' => binary_round prec emax s' m' e'
      | rounded => rounded
      end
  | _ => x
  end.

(** Structural equality of numbers (distinguishes [+0] from [-0]). *)
Definition same (x y : number) : bool :=
  match x, y with
  | S754_zero s, S754_zero s' => Bool.eqb s s'
  | S754_infinity s, S754_infinity s' => Bool.eqb s s'
  | S754_nan, S754_nan => true
  | S754_finite s m e, S754_finite s' m' e' =>
      Bool.eqb s s' && Pos.eqb m m' && Z.eqb e e'
  | _, _ => false
  end.

(** [Math.floor]. *)
Definition Math_floor (x : number) : number :=
  match x with
  | S754_finite s m e =>
      if (0 <=? e)%Z then x
      else match Z.shiftr (cond_Zopp s (Zpos m)) (- e) with
           | Z0 => S754_zero s
           | q => binary_normalize prec emax q 0 s
           end
  | _ => x
  end.

(** One step of the [Math.max] loop of ECMAScript: [highest] is the
    running maximum, [x] the next (already coerced) argument. *)
Definition max_step (highest x : number) : number :=
  match x, highest with
  | S754_zero false, S754_zero true => x
  | _, _ => if ltb highest x then x else highest
  end.

Fixpoint max_from (highest : number) (xs : list number) : number :=
  match xs with
  | [] => highest
  | x :: rest => if is_NaN x then NaN else max_from (max_step highest x) rest
  end.

(** [Math.max(x1, ..., xn)]: starts from [-Infinity]; any [NaN] argument
    makes the result [NaN]. *)
Definition Math_max (xs : list number) : number := max_from neg_Infinity xs.

(** The integer a number denotes, when it denotes one. *)
Definition to_integer (x : number) : option Z :=
  match x with
  | S754_zero _ => Some 0%Z
  | S754_finite s m e =>
      if (0 <=? e)%Z then Some (cond_Zopp s (Zpos m * 2 ^ e))%Z
      else if (Zpos m mod 2 ^ (- e) =? 0)%Z
           then Some (cond_Zopp s (Zpos m / 2 ^ (- e)))%Z
           else None
  | _ => None
  end.

(** [s.includes(needle)], which is what [s.match(/needle/)] tests when
    the pattern is a plain word. *)
Fixpoint includes (needle s : string) : bool :=
  if String.prefix needle s then true
  else match s with
       | EmptyString => false
       | String _ rest => includes needle rest
       end.

(** [s.replace(pat, '')] for a string pattern: the first occurrence only. *)
Fixpoint remove_first (pat s : string) : string :=
  match pat with
  | EmptyString => s
  | _ =>
      if String.prefix pat s
      then String.substring (String.length pat)
                            (String.length s - String.length pat) s
      else match s with
           | EmptyString => EmptyString
           | String c rest => String c (remove_first pat rest)
           end
  end.

(** [s.replace(/-/g, '_')]. *)
Fixpoint dashes_to_underscores (s : string) : string :=
  match s with
  | EmptyString => EmptyString
  | String c rest =>
      String (if Ascii.eqb c "-"%char then "_"%char else c)
             (dashes_to_underscores rest)
  end.

(** [xs.join('')]. *)
Definition join (xs : list string) : string :=
  fold_right String.append EmptyString xs.

(** [xs.sort()] with the default comparator: ascending in the order of
    code units.  Insertion into a sorted list, then sorting by folding. *)
Fixpoint insert (x : string) (xs : list string) : list string :=
  match xs with
  | [] => [x]
  | y :: rest => if String.leb x y then x :: xs else y :: insert x rest
  end.

Definition sort (xs : list string) : list string :=
  fold_right insert [] xs.

(** [xs.map((x, i) => f x i)]. *)
Fixpoint mapi_from {A B} (i : nat) (f : A -> nat -> B) (xs : list A) : list B :=
  match xs with
  | [] => []
  | x :: rest => f x i :: mapi_from (S i) f rest
  end.

Definition mapi {A B} (f : A -> nat -> B) (xs : list A) : list B :=
  mapi_from 0 f xs.

(** Errors the code can raise. *)
Inductive Error :=
| ReferenceError (identifier : string)
| TypeError.

(** Completion of a call: a value, or a thrown error. *)
Inductive completion (A : Type) :=
| Normal (a : A)
| Throw (e : Error).
Arguments Normal {A} a.
Arguments Throw {A} e.

Definition bind {A B} (c : completion A) (k : A -> completion B) : completion B :=
  match c with
  | Normal a => k a
  | Throw e => Throw e
  end.

(** An object used as a map from property names to values, in the order
    in which [for (k in o)] visits its keys.  The keys of this module are
    style property names and layer ids: array indices, which would be
    visited first, are left out of the model. *)
Definition object (A : Type) : Type := list (string * A).

(** The own property [k] of [o], if it has one. *)
Fixpoint get {A} (o : object A) (k : string) : option A :=
  match o with
  | [] => None
  | (k', v) :: rest => if String.eqb k' k then Some v else get rest k
  end.

(** The names that every object created by a literal or by [{}] inherits
    from [Object.prototype]. *)
Definition Object_prototype : list string :=
  [ "constructor"; "hasOwnProperty"; "isPrototypeOf"; "propertyIsEnumerable";
    "toLocaleString"; "toString"; "valueOf"; "__proto__";
    "__defineGetter__"; "__defineSetter__"; "__lookupGetter__";
    "__lookupSetter__" ].

Definition is_inherited (k : string) : bool :=
  existsb (String.eqb k) Object_prototype.

(** What [o[k]] evaluates to: the own property, else the member of
    [Object.prototype] of that name (a function, or the prototype itself:
    truthy in every case), else [undefined]. *)
Inductive indexed (A : Type) :=
| Own (v : A)
| Inherited (member : string)
| Undefined.
Arguments Own {A} v.
Arguments Inherited {A} member.
Arguments Undefined {A}.

Definition lookup {A} (o : object A) (k : string) : indexed A :=
  match get o k with
  | Some v => Own v
  | None => if is_inherited k then Inherited k else Undefined
  end.

(** [if (o[k])] for a table whose own values are objects. *)
Definition truthy_indexed {A} (p : indexed A) : bool :=
  match p with
  | Own _ | Inherited _ => true
  | Undefined => false
  end.

(** [o[k] = v]: overwrites in place, or appends a new key. *)
Fixpoint set {A} (o : object A) (k : string) (v : A) : object A :=
  match o with
  | [] => [(k, v)]
  | (k', v') :: rest =>
      if String.eqb k' k then (k', v) :: rest else (k', v') :: set rest k v
  end.

Definition keys {A} (o : object A) : list string := map fst o.

End JS.

Notation "x <- c ;; k" := (JS.bind c (fun x => k))
  (at level 61, c at next level, right associativity).

Import JS.

(* ================================================================== *)
(** ** Values, colours and the external collaborators                  *)
(* ================================================================== *)

(** [Color] of [style-spec/util/color]: four channels in [0, 1]. *)
Record Color := { r : number; g : number; b : number; a : number }.

(** What an expression evaluates to, and what a binder may hold:
    a number, a [Color], or the wrapper [{kind: 'constant', value: v}]. *)
Inductive jsvalue :=
| VNum (x : number)
| VColor (c : Color)
| VConstant (v : jsvalue).

(** Reading a colour channel off a value: [undefined] ([None]) unless the
    value is a [Color]. *)
Definition channel (proj : Color -> number) (v : jsvalue) : option jsvalue :=
  match v with
  | VColor c => Some (VNum (proj c))
  | _ => None
  end.

(** [ToNumber]: [undefined] and objects coerce to [NaN]. *)
Definition ToNumber (v : option jsvalue) : number :=
  match v with
  | Some (VNum x) => x
  | _ => NaN
  end.

(** Modelled from the spec: [packUint8ToFloat] is imported from
    [shaders/encode_attribute], a module outside this file.  The
    specification describes it as packing two 8-bit channels into one float,
    [value = channelA * 256 + channelB]. *)
Definition packUint8ToFloat (channelA channelB : number) : number :=
  add (mul (of_Z 256) channelA) channelB.

Definition packColor (color : jsvalue) : number * number :=
  ( packUint8ToFloat (mul (of_Z 255) (ToNumber (channel r color)))
                     (mul (of_Z 255) (ToNumber (channel g color))),
    packUint8ToFloat (mul (of_Z 255) (ToNumber (channel b color)))
                     (mul (of_Z 255) (ToNumber (channel a color))) ).

(** The integer decomposition of a packed float (what the shader does). *)
Definition unpack (packed : number) : option (Z * Z) :=
  match to_integer packed with
  | Some n => Some (n / 256, n mod 256)%Z
  | None => None
  end.

(** A colour channel given as [k / 255]. *)
Definition channel_of_byte (k : Z) : number := div (of_Z k) (of_Z 255).

(** A tile feature: its properties. *)
Definition Feature : Type := list (string * jsvalue).

Module GlobalProperties.
Record t := { zoom : number }.
End GlobalProperties.

Record SourceExpression := {
  source_evaluate : GlobalProperties.t -> Feature -> jsvalue
}.

Record CompositeExpression := {
  composite_evaluate : GlobalProperties.t -> Feature -> jsvalue;
  composite_interpolationFactor : number -> number -> number -> number
}.

(** The struct-array classes this module names. *)
Inductive LayoutClass :=
| StructArrayLayout1f4
| StructArrayLayout2f8
| StructArrayLayout4f16
| LinePatternSourceLayout
| LinePatternCompositeLayout.

(** Modelled from the spec: the dynamic array container ([util/struct_array],
    [data/array_types]) is an external collaborator "used to accumulate vertex
    data", with "1 or 2 float components per vertex" for a source binder and
    twice as many for a composite one, 4 bytes each; the attributes of both
    binders are typed ['Float32'].  An array is the sequence of its entries,
    one per [emplaceBack], each the list of its stored components:
    [emplaceBack] coerces every argument to a number and stores it rounded
    to binary32.  The layout is taken to have one component per argument, as
    [layoutType] arranges.  [reserve] only grows the capacity. *)
Record StructArray := {
  layout : LayoutClass;
  capacity : nat;
  entries : list (list jsvalue)
}.

Module PaintArray.
Definition new (l : LayoutClass) : StructArray :=
  {| layout := l; capacity := 0; entries := [] |}.
Definition length (arr : StructArray) : nat := List.length (entries arr).
Definition reserve (n : nat) (arr : StructArray) : StructArray :=
  {| layout := layout arr; capacity := Nat.max (capacity arr) n;
     entries := entries arr |}.
Definition components (args : list jsvalue) : list jsvalue :=
  map (fun arg => VNum (fround (ToNumber (Some arg)))) args.
Definition emplaceBack (args : list jsvalue) (arr : StructArray) : StructArray :=
  {| layout := layout arr; capacity := Nat.max (capacity arr) (S (length arr));
     entries := (entries arr ++ [components args]) |}.
End PaintArray.

Record StructArrayMember := {
  member_name : string;
  member_type : string;
  components : nat;
  offset : nat
}.

(** A GPU vertex buffer handle. *)
Record VertexBuffer := { buffer_id : nat }.

Definition UniformLocation : Type := nat.

(** Calls that reach the GPU. *)
Inductive gl_call :=
| createVertexBuffer (id : nat) (array : StructArray)
                     (attributes : list StructArrayMember)
| destroyVertexBuffer (id : nat)
| uniform1f (location : option UniformLocation) (x : option jsvalue)
| uniform4f (location : option UniformLocation) (x y z w : option jsvalue).

(** Modelled from the spec: the GPU context ([gl/context]) offers
    [createVertexBuffer(byteArray, attributeLayout) -> bufferHandle],
    [bufferHandle.destroy()] and the uniform-set primitives.  The context
    is the log of those calls, oldest first, and the next free handle. *)
Record Context := {
  gl : list gl_call;
  next_buffer : nat
}.

Module Gpu.
Definition createVertexBuffer (array : StructArray)
    (attributes : list StructArrayMember) (context : Context)
    : VertexBuffer * Context :=
  ( {| buffer_id := next_buffer context |},
    {| gl := gl context ++ [createVertexBuffer (next_buffer context) array attributes];
       next_buffer := S (next_buffer context) |} ).

Definition destroy (buffer : VertexBuffer) (context : Context) : Context :=
  {| gl := gl context ++ [destroyVertexBuffer (buffer_id buffer)];
     next_buffer := next_buffer context |}.

Definition call (c : gl_call) (context : Context) : Context :=
  {| gl := gl context ++ [c]; next_buffer := next_buffer context |}.
End Gpu.

(** A linked shader program: its table of uniform locations. *)
Record Program := { uniforms : string -> option UniformLocation }.

(** [statistics: { max: number }]. *)
Module Statistics.
Record t := { max : number }.
End Statistics.

(** [PossiblyEvaluatedValue]: a constant, a source expression or a
    composite expression, told apart by [kind]. *)
Inductive PossiblyEvaluatedValue :=
| PEConstant (v : jsvalue)
| PESource (e : SourceExpression)
| PEComposite (e : CompositeExpression).

Definition kind (v : PossiblyEvaluatedValue) : string :=
  match v with
  | PEConstant _ => "constant"
  | PESource _ => "source"
  | PEComposite _ => "composite"
  end.

(** [PossiblyEvaluatedPropertyValue] of [style/properties], with the parts
    of [value.property] that [createDynamic] reads. *)
Record PossiblyEvaluatedPropertyValue := {
  property_function : bool;      (* property.specification['property-function'] *)
  specification_type : string;   (* property.specification.type *)
  property_useIntegerZoom : bool;  (* property.useIntegerZoom *)
  pe_value : PossiblyEvaluatedValue    (* value.value *)
}.

(** Modelled from the spec: [constantOr] of [style/properties] "resolves the
    current value, falling back to the stored constant when the
    possibly-evaluated value itself is not concrete". *)
Definition constantOr (currentValue : PossiblyEvaluatedPropertyValue)
    (fallback : jsvalue) : jsvalue :=
  match pe_value currentValue with
  | PEConstant v => v
  | _ => fallback
  end.

(** The [i]-th iteration variable of [for (let i = start; i < length; i++)]
    runs [length - start] times; [for_loop n body] runs [body] [n] times. *)
Fixpoint for_loop {St : Type} (n : nat) (body : St -> St) (s : St) : St :=
  match n with
  | O => s
  | S n' => for_loop n' body (body s)
  end.

(** The same loop written with its counter and its test, with fuel. *)
Fixpoint for_counter {St : Type} (fuel i length : nat) (body : St -> St) (s : St)
    : option St :=
  if Nat.ltb i length then
    match fuel with
    | O => None
    | S fuel' => for_counter fuel' (S i) length body (body s)
    end
  else Some s.

(** [names[0]] inside a template literal: an empty array yields the text
    [undefined]. *)
Definition first_name (names : list string) : string :=
  match names with
  | name :: _ => name
  | [] => "undefined"
  end.

(** [if (o)] on a field that always holds an object: every object is
    truthy, an array without elements included. *)
Definition truthy_object {A : Type} (o : A) : bool := true.

(* ================================================================== *)
(** ** The three binders                                               *)
(* ================================================================== *)

Module ConstantBinder.

Record t := {
  value : jsvalue;
  names : list string;
  type : string;
  statistics : Statistics.t
}.

Definition new (value : jsvalue) (names : list string) (type : string) : t :=
  {| value := value; names := names; type := type;
     statistics := {| Statistics.max := neg_Infinity |} |}.

Definition defines (this : t) : list string :=
  map (fun name => ("#define HAS_UNIFORM_u_" ++ name)%string) (names this).

Definition populatePaintArray (this : t) (length : nat) (feature : Feature) : t :=
  this.

Definition upload (this : t) (context : Context) : t * Context :=
  (this, context).

Definition destroy (this : t) (context : Context) : t * Context :=
  (this, context).

Definition setUniforms (this : t) (context : Context) (program : Program)
    (globals : GlobalProperties.t) (currentValue : PossiblyEvaluatedPropertyValue)
    : t * Context :=
  let value := constantOr currentValue (value this) in
  (this,
   fold_left
     (fun context name =>
        if type this =? "color" then
          Gpu.call (uniform4f (uniforms program ("u_" ++ name)%string)
                              (channel r value) (channel g value)
                              (channel b value) (channel a value)) context
        else
          Gpu.call (uniform1f (uniforms program ("u_" ++ name)%string) (Some value))
                   context)
     (names this) context).

End ConstantBinder.

Module SourceExpressionBinder.

Record t := {
  expression : SourceExpression;
  names : list string;
  type : string;
  statistics : Statistics.t;
  paintVertexArray : StructArray;
  paintVertexAttributes : list StructArrayMember;
  paintVertexBuffer : option VertexBuffer
}.

Definition new (expression : SourceExpression) (names : list string)
    (type : string) (layout : LayoutClass) : t :=
  {| expression := expression; names := names; type := type;
     statistics := {| Statistics.max := neg_Infinity |};
     paintVertexAttributes :=
       mapi (fun name i =>
               {| member_name := ("a_" ++ name)%string;
                  member_type := "Float32";
                  components :=
                    if (type =? "color") || includes "pattern" name then 2 else 1;
                  offset := if includes "pattern" name then i * 8 else 0 |})
            names;
     paintVertexArray := PaintArray.new layout;
     paintVertexBuffer := None |}.

Definition defines (this : t) : list string := [].

Definition with_array (this : t) (paintArray : StructArray) (stats : Statistics.t) : t :=
  {| expression := expression this; names := names this; type := type this;
     statistics := stats;
     paintVertexArray := paintArray;
     paintVertexAttributes := paintVertexAttributes this;
     paintVertexBuffer := paintVertexBuffer this |}.

Definition populatePaintArray (this : t) (length : nat) (feature : Feature) : t :=
  let paintArray := paintVertexArray this in
  let start := PaintArray.length paintArray in
  let paintArray := PaintArray.reserve length paintArray in
  let value := source_evaluate (expression this) {| GlobalProperties.zoom := of_Z 0 |} feature in
  if type this =? "color" then
    let color := packColor value in
    with_array this
      (for_loop (length - start)
         (PaintArray.emplaceBack [VNum (fst color); VNum (snd color)]) paintArray)
      (statistics this)
  else
    with_array this
      (for_loop (length - start) (PaintArray.emplaceBack [value]) paintArray)
      {| Statistics.max :=
           Math_max [Statistics.max (statistics this); ToNumber (Some value)] |}.

Definition upload (this : t) (context : Context) : t * Context :=
  if truthy_object (paintVertexArray this) then
    let '(buffer, context) :=
      Gpu.createVertexBuffer (paintVertexArray this) (paintVertexAttributes this)
                             context in
    ({| expression := expression this; names := names this; type := type this;
        statistics := statistics this;
        paintVertexArray := paintVertexArray this;
        paintVertexAttributes := paintVertexAttributes this;
        paintVertexBuffer := Some buffer |}, context)
  else (this, context).

Definition destroy (this : t) (context : Context) : t * Context :=
  match paintVertexBuffer this with
  | Some buffer => (this, Gpu.destroy buffer context)
  | None => (this, context)
  end.

Definition setUniforms (this : t) (context : Context) (program : Program)
    : t * Context :=
  (this,
   Gpu.call (uniform1f (uniforms program ("a_" ++ first_name (names this) ++ "_t")%string)
                       (Some (VNum (of_Z 0))))
            context).

End SourceExpressionBinder.

Module CompositeExpressionBinder.

Record t := {
  expression : CompositeExpression;
  names : list string;
  type : string;
  useIntegerZoom : bool;
  zoom : number;
  statistics : Statistics.t;
  paintVertexArray : StructArray;
  paintVertexAttributes : list StructArrayMember;
  paintVertexBuffer : option VertexBuffer
}.

Definition new (expression : CompositeExpression) (names : list string)
    (type : string) (useIntegerZoom : bool) (zoom : number)
    (layout : LayoutClass) : t :=
  {| expression := expression; names := names; type := type;
     useIntegerZoom := useIntegerZoom; zoom := zoom;
     statistics := {| Statistics.max := neg_Infinity |};
     paintVertexAttributes :=
       map (fun name =>
              {| member_name := ("a_" ++ name)%string;
                 member_type := "Float32";
                 components := if type =? "color" then 4 else 2;
                 offset := 0 |})
           names;
     paintVertexArray := PaintArray.new layout;
     paintVertexBuffer := None |}.

Definition defines (this : t) : list string := [].

Definition with_array (this : t) (paintArray : StructArray) (stats : Statistics.t) : t :=
  {| expression := expression this; names := names this; type := type this;
     useIntegerZoom := useIntegerZoom this; zoom := zoom this;
     statistics := stats;
     paintVertexArray := paintArray;
     paintVertexAttributes := paintVertexAttributes this;
     paintVertexBuffer := paintVertexBuffer this |}.

Definition populatePaintArray (this : t) (length : nat) (feature : Feature) : t :=
  let paintArray := paintVertexArray this in
  let start := PaintArray.length paintArray in
  let paintArray := PaintArray.reserve length paintArray in
  let min := composite_evaluate (expression this)
               {| GlobalProperties.zoom := zoom this |} feature in
  let max := composite_evaluate (expression this)
               {| GlobalProperties.zoom := add (zoom this) (of_Z 1) |} feature in
  if type this =? "color" then
    let minColor := packColor min in
    let maxColor := packColor max in
    with_array this
      (for_loop (length - start)
         (PaintArray.emplaceBack [VNum (fst minColor); VNum (snd minColor);
                                  VNum (fst maxColor); VNum (snd maxColor)])
         paintArray)
      (statistics this)
  else
    with_array this
      (for_loop (length - start) (PaintArray.emplaceBack [min; max]) paintArray)
      {| Statistics.max := Math_max [Statistics.max (statistics this);
                              ToNumber (Some min); ToNumber (Some max)] |}.

Definition upload (this : t) (context : Context) : t * Context :=
  if truthy_object (paintVertexArray this) then
    let '(buffer, context) :=
      Gpu.createVertexBuffer (paintVertexArray this) (paintVertexAttributes this)
                             context in
    ({| expression := expression this; names := names this; type := type this;
        useIntegerZoom := useIntegerZoom this; zoom := zoom this;
        statistics := statistics this;
        paintVertexArray := paintVertexArray this;
        paintVertexAttributes := paintVertexAttributes this;
        paintVertexBuffer := Some buffer |}, context)
  else (this, context).

Definition destroy (this : t) (context : Context) : t * Context :=
  match paintVertexBuffer this with
  | Some buffer => (this, Gpu.destroy buffer context)
  | None => (this, context)
  end.

Definition interpolationFactor (this : t) (currentZoom : number) : number :=
  if useIntegerZoom this then
    composite_interpolationFactor (expression this)
      (Math_floor currentZoom) (zoom this) (add (zoom this) (of_Z 1))
  else
    composite_interpolationFactor (expression this)
      currentZoom (zoom this) (add (zoom this) (of_Z 1)).

Definition setUniforms (this : t) (context : Context) (program : Program)
    (globals : GlobalProperties.t) : t * Context :=
  (this,
   Gpu.call (uniform1f (uniforms program ("a_" ++ first_name (names this) ++ "_t")%string)
                       (Some (VNum (interpolationFactor this (GlobalProperties.zoom globals)))))
            context).

End CompositeExpressionBinder.

(** [Binder<T>]: the interface and its three implementations. *)
Inductive Binder :=
| Constant (binder : ConstantBinder.t)
| Source (binder : SourceExpressionBinder.t)
| Composite (binder : CompositeExpressionBinder.t).

Module Binder.

Definition statistics (this : Binder) : Statistics.t :=
  match this with
  | Constant c => ConstantBinder.statistics c
  | Source s => SourceExpressionBinder.statistics s
  | Composite z => CompositeExpressionBinder.statistics z
  end.

Definition type (this : Binder) : string :=
  match this with
  | Constant c => ConstantBinder.type c
  | Source s => SourceExpressionBinder.type s
  | Composite z => CompositeExpressionBinder.type z
  end.

(** [binder.paintVertexBuffer] for the two classes that have the field;
    a [ConstantBinder] has none. *)
Definition paintVertexBuffer (this : Binder) : option VertexBuffer :=
  match this with
  | Constant _ => None
  | Source s => SourceExpressionBinder.paintVertexBuffer s
  | Composite z => CompositeExpressionBinder.paintVertexBuffer z
  end.

Definition populatePaintArray (this : Binder) (length : nat) (feature : Feature)
    : Binder :=
  match this with
  | Constant c => Constant (ConstantBinder.populatePaintArray c length feature)
  | Source s => Source (SourceExpressionBinder.populatePaintArray s length feature)
  | Composite z =>
      Composite (CompositeExpressionBinder.populatePaintArray z length feature)
  end.

Definition upload (this : Binder) (context : Context) : Binder * Context :=
  match this with
  | Constant c => let '(c, k) := ConstantBinder.upload c context in (Constant c, k)
  | Source s =>
      let '(s, k) := SourceExpressionBinder.upload s context in (Source s, k)
  | Composite z =>
      let '(z, k) := CompositeExpressionBinder.upload z context in (Composite z, k)
  end.

Definition destroy (this : Binder) (context : Context) : Binder * Context :=
  match this with
  | Constant c => let '(c, k) := ConstantBinder.destroy c context in (Constant c, k)
  | Source s =>
      let '(s, k) := SourceExpressionBinder.destroy s context in (Source s, k)
  | Composite z =>
      let '(z, k) := CompositeExpressionBinder.destroy z context in (Composite z, k)
  end.

Definition defines (this : Binder) : list string :=
  match this with
  | Constant c => ConstantBinder.defines c
  | Source s => SourceExpressionBinder.defines s
  | Composite z => CompositeExpressionBinder.defines z
  end.

Definition setUniforms (this : Binder) (context : Context) (program : Program)
    (globals : GlobalProperties.t) (currentValue : PossiblyEvaluatedPropertyValue)
    : Binder * Context :=
  match this with
  | Constant c =>
      let '(c, k) := ConstantBinder.setUniforms c context program globals currentValue in
      (Constant c, k)
  | Source s =>
      let '(s, k) := SourceExpressionBinder.setUniforms s context program in
      (Source s, k)
  | Composite z =>
      let '(z, k) := CompositeExpressionBinder.setUniforms z context program globals in
      (Composite z, k)
  end.

(** A binder as its constructor leaves it. *)
Inductive constructed : Binder -> Prop :=
| constructed_constant value names type :
    constructed (Constant (ConstantBinder.new value names type))
| constructed_source expression names type layout :
    constructed (Source (SourceExpressionBinder.new expression names type layout))
| constructed_composite expression names type useIntegerZoom zoom layout :
    constructed (Composite (CompositeExpressionBinder.new
                              expression names type useIntegerZoom zoom layout)).

(** A method call on a binder, with its arguments. *)
Inductive call :=
| call_populatePaintArray (length : nat) (feature : Feature)
| call_upload
| call_destroy
| call_defines
| call_setUniforms (program : Program) (globals : GlobalProperties.t)
                   (currentValue : PossiblyEvaluatedPropertyValue).

Definition invoke (c : call) (state : Binder * Context) : Binder * Context :=
  let '(this, context) := state in
  match c with
  | call_populatePaintArray length feature =>
      (populatePaintArray this length feature, context)
  | call_upload => upload this context
  | call_destroy => destroy this context
  | call_defines => let _ := defines this in (this, context)
  | call_setUniforms program globals currentValue =>
      setUniforms this context program globals currentValue
  end.

Definition is_populatePaintArray (c : call) : bool :=
  match c with call_populatePaintArray _ _ => true | _ => false end.

(** A sequence of calls, first call first. *)
Definition run (calls : list call) (state : Binder * Context) : Binder * Context :=
  fold_left (fun state c => invoke c state) calls state.

(** The binders whose [populatePaintArray] takes the numeric branch:
    source and composite binders whose [type] is not ['color']. *)
Definition numeric_attribute (this : Binder) : bool :=
  match this with
  | Constant _ => false
  | Source s => negb (SourceExpressionBinder.type s =? "color")
  | Composite z => negb (CompositeExpressionBinder.type z =? "color")
  end.

End Binder.

(* ================================================================== *)
(** ** The table functions                                             *)
(* ================================================================== *)

(** What the two identifiers [LinePatternSourceExpressionLayoutArray] and
    [LinePatternCompositeExpressionLayoutArray] resolve to where
    [getLayoutException] reads them: [None] when the identifier has no
    binding. *)
Record Scope := {
  LinePatternSourceExpressionLayoutArray : option LayoutClass;
  LinePatternCompositeExpressionLayoutArray : option LayoutClass
}.

(** The scope of the module as it is written: its only import from
    [./array_types] is [{ StructArrayLayout1f4, StructArrayLayout2f8,
    StructArrayLayout4f16 }], and the file declares neither identifier. *)
Definition module_scope : Scope :=
  {| LinePatternSourceExpressionLayoutArray := None;
     LinePatternCompositeExpressionLayoutArray := None |}.

(** A scope in which both identifiers are bound, as an import of the two
    classes would make it. *)
Definition imported_scope : Scope :=
  {| LinePatternSourceExpressionLayoutArray := Some LinePatternSourceLayout;
     LinePatternCompositeExpressionLayoutArray := Some LinePatternCompositeLayout |}.

(** Reading an identifier: an unbound one raises [ReferenceError]. *)
Definition resolve {A : Type} (identifier : string) (binding : option A)
    : completion A :=
  match binding with
  | Some v => Normal v
  | None => Throw (ReferenceError identifier)
  end.

(** The table is read for paint property names, which all contain a dash;
    a name that [Object.prototype] also has would find that member instead
    of a list of names and is outside this definition. *)
Definition paintAttributeName (property type : string) : list string :=
  let attributeNameExceptions : object (list string) :=
    [ ("text-opacity", ["opacity"]);
      ("icon-opacity", ["opacity"]);
      ("text-color", ["fill_color"]);
      ("icon-color", ["fill_color"]);
      ("text-halo-color", ["halo_color"]);
      ("icon-halo-color", ["halo_color"]);
      ("text-halo-blur", ["halo_blur"]);
      ("icon-halo-blur", ["halo_blur"]);
      ("text-halo-width", ["halo_width"]);
      ("icon-halo-width", ["halo_width"]);
      ("line-gap-width", ["gapwidth"]);
      ("line-pattern", ["pattern_a"; "pattern_b"; "pattern_size"]) ] in
  match get attributeNameExceptions property with
  | Some names => names
  | None => [dashes_to_underscores (remove_first (type ++ "-")%string property)]
  end.

(** The object literal is built on every call, so both identifiers are
    read, in order, before the table is indexed.  The result is
    [propertyExceptions[property]]: the entry of ['line-pattern'], a member
    of [Object.prototype] for a property of such a name, else [undefined]. *)
Definition getLayoutException (scope : Scope) (property : string)
    : completion (indexed (object LayoutClass)) :=
  source <- resolve "LinePatternSourceExpressionLayoutArray"
                    (LinePatternSourceExpressionLayoutArray scope) ;;
  composite <- resolve "LinePatternCompositeExpressionLayoutArray"
                       (LinePatternCompositeExpressionLayoutArray scope) ;;
  let propertyExceptions : object (object LayoutClass) :=
    [ ("line-pattern", [("source", source); ("composite", composite)]) ] in
  Normal (lookup propertyExceptions property).

(** The third argument of [layoutType]: the function is private to the
    module and both of its calls pass one of two literals. *)
Inductive BinderType := SourceType | CompositeType.

Definition binderType_key (binderType : BinderType) : string :=
  match binderType with
  | SourceType => "source"
  | CompositeType => "composite"
  end.

(** [layoutException && layoutException[binderType] ||
    defaultLayouts[type][binderType]].  Neither literal names a member of
    [Object.prototype] or of a function, so indexing a table with it finds
    an own entry or nothing, and indexing an inherited member with it gives
    [undefined] ([None]); indexing [undefined] itself raises [TypeError]. *)
Definition layoutType (scope : Scope) (property type : string)
    (binderType : BinderType) : completion (option LayoutClass) :=
  let defaultLayouts : object (object LayoutClass) :=
    [ ("color", [("source", StructArrayLayout2f8);
                 ("composite", StructArrayLayout4f16)]);
      ("number", [("source", StructArrayLayout1f4);
                  ("composite", StructArrayLayout2f8)]) ] in
  layoutException <- getLayoutException scope property ;;
  match match layoutException with
        | Own exception => get exception (binderType_key binderType)
        | Inherited _ => None
        | Undefined => None
        end with
  | Some layout => Normal (Some layout)
  | None =>
      match lookup defaultLayouts type with
      | Own byBinderType => Normal (get byBinderType (binderType_key binderType))
      | Inherited _ => Normal None
      | Undefined => Throw TypeError
      end
  end.

(* ================================================================== *)
(** ** The style layer, as [createDynamic] reads it                    *)
(* ================================================================== *)

(** An entry of [layer.paint._values]: a [PossiblyEvaluatedPropertyValue],
    or a plain value that is not an instance of that class. *)
Inductive PaintValue :=
| PlainValue (v : jsvalue)
| PossiblyEvaluated (v : PossiblyEvaluatedPropertyValue).

(** A typed style layer.  [layer.paint.get(property)] returns the entry of
    [layer.paint._values] under [property]. *)
Record Layer := {
  layer_id : string;
  layer_type : string;
  paint_values : object PaintValue
}.

(* ================================================================== *)
(** ** ProgramConfiguration                                            *)
(* ================================================================== *)

Module ProgramConfiguration.

Record t := {
  binders : object Binder;
  cacheKey : string;
  layoutAttributes : option (list StructArrayMember);
  _buffers : list VertexBuffer
}.

Definition new : t :=
  {| binders := []; cacheKey := ""; layoutAttributes := None; _buffers := [] |}.

Definition with_binders (this : t) (binders : object Binder) : t :=
  {| binders := binders; cacheKey := cacheKey this;
     layoutAttributes := layoutAttributes this; _buffers := _buffers this |}.

(** [new PaintVertexArray()] on what [layoutType] returned: [undefined] is
    not a constructor. *)
Definition constructor_of (layout : option LayoutClass) : completion LayoutClass :=
  match layout with
  | Some l => Normal l
  | None => Throw TypeError
  end.

(** The body of the [for ... in] loop of [createDynamic], on the
    configuration under construction and the [keys] pushed so far. *)
Definition createDynamic_body (scope : Scope) (type_of_layer : string)
    (zoom : number) (filterProperties : string -> bool)
    (state : t * list string) (entry : string * PaintValue)
    : completion (t * list string) :=
  let '(self, keys) := state in
  let '(property, value) := entry in
  if negb (filterProperties property) then Normal state
  else
    match value with
    | PlainValue _ => Normal state
    | PossiblyEvaluated value =>
        if negb (property_function value) then Normal state
        else
          let names := paintAttributeName property type_of_layer in
          let type := specification_type value in
          let useIntegerZoom := property_useIntegerZoom value in
          match pe_value value with
          | PEConstant c =>
              Normal
                (with_binders self
                   (set (binders self) property
                      (Constant (ConstantBinder.new (VConstant c) names type))),
                 keys ++ [("/u_" ++ property)%string])
          | PESource expression =>
              layout <- layoutType scope property type SourceType ;;
              structArrayLayout <- constructor_of layout ;;
              Normal
                (with_binders self
                   (set (binders self) property
                      (Source (SourceExpressionBinder.new
                                 expression names type structArrayLayout))),
                 keys ++ [("/a_" ++ property)%string])
          | PEComposite expression =>
              layout <- layoutType scope property type CompositeType ;;
              structArrayLayout <- constructor_of layout ;;
              Normal
                (with_binders self
                   (set (binders self) property
                      (Composite (CompositeExpressionBinder.new
                                    expression names type useIntegerZoom zoom
                                    structArrayLayout))),
                 keys ++ [("/z_" ++ property)%string])
          end
    end.

Fixpoint createDynamic_loop (scope : Scope) (type_of_layer : string)
    (zoom : number) (filterProperties : string -> bool)
    (entries : object PaintValue) (state : t * list string)
    : completion (t * list string) :=
  match entries with
  | [] => Normal state
  | entry :: rest =>
      state <- createDynamic_body scope type_of_layer zoom filterProperties
                                  state entry ;;
      createDynamic_loop scope type_of_layer zoom filterProperties rest state
  end.

Definition createDynamic (scope : Scope) (layer : Layer) (zoom : number)
    (filterProperties : string -> bool) : completion t :=
  state <- createDynamic_loop scope (layer_type layer) zoom filterProperties
                              (paint_values layer) (new, []) ;;
  let '(self, keys) := state in
  Normal {| binders := binders self; cacheKey := join (sort keys);
            layoutAttributes := layoutAttributes self;
            _buffers := _buffers self |}.

(** The loop of [populatePaintArrays] over the binders still to visit.
    Binders populated before an exception stay populated. *)
Fixpoint populatePaintArrays_loop (scope : Scope) (length : nat)
    (feature : Feature) (todo : object Binder)
    : object Binder * completion unit :=
  match todo with
  | [] => ([], Normal tt)
  | (property, binder) :: rest =>
      match getLayoutException scope property with
      | Throw e => (todo, Throw e)
      | Normal (Own _) | Normal (Inherited _) =>
          let '(rest, outcome) :=
            populatePaintArrays_loop scope length feature rest in
          ((property, binder) :: rest, outcome)
      | Normal Undefined =>
          let '(rest, outcome) :=
            populatePaintArrays_loop scope length feature rest in
          ((property, Binder.populatePaintArray binder length feature) :: rest,
           outcome)
      end
  end.

Definition populatePaintArrays (scope : Scope) (this : t) (length : nat)
    (feature : Feature) : t * completion unit :=
  let '(binders, outcome) :=
    populatePaintArrays_loop scope length feature (binders this) in
  (with_binders this binders, outcome).

Definition defines (this : t) : list string :=
  flat_map (fun entry => Binder.defines (snd entry)) (binders this).

Fixpoint setUniforms_loop (program : Program)
    (properties : string -> PossiblyEvaluatedPropertyValue)
    (globals : GlobalProperties.t) (todo : object Binder) (context : Context)
    : object Binder * Context :=
  match todo with
  | [] => ([], context)
  | (property, binder) :: rest =>
      if includes "pattern" property then
        let '(rest, context) :=
          setUniforms_loop program properties globals rest context in
        ((property, binder) :: rest, context)
      else
        let '(binder, context) :=
          Binder.setUniforms binder context program globals (properties property) in
        let '(rest, context) :=
          setUniforms_loop program properties globals rest context in
        ((property, binder) :: rest, context)
  end.

Definition setUniforms (this : t) (context : Context) (program : Program)
    (properties : string -> PossiblyEvaluatedPropertyValue)
    (globals : GlobalProperties.t) : t * Context :=
  let '(binders, context) :=
    setUniforms_loop program properties globals (binders this) context in
  (with_binders this binders, context).

Definition getPaintVertexBuffers (this : t) : list VertexBuffer := _buffers this.

Fixpoint upload_loop (todo : object Binder) (context : Context)
    : object Binder * Context :=
  match todo with
  | [] => ([], context)
  | (property, binder) :: rest =>
      let '(binder, context) := Binder.upload binder context in
      let '(rest, context) := upload_loop rest context in
      ((property, binder) :: rest, context)
  end.

(** The second loop of [upload]: the buffers of the source and composite
    binders that have one. *)
Fixpoint collect_buffers (todo : object Binder) : list VertexBuffer :=
  match todo with
  | [] => []
  | (_, binder) :: rest =>
      match Binder.paintVertexBuffer binder with
      | Some buffer => buffer :: collect_buffers rest
      | None => collect_buffers rest
      end
  end.

Definition upload (this : t) (context : Context) : t * Context :=
  let '(binders, context) := upload_loop (binders this) context in
  ({| binders := binders; cacheKey := cacheKey this;
      layoutAttributes := layoutAttributes this;
      _buffers := collect_buffers binders |}, context).

Fixpoint destroy_loop (todo : object Binder) (context : Context)
    : object Binder * Context :=
  match todo with
  | [] => ([], context)
  | (property, binder) :: rest =>
      let '(binder, context) := Binder.destroy binder context in
      let '(rest, context) := destroy_loop rest context in
      ((property, binder) :: rest, context)
  end.

Definition destroy (this : t) (context : Context) : t * completion unit * Context :=
  let '(binders, context) := destroy_loop (binders this) context in
  (with_binders this binders, Normal tt, context).

(** A configuration whose binders are as their constructors left them. *)
Definition constructed (this : t) : Prop :=
  Forall (fun entry => Binder.constructed (snd entry)) (binders this).

(** A method call on a configuration. *)
Inductive call :=
| call_populatePaintArrays (length : nat) (feature : Feature)
| call_defines
| call_setUniforms (program : Program)
                   (properties : string -> PossiblyEvaluatedPropertyValue)
                   (globals : GlobalProperties.t)
| call_getPaintVertexBuffers
| call_upload
| call_destroy.

Definition is_upload (c : call) : bool :=
  match c with call_upload => true | _ => false end.

(** One call.  A thrown exception leaves the object as far as the method
    got; the caller may go on using it. *)
Definition invoke (scope : Scope) (c : call) (state : t * Context) : t * Context :=
  let '(this, context) := state in
  match c with
  | call_populatePaintArrays length feature =>
      (fst (populatePaintArrays scope this length feature), context)
  | call_defines => let _ := defines this in (this, context)
  | call_setUniforms program properties globals =>
      setUniforms this context program properties globals
  | call_getPaintVertexBuffers => let _ := getPaintVertexBuffers this in (this, context)
  | call_upload => upload this context
  | call_destroy =>
      let '(this, _, context) := destroy this context in (this, context)
  end.

Definition run (scope : Scope) (calls : list call) (state : t * Context)
    : t * Context :=
  fold_left (fun state c => invoke scope c state) calls state.

End ProgramConfiguration.

(* ================================================================== *)
(** ** Observations on the GPU log                                     *)
(* ================================================================== *)

(** Between [before] and [after] exactly one GPU call was made, and it
    created a vertex buffer from [array] with layout [attributes]. *)
Definition creates_vertex_buffer (before after : Context) (array : StructArray)
    (attributes : list StructArrayMember) : Prop :=
  exists id, gl after = gl before ++ [createVertexBuffer id array attributes].

Definition is_uniform_call (c : gl_call) : bool :=
  match c with
  | uniform1f _ _ | uniform4f _ _ _ _ _ => true
  | _ => false
  end.

(** No binder of the object holds a GPU vertex buffer. *)
Definition no_buffer (binders : object Binder) : Prop :=
  Forall (fun entry => Binder.paintVertexBuffer (snd entry) = None) binders.

(** From [before] to [after] the only GPU calls were uniform writes: no
    buffer was created and none was destroyed. *)
Definition only_uniform_calls (before after : Context) : Prop :=
  next_buffer after = next_buffer before /\
  exists calls, gl after = gl before ++ calls /\
                forallb is_uniform_call calls = true.

(** The cache-key token of a paint property, in the specification's words:
    one token per accepted property, [/u_<property>] for the constant kind,
    [/a_<property>] for the source kind, [/z_<property>] for the composite
    kind; nothing for a property that the filter rejects or that is not
    data-driven. *)
Definition cache_key_token (filterProperties : string -> bool)
    (entry : string * PaintValue) : list string :=
  let '(property, value) := entry in
  if filterProperties property then
    match value with
    | PossiblyEvaluated v =>
        if property_function v then
          match pe_value v with
          | PEConstant _ => [("/u_" ++ property)%string]
          | PESource _ => [("/a_" ++ property)%string]
          | PEComposite _ => [("/z_" ++ property)%string]
          end
        else []
    | PlainValue _ => []
    end
  else [].

(** The accepted properties for which [createDynamic] asks [layoutType] for
    a struct-array layout: those of the source and composite kinds. *)
Definition needs_layout (filterProperties : string -> bool)
    (entry : string * PaintValue) : bool :=
  let '(property, value) := entry in
  filterProperties property &&
  match value with
  | PossiblyEvaluated v =>
      property_function v &&
      match pe_value v with
      | PEConstant _ => false
      | _ => true
      end
  | PlainValue _ => false
  end.

(** The declared value type of a paint property is ['color'] or
    ['number']. *)
Definition color_or_number (entry : string * PaintValue) : bool :=
  match snd entry with
  | PossiblyEvaluated v =>
      (specification_type v =? "color") || (specification_type v =? "number")
  | PlainValue _ => true
  end.

(** The order of [sort()]. *)
Definition string_le (x y : string) : Prop := String.leb x y = true.

(* ================================================================== *)
(** ** ProgramConfigurationSet                                         *)
(* ================================================================== *)

Module ProgramConfigurationSet.

(** [programConfigurations: {[string]: ProgramConfiguration}], keyed by
    layer id, in the order in which the ids were first stored.  (A layer id
    that is an array index would be visited first by [for ... in]; the
    properties proved of the set do not depend on the order of the visit.) *)
Record t := { programConfigurations : object ProgramConfiguration.t }.

Definition with_layoutAttributes (self : ProgramConfiguration.t)
    (layoutAttributes : list StructArrayMember) : ProgramConfiguration.t :=
  {| ProgramConfiguration.binders := ProgramConfiguration.binders self;
     ProgramConfiguration.cacheKey := ProgramConfiguration.cacheKey self;
     ProgramConfiguration.layoutAttributes := Some layoutAttributes;
     ProgramConfiguration._buffers := ProgramConfiguration._buffers self |}.

(** The body of the constructor's [for ... of] loop: the configuration is
    stored under [layer.id], read back (the id is an own key by then) and
    given its [layoutAttributes]; assigning to a property of [undefined]
    would raise [TypeError].  (An assignment under the key ['__proto__']
    would replace the prototype of the object instead of adding a key: the
    definition covers the layers with any other id.) *)
Definition new_body (scope : Scope) (layoutAttributes : list StructArrayMember)
    (zoom : number) (filterProperties : string -> bool)
    (programConfigurations : object ProgramConfiguration.t) (layer : Layer)
    : completion (object ProgramConfiguration.t) :=
  self <- ProgramConfiguration.createDynamic scope layer zoom filterProperties ;;
  let programConfigurations := set programConfigurations (layer_id layer) self in
  match get programConfigurations (layer_id layer) with
  | Some stored =>
      Normal (set programConfigurations (layer_id layer)
                  (with_layoutAttributes stored layoutAttributes))
  | None => Throw TypeError
  end.

Fixpoint new_loop (scope : Scope) (layoutAttributes : list StructArrayMember)
    (zoom : number) (filterProperties : string -> bool) (layers : list Layer)
    (programConfigurations : object ProgramConfiguration.t)
    : completion (object ProgramConfiguration.t) :=
  match layers with
  | [] => Normal programConfigurations
  | layer :: rest =>
      programConfigurations <-
        new_body scope layoutAttributes zoom filterProperties
                 programConfigurations layer ;;
      new_loop scope layoutAttributes zoom filterProperties rest
               programConfigurations
  end.

Definition new (scope : Scope) (layoutAttributes : list StructArrayMember)
    (layers : list Layer) (zoom : number) (filterProperties : string -> bool)
    : completion t :=
  programConfigurations <-
    new_loop scope layoutAttributes zoom filterProperties layers [] ;;
  Normal {| programConfigurations := programConfigurations |}.

(** An exception of one configuration ends the loop; the configurations
    visited before it stay populated. *)
Fixpoint populatePaintArrays_loop (scope : Scope) (length : nat)
    (feature : Feature) (todo : object ProgramConfiguration.t)
    : object ProgramConfiguration.t * completion unit :=
  match todo with
  | [] => ([], Normal tt)
  | (key, configuration) :: rest =>
      match ProgramConfiguration.populatePaintArrays scope configuration
              length feature with
      | (configuration, Throw e) => ((key, configuration) :: rest, Throw e)
      | (configuration, Normal _) =>
          let '(rest, outcome) :=
            populatePaintArrays_loop scope length feature rest in
          ((key, configuration) :: rest, outcome)
      end
  end.

Definition populatePaintArrays (scope : Scope) (this : t) (length : nat)
    (feature : Feature) : t * completion unit :=
  let '(programConfigurations, outcome) :=
    populatePaintArrays_loop scope length feature (programConfigurations this) in
  ({| programConfigurations := programConfigurations |}, outcome).

(** [get(layerId)] is [this.programConfigurations[layerId]]. *)
Definition get (this : t) (layerId : string) : indexed ProgramConfiguration.t :=
  lookup (programConfigurations this) layerId.

Fixpoint upload_loop (todo : object ProgramConfiguration.t) (context : Context)
    : object ProgramConfiguration.t * Context :=
  match todo with
  | [] => ([], context)
  | (layerId, configuration) :: rest =>
      let '(configuration, context) :=
        ProgramConfiguration.upload configuration context in
      let '(rest, context) := upload_loop rest context in
      ((layerId, configuration) :: rest, context)
  end.

Definition upload (this : t) (context : Context) : t * Context :=
  let '(programConfigurations, context) :=
    upload_loop (programConfigurations this) context in
  ({| programConfigurations := programConfigurations |}, context).

Fixpoint destroy_loop (todo : object ProgramConfiguration.t) (context : Context)
    : object ProgramConfiguration.t * Context :=
  match todo with
  | [] => ([], context)
  | (layerId, configuration) :: rest =>
      let '(configuration, _, context) :=
        ProgramConfiguration.destroy configuration context in
      let '(rest, context) := destroy_loop rest context in
      ((layerId, configuration) :: rest, context)
  end.

Definition destroy (this : t) (context : Context) : t * Context :=
  let '(programConfigurations, context) :=
    destroy_loop (programConfigurations this) context in
  ({| programConfigurations := programConfigurations |}, context).

End ProgramConfigurationSet.

(* ================================================================== *)
(** ** Reference descriptions used by the properties                   *)
(* ================================================================== *)

(** The properties that [populatePaintArrays] passes over: those for which
    [getLayoutException] returns something truthy, which are ['line-pattern']
    and the names that [Object.prototype] has. *)
Definition passed_over (property : string) : bool :=
  (property =? "line-pattern") || is_inherited property.

(** The keys of [attributeNameExceptions] in [paintAttributeName]. *)
Definition attribute_name_exceptions : list string :=
  [ "text-opacity"; "icon-opacity"; "text-color"; "icon-color";
    "text-halo-color"; "icon-halo-color"; "text-halo-blur"; "icon-halo-blur";
    "text-halo-width"; "icon-halo-width"; "line-gap-width"; "line-pattern" ].

(** A paint property for which [createDynamic] makes a binder: accepted by
    the filter, a [PossiblyEvaluatedPropertyValue], data-driven by its
    specification. *)
Definition accepted (filterProperties : string -> bool)
    (entry : string * PaintValue) : bool :=
  filterProperties (fst entry) &&
  match snd entry with
  | PossiblyEvaluated v => property_function v
  | PlainValue _ => false
  end.


(** The GPU calls one binder's [setUniforms] makes, in order. *)
Definition uniform_writes (this : Binder) (program : Program)
    (globals : GlobalProperties.t) (currentValue : PossiblyEvaluatedPropertyValue)
    : list gl_call :=
  match this with
  | Constant c =>
      let value := constantOr currentValue (ConstantBinder.value c) in
      map (fun name =>
             if ConstantBinder.type c =? "color" then
               uniform4f (uniforms program ("u_" ++ name)%string)
                         (channel r value) (channel g value)
                         (channel b value) (channel a value)
             else
               uniform1f (uniforms program ("u_" ++ name)%string) (Some value))
          (ConstantBinder.names c)
  | Source s =>
      [uniform1f (uniforms program
                    ("a_" ++ first_name (SourceExpressionBinder.names s) ++ "_t")%string)
                 (Some (VNum (of_Z 0)))]
  | Composite z =>
      [uniform1f (uniforms program
                    ("a_" ++ first_name (CompositeExpressionBinder.names z) ++ "_t")%string)
                 (Some (VNum (CompositeExpressionBinder.interpolationFactor
                                z (GlobalProperties.zoom globals))))]
  end.

(** The paint vertex array and attribute layout of a binder that has them. *)
Definition vertex_data (this : Binder)
    : option (StructArray * list StructArrayMember) :=
  match this with
  | Constant _ => None
  | Source s => Some (SourceExpressionBinder.paintVertexArray s,
                      SourceExpressionBinder.paintVertexAttributes s)
  | Composite z => Some (CompositeExpressionBinder.paintVertexArray z,
                         CompositeExpressionBinder.paintVertexAttributes z)
  end.

(** The source and composite binders of an object, in [for ... in] order. *)
Definition attribute_binders (binders : object Binder)
    : list (StructArray * list StructArrayMember) :=
  flat_map (fun entry => match vertex_data (snd entry) with
                         | Some data => [data]
                         | None => []
                         end) binders.

(** One [createVertexBuffer] call per array, with handles counted up from
    [first]. *)
Fixpoint create_calls (first : nat)
    (data : list (StructArray * list StructArrayMember)) : list gl_call :=
  match data with
  | [] => []
  | (array, attributes) :: rest =>
      createVertexBuffer first array attributes :: create_calls (S first) rest
  end.

(** The handles [first], [first + 1], ..., [count] of them. *)
Definition handles (first count : nat) : list VertexBuffer :=
  map (fun id => {| buffer_id := id |}) (seq first count).

(** The context after further GPU calls that create no buffer. *)
Definition after_calls (context : Context) (calls : list gl_call) : Context :=
  {| gl := gl context ++ calls; next_buffer := next_buffer context |}.

(** The context after one vertex buffer was created for each array. *)
Definition after_creates (context : Context)
    (data : list (StructArray * list StructArrayMember)) : Context :=
  {| gl := gl context ++ create_calls (next_buffer context) data;
     next_buffer := next_buffer context + List.length data |}.

(** One [destroy()] call per handle, in order. *)
Definition destroy_calls (buffers : list VertexBuffer) : list gl_call :=
  map (fun buffer => destroyVertexBuffer (buffer_id buffer)) buffers.

(** The GPU calls of [ProgramConfiguration.setUniforms]: those of every
    binder whose property name does not contain [pattern]. *)
Definition configuration_uniform_writes (binders : object Binder)
    (program : Program) (properties : string -> PossiblyEvaluatedPropertyValue)
    (globals : GlobalProperties.t) : list gl_call :=
  flat_map (fun entry =>
              if includes "pattern" (fst entry) then []
              else uniform_writes (snd entry) program globals
                                  (properties (fst entry)))
           binders.

(** The number of entries of a binder's paint vertex array; a constant
    binder has no array. *)
Definition vertex_count (this : Binder) : nat :=
  match vertex_data this with
  | Some (array, _) => PaintArray.length array
  | None => 0
  end.

(** The largest [length] passed to [populatePaintArray] in a sequence of
    calls. *)
Definition largest_length (calls : list Binder.call) : nat :=
  fold_left (fun longest c =>
               match c with
               | Binder.call_populatePaintArray length _ => Nat.max longest length
               | _ => longest
               end) calls 0.

(* ================================================================== *)
(** ** Concrete inputs used by the examples                            *)
(* ================================================================== *)

Module Examples.

(** The literal [14.7]. *)
Definition zoom_14_7 : number := div (of_Z 147) (of_Z 10).

(** A composite expression that is linear in zoom: it evaluates to the zoom
    itself, and its interpolation factor is [(z - lower) / (upper - lower)]. *)
Definition linear : CompositeExpression :=
  {| composite_evaluate := fun globals _ => VNum (GlobalProperties.zoom globals);
     composite_interpolationFactor :=
       fun z lower upper => div (sub z lower) (sub upper lower) |}.

(** A source expression that evaluates to [7] on every feature. *)
Definition seven : SourceExpression :=
  {| source_evaluate := fun _ _ => VNum (of_Z 7) |}.

Definition empty_context : Context := {| gl := []; next_buffer := 0 |}.

(** A program with the interpolation uniforms of two attributes. *)
Definition program : Program :=
  {| uniforms := fun name =>
       if name =? "a_pattern_a_t" then Some 1
       else if name =? "a_radius_t" then Some 2
       else None |}.

(** A numeric source binder, a colour source binder and a composite binder,
    fresh from their constructors. *)
Definition radius : SourceExpressionBinder.t :=
  SourceExpressionBinder.new seven ["radius"] "number" StructArrayLayout1f4.

Definition color : SourceExpressionBinder.t :=
  SourceExpressionBinder.new seven ["color"] "color" StructArrayLayout2f8.

Definition width : CompositeExpressionBinder.t :=
  CompositeExpressionBinder.new linear ["width"] "number" true (of_Z 14)
                                StructArrayLayout2f8.

Definition pattern : CompositeExpressionBinder.t :=
  CompositeExpressionBinder.new linear ["pattern_a"; "pattern_b"; "pattern_size"]
                                "number" false (of_Z 14) LinePatternCompositeLayout.

Definition opacity : ConstantBinder.t :=
  ConstantBinder.new (VConstant (VNum (of_Z 1))) ["opacity"] "number".

(** A configuration holding one constant binder. *)
Definition one_constant : ProgramConfiguration.t :=
  ProgramConfiguration.with_binders ProgramConfiguration.new
    [("fill-opacity", Constant opacity)].

(** A configuration holding a source and a composite binder. *)
Definition two_attributes : ProgramConfiguration.t :=
  ProgramConfiguration.with_binders ProgramConfiguration.new
    [("circle-radius", Source radius); ("line-width", Composite width)].

Definition data_driven_value (type : string) (v : PossiblyEvaluatedValue)
    : PossiblyEvaluatedPropertyValue :=
  {| property_function := true; specification_type := type;
     property_useIntegerZoom := false; pe_value := v |}.

Definition data_driven (type : string) (v : PossiblyEvaluatedValue) : PaintValue :=
  PossiblyEvaluated (data_driven_value type v).

(** A fill layer whose colour is a source expression. *)
Definition fill_layer : Layer :=
  {| layer_id := "water"; layer_type := "fill";
     paint_values :=
       [ ("fill-opacity", data_driven "number" (PEConstant (VNum (of_Z 1))));
         ("fill-color", data_driven "color" (PESource seven)) ] |}.

(** The same layer with its properties declared in the other order. *)
Definition fill_layer_swapped : Layer :=
  {| layer_id := "water"; layer_type := "fill";
     paint_values :=
       [ ("fill-color", data_driven "color" (PESource seven));
         ("fill-opacity", data_driven "number" (PEConstant (VNum (of_Z 1)))) ] |}.

(** A line configuration: a composite width and the three-attribute
    ['line-pattern'] binder. *)
Definition line_configuration : ProgramConfiguration.t :=
  ProgramConfiguration.with_binders ProgramConfiguration.new
    [("line-width", Composite width); ("line-pattern", Composite pattern)].

(** A fill layer with two constant properties, and the same layer with the
    properties declared in the other order. *)
Definition constant_layer : Layer :=
  {| layer_id := "land"; layer_type := "fill";
     paint_values :=
       [ ("fill-opacity", data_driven "number" (PEConstant (VNum (of_Z 1))));
         ("fill-antialias", PlainValue (VNum (of_Z 1)));
         ("fill-color", data_driven "color" (PEConstant (VNum (of_Z 0)))) ] |}.

Definition constant_layer_swapped : Layer :=
  {| layer_id := "land"; layer_type := "fill";
     paint_values :=
       [ ("fill-color", data_driven "color" (PEConstant (VNum (of_Z 0))));
         ("fill-antialias", PlainValue (VNum (of_Z 1)));
         ("fill-opacity", data_driven "number" (PEConstant (VNum (of_Z 1)))) ] |}.

(** A second layer with a constant property. *)
Definition background_layer : Layer :=
  {| layer_id := "background"; layer_type := "background";
     paint_values :=
       [ ("background-opacity",
          data_driven "number" (PEConstant (VNum (of_Z 1)))) ] |}.

(** A source expression that evaluates to an opaque orange. *)
Definition orange : SourceExpression :=
  {| source_evaluate := fun _ _ =>
       VColor {| r := channel_of_byte 255; g := channel_of_byte 128;
                 b := channel_of_byte 0; a := channel_of_byte 255 |} |}.

Definition fill : SourceExpressionBinder.t :=
  SourceExpressionBinder.new orange ["color"] "color" StructArrayLayout2f8.

(** A source expression that evaluates to [NaN] on a feature without
    properties and to [7] on every other feature. *)
Definition patchy : SourceExpression :=
  {| source_evaluate := fun _ feature =>
       match feature with
       | [] => VNum NaN
       | _ => VNum (of_Z 7)
       end |}.

Definition patchy_radius : SourceExpressionBinder.t :=
  SourceExpressionBinder.new patchy ["radius"] "number" StructArrayLayout1f4.

(** A source expression that evaluates to [0.1], which binary32 cannot
    hold exactly. *)
Definition tenth : SourceExpression :=
  {| source_evaluate := fun _ _ => VNum (div (of_Z 1) (of_Z 10)) |}.

Definition tenth_radius : SourceExpressionBinder.t :=
  SourceExpressionBinder.new tenth ["radius"] "number" StructArrayLayout1f4.

(** A composite binder at reference zoom [2^24]: its linear expression
    evaluates to [16777216] and [16777217] there. *)
Definition far : CompositeExpressionBinder.t :=
  CompositeExpressionBinder.new linear ["width"] "number" false (of_Z 16777216)
                                StructArrayLayout2f8.

(** A configuration with a binder keyed by a name that [Object.prototype]
    has too. *)
Definition odd_configuration : ProgramConfiguration.t :=
  ProgramConfiguration.with_binders ProgramConfiguration.new
    [("circle-radius", Source radius); ("constructor", Source radius)].

(** A feature with one property. *)
Definition town : Feature := [("population", VNum (of_Z 7))].

End Examples.

(* ================================================================== *)
(** ** Properties                                                      *)
(* ================================================================== *)

(** *** Numbers *)

Lemma same_eq (x y : number) : same x y = true -> x = y.
Proof.
  destruct x as [s | s | | s m e], y as [s' | s' | | s' m' e'];
    simpl; try discriminate; intros H.
  - apply Bool.eqb_prop in H. now subst.
  - apply Bool.eqb_prop in H. now subst.
  - reflexivity.
  - apply andb_true_iff in H as [H He].
    apply andb_true_iff in H as [Hs Hm].
    apply Bool.eqb_prop in Hs. apply Pos.eqb_eq in Hm. apply Z.eqb_eq in He.
    now subst.
Qed.

Lemma byte_in_range (k : Z) :
  (0 <= k <= 255)%Z -> In (Z.to_nat k) (seq 0 256) /\ Z.of_nat (Z.to_nat k) = k.
Proof.
  intros Hk. split.
  - apply in_seq. lia.
  - apply Z2Nat.id. lia.
Qed.

(** Scaling the channel [k / 255] back by [255] is exact in binary64 for
    every byte [k]. *)
Lemma scale_channel_exact (k : Z) :
  (0 <= k <= 255)%Z -> mul (of_Z 255) (channel_of_byte k) = of_Z k.
Proof.
  intros Hk. destruct (byte_in_range k Hk) as [Hin Hid].
  assert (Hall : forallb (fun n => same (mul (of_Z 255) (channel_of_byte (Z.of_nat n)))
                                        (of_Z (Z.of_nat n)))
                         (seq 0 256) = true) by (vm_compute; reflexivity).
  rewrite forallb_forall in Hall.
  specialize (Hall _ Hin). rewrite Hid in Hall. now apply same_eq.
Qed.

(** Two bytes packed into one float are recovered by its integer
    decomposition. *)
Lemma unpack_packUint8ToFloat (x y : Z) :
  (0 <= x <= 255)%Z -> (0 <= y <= 255)%Z ->
  unpack (packUint8ToFloat (of_Z x) (of_Z y)) = Some (x, y).
Proof.
  intros Hx Hy.
  destruct (byte_in_range x Hx) as [Hinx Hidx].
  destruct (byte_in_range y Hy) as [Hiny Hidy].
  assert (Hall : forallb (fun n => forallb (fun m =>
            match unpack (packUint8ToFloat (of_Z (Z.of_nat n)) (of_Z (Z.of_nat m))) with
            | Some (p, q) => Z.eqb p (Z.of_nat n) && Z.eqb q (Z.of_nat m)
            | None => false
            end) (seq 0 256)) (seq 0 256) = true) by (vm_compute; reflexivity).
  rewrite forallb_forall in Hall. specialize (Hall _ Hinx).
  rewrite forallb_forall in Hall. specialize (Hall _ Hiny).
  rewrite Hidx, Hidy in Hall.
  destruct (unpack (packUint8ToFloat (of_Z x) (of_Z y))) as [[p q] |];
    [| discriminate].
  apply andb_true_iff in Hall as [Hp Hq].
  apply Z.eqb_eq in Hp. apply Z.eqb_eq in Hq. now subst.
Qed.

(** Two bytes packed into one float fit the 24-bit significand of a 32-bit
    float: storing the packed value in a [Float32] array leaves it as it is. *)
Lemma fround_packUint8ToFloat (x y : Z) :
  (0 <= x <= 255)%Z -> (0 <= y <= 255)%Z ->
  fround (packUint8ToFloat (of_Z x) (of_Z y)) = packUint8ToFloat (of_Z x) (of_Z y).
Proof.
  intros Hx Hy.
  destruct (byte_in_range x Hx) as [Hinx Hidx].
  destruct (byte_in_range y Hy) as [Hiny Hidy].
  assert (Hall : forallb (fun n => forallb (fun m =>
            same (fround (packUint8ToFloat (of_Z (Z.of_nat n)) (of_Z (Z.of_nat m))))
                 (packUint8ToFloat (of_Z (Z.of_nat n)) (of_Z (Z.of_nat m))))
            (seq 0 256)) (seq 0 256) = true) by (vm_compute; reflexivity).
  rewrite forallb_forall in Hall. specialize (Hall _ Hinx).
  rewrite forallb_forall in Hall. specialize (Hall _ Hiny).
  rewrite Hidx, Hidy in Hall. now apply same_eq.
Qed.

(** *** packColor *)

(** C6. For every colour whose channels are [kr/255], [kg/255], [kb/255],
    [ka/255] with bytes [kr], [kg], [kb], [ka] in [0, 255], the two floats
    returned by [packColor] decompose ([value = channelA * 256 + channelB],
    order (r, g) then (b, a)) into exactly those four bytes. *)
Theorem packColor_round_trip (kr kg kb ka : Z) :
  (0 <= kr <= 255)%Z -> (0 <= kg <= 255)%Z ->
  (0 <= kb <= 255)%Z -> (0 <= ka <= 255)%Z ->
  let color := VColor {| r := channel_of_byte kr; g := channel_of_byte kg;
                         b := channel_of_byte kb; a := channel_of_byte ka |} in
  unpack (fst (packColor color)) = Some (kr, kg) /\
  unpack (snd (packColor color)) = Some (kb, ka).
Proof.
  intros Hr Hg Hb Ha color. unfold color, packColor. cbn [channel ToNumber r g b a fst snd].
  rewrite !scale_channel_exact by assumption.
  split; apply unpack_packUint8ToFloat; assumption.
Qed.

Lemma packColor_round_trip_witness :
  let color := VColor {| r := channel_of_byte 255; g := channel_of_byte 128;
                         b := channel_of_byte 0; a := channel_of_byte 49 |} in
  unpack (fst (packColor color)) = Some (255, 128)%Z /\
  unpack (snd (packColor color)) = Some (0, 49)%Z.
Proof.
  apply (packColor_round_trip 255 128 0 49); lia.
Defined.

(** *** interpolationFactor *)

Lemma floor_14_7 : Math_floor Examples.zoom_14_7 = of_Z 14.
Proof. vm_compute. reflexivity. Qed.

Lemma fourteen_plus_one : add (of_Z 14) (of_Z 1) = of_Z 15.
Proof. vm_compute. reflexivity. Qed.

(** C7. [interpolationFactor(currentZoom)] is the expression's own
    interpolation factor between [zoom] and [zoom + 1], taken at
    [Math.floor(currentZoom)] when [useIntegerZoom] is set and at
    [currentZoom] otherwise.  With [useIntegerZoom], zoom 14 and current zoom
    14.7 the factor is the one computed at 14; for a linear expression it
    differs from the factor at 14.7 that a binder without [useIntegerZoom]
    computes. *)
Theorem interpolationFactor_integer_zoom :
  (forall (this : CompositeExpressionBinder.t) (currentZoom : number),
      CompositeExpressionBinder.interpolationFactor this currentZoom =
      composite_interpolationFactor (CompositeExpressionBinder.expression this)
        (if CompositeExpressionBinder.useIntegerZoom this
         then Math_floor currentZoom else currentZoom)
        (CompositeExpressionBinder.zoom this)
        (add (CompositeExpressionBinder.zoom this) (of_Z 1))) /\
  (forall expression names type layout,
      CompositeExpressionBinder.interpolationFactor
        (CompositeExpressionBinder.new expression names type true (of_Z 14) layout)
        Examples.zoom_14_7 =
      composite_interpolationFactor expression (of_Z 14) (of_Z 14) (of_Z 15)) /\
  (forall names type layout,
      CompositeExpressionBinder.interpolationFactor
        (CompositeExpressionBinder.new Examples.linear names type true (of_Z 14) layout)
        Examples.zoom_14_7 <>
      CompositeExpressionBinder.interpolationFactor
        (CompositeExpressionBinder.new Examples.linear names type false (of_Z 14) layout)
        Examples.zoom_14_7).
Proof.
  split; [| split].
  - intros this currentZoom. unfold CompositeExpressionBinder.interpolationFactor.
    now destruct (CompositeExpressionBinder.useIntegerZoom this).
  - intros expression names type layout.
    unfold CompositeExpressionBinder.interpolationFactor,
      CompositeExpressionBinder.new.
    cbn [CompositeExpressionBinder.useIntegerZoom CompositeExpressionBinder.zoom
         CompositeExpressionBinder.expression].
    rewrite floor_14_7, fourteen_plus_one. reflexivity.
  - intros names type layout. vm_compute. discriminate.
Qed.

(** *** The order of numbers and [Math.max] *)

Lemma compare_refl (x : number) : is_NaN x = false -> SFcompare x x = Some Eq.
Proof.
  destruct x as [s | s | | s m e]; simpl; try discriminate; intros _.
  - reflexivity.
  - now destruct s.
  - rewrite Z.compare_refl, Pos.compare_cont_refl. now destruct s.
Qed.

Lemma compare_antisym (x y : number) :
  SFcompare y x = option_map CompOpp (SFcompare x y).
Proof.
  destruct x as [s | s | | s m e], y as [s' | s' | | s' m' e']; simpl;
    try reflexivity; try (now destruct s); try (now destruct s');
    try (now destruct s, s').
  change (Pos.compare_cont Eq) with Pos.compare.
  rewrite (Z.compare_antisym e e'), (Pos.compare_antisym m m').
  destruct s, s', (e ?= e')%Z, (m ?= m')%positive; reflexivity.
Qed.

Lemma compare_defined (x y : number) :
  is_NaN x = false -> is_NaN y = false -> exists c, SFcompare x y = Some c.
Proof.
  destruct x, y; simpl; try discriminate; intros _ _; eexists; reflexivity.
Qed.

Lemma leb_refl (x : number) : is_NaN x = false -> leb x x = true.
Proof. intros H. unfold leb, SFleb. now rewrite compare_refl. Qed.

Lemma ltb_leb (x y : number) : ltb x y = true -> leb x y = true.
Proof. unfold ltb, leb, SFltb, SFleb. now destruct (SFcompare x y) as [[]|]. Qed.

Lemma ltb_false_leb (x y : number) :
  is_NaN x = false -> is_NaN y = false -> ltb x y = false -> leb y x = true.
Proof.
  intros Hx Hy. unfold ltb, leb, SFltb, SFleb. rewrite (compare_antisym x y).
  destruct (compare_defined x y Hx Hy) as [c ->]. now destruct c.
Qed.

Lemma leb_trans (x y z : number) :
  leb x y = true -> leb y z = true -> leb x z = true.
Proof.
  unfold leb, SFleb.
  destruct x as [s | s | | s m e], y as [s' | s' | | s' m' e'],
           z as [s'' | s'' | | s'' m'' e'']; simpl; try discriminate; try reflexivity;
    try (destruct s; simpl; try discriminate; try reflexivity);
    try (destruct s'; simpl; try discriminate; try reflexivity);
    try (destruct s''; simpl; try discriminate; try reflexivity).
  all: change (Pos.compare_cont Eq) with Pos.compare.
  all: destruct (Z.compare_spec e e'), (Z.compare_spec e' e''), (Z.compare_spec e e''),
         (Pos.compare_spec m m'), (Pos.compare_spec m' m''), (Pos.compare_spec m m'');
         simpl; try discriminate; try reflexivity; intros; exfalso; subst; lia.
Qed.

Lemma leb_neg_Infinity (x : number) : is_NaN x = false -> leb neg_Infinity x = true.
Proof. destruct x as [s | [] | | s m e]; simpl; try discriminate; reflexivity. Qed.

(** A step of [Math.max] on two numbers returns one of them, and it is an
    upper bound of both. *)
Lemma max_step_spec (highest x : number) :
  is_NaN highest = false -> is_NaN x = false ->
  is_NaN (max_step highest x) = false /\
  (max_step highest x = highest \/ max_step highest x = x) /\
  leb highest (max_step highest x) = true /\
  leb x (max_step highest x) = true.
Proof.
  intros Hh Hx.
  assert (Hgen : is_NaN (if ltb highest x then x else highest) = false /\
                 ((if ltb highest x then x else highest) = highest \/
                  (if ltb highest x then x else highest) = x) /\
                 leb highest (if ltb highest x then x else highest) = true /\
                 leb x (if ltb highest x then x else highest) = true).
  { destruct (ltb highest x) eqn:Hlt.
    - repeat split; auto using ltb_leb, leb_refl.
    - repeat split; auto using ltb_false_leb, leb_refl. }
  unfold max_step.
  destruct x as [[] | | |]; try exact Hgen.
  destruct highest as [[] | | |]; try exact Hgen.
  repeat split; auto.
Qed.

Lemma max_from_spec (xs : list number) : forall highest,
  is_NaN highest = false -> forallb (fun x => negb (is_NaN x)) xs = true ->
  is_NaN (max_from highest xs) = false /\
  (max_from highest xs = highest \/ In (max_from highest xs) xs) /\
  leb highest (max_from highest xs) = true /\
  Forall (fun x => leb x (max_from highest xs) = true) xs.
Proof.
  induction xs as [| x rest IH]; intros highest Hh Hxs; simpl.
  - repeat split; auto using leb_refl.
  - simpl in Hxs. apply andb_true_iff in Hxs as [Hx Hrest].
    apply negb_true_iff in Hx. rewrite Hx.
    destruct (max_step_spec highest x Hh Hx) as (Hn & Hor & Hle1 & Hle2).
    destruct (IH (max_step highest x) Hn Hrest) as (Hn' & Hor' & Hle' & Hall).
    repeat split.
    + exact Hn'.
    + destruct Hor' as [-> | Hin]; [| now right; right].
      destruct Hor as [-> | ->]; [now left | now right; left].
    + eapply leb_trans; eassumption.
    + constructor; [eapply leb_trans; eassumption | exact Hall].
Qed.

(** [Math.max] of numbers none of which is [NaN]: an upper bound of all its
    arguments, and one of them unless it is still [-Infinity]. *)
Lemma Math_max_spec (xs : list number) :
  forallb (fun x => negb (is_NaN x)) xs = true ->
  (Math_max xs = neg_Infinity \/ In (Math_max xs) xs) /\
  Forall (fun x => leb x (Math_max xs) = true) xs.
Proof.
  intros Hxs. unfold Math_max.
  destruct (max_from_spec xs neg_Infinity eq_refl Hxs) as (_ & Hor & _ & Hall).
  split; assumption.
Qed.

(** A [NaN] argument makes [Math.max] return [NaN]. *)
Lemma max_from_NaN (xs : list number) : forall highest,
  existsb is_NaN xs = true -> max_from highest xs = NaN.
Proof.
  induction xs as [| x rest IH]; intros highest; simpl; [discriminate |].
  destruct (is_NaN x); simpl; [reflexivity | apply IH].
Qed.

(** *** Loops *)

(** The counted loop [for (let i = start; i < length; i++)] terminates and
    runs its body [length - start] times. *)
Lemma for_counter_for_loop {St : Type} (body : St -> St) (length : nat) :
  forall (n start : nat) (s : St),
    n = length - start ->
    for_counter n start length body s = Some (for_loop n body s).
Proof.
  induction n as [| n IH]; intros start s Hn; simpl.
  - destruct (Nat.ltb_spec start length); [lia | reflexivity].
  - destruct (Nat.ltb_spec start length); [| lia].
    apply IH. lia.
Qed.

Lemma entries_emplaceBack_loop (args : list jsvalue) (n : nat) :
  forall arr : StructArray,
    entries (for_loop n (PaintArray.emplaceBack args) arr) =
    entries arr ++ repeat (PaintArray.components args) n.
Proof.
  induction n as [| n IH]; intros arr; simpl.
  - now rewrite app_nil_r.
  - rewrite IH. simpl. now rewrite <- app_assoc.
Qed.

Lemma layout_emplaceBack_loop (entry : list jsvalue) (n : nat) :
  forall arr : StructArray,
    layout (for_loop n (PaintArray.emplaceBack entry) arr) = layout arr.
Proof.
  induction n as [| n IH]; intros arr; simpl; [reflexivity |].
  now rewrite IH.
Qed.

(** *** populatePaintArray *)

(** C2, as stated, fails: the paint array keeps every component rounded to
    binary32.  A numeric binder at reference zoom [16777216] whose
    expression evaluates to the zoom has [min = 16777216] and
    [max = 16777217]; the entry it appends is [(16777216, 16777216)], not
    [(min, max)]. *)
Lemma composite_entry_is_not_min_max :
  ~ (forall (this : CompositeExpressionBinder.t) (vertexCount : nat)
            (feature : Feature),
        (CompositeExpressionBinder.type this =? "color") = false ->
        entries (CompositeExpressionBinder.paintVertexArray
                   (CompositeExpressionBinder.populatePaintArray
                      this vertexCount feature)) =
        entries (CompositeExpressionBinder.paintVertexArray this)
        ++ repeat
             [composite_evaluate (CompositeExpressionBinder.expression this)
                {| GlobalProperties.zoom := CompositeExpressionBinder.zoom this |}
                feature;
              composite_evaluate (CompositeExpressionBinder.expression this)
                {| GlobalProperties.zoom :=
                     add (CompositeExpressionBinder.zoom this) (of_Z 1) |}
                feature]
             (vertexCount
              - PaintArray.length (CompositeExpressionBinder.paintVertexArray this))).
Proof.
  intros Hclaim. specialize (Hclaim Examples.far 1 [] eq_refl).
  vm_compute in Hclaim. discriminate.
Qed.

(** C2, amended. [CompositeExpressionBinder.populatePaintArray(vertexCount,
    feature)] on a binder with reference zoom [Z] appends one identical entry
    for every index from the array's current length up to [vertexCount].
    With [min = evaluate({zoom: Z}, feature)] and [max = evaluate({zoom: Z +
    1}, feature)], the entry holds [min] and [max], each rounded to a 32-bit
    float, for a numeric type, and then [statistics.max] becomes
    [Math.max(statistics.max, min, max)] of the unrounded values, an upper
    bound of both when they are numbers other than [NaN]; for the colour
    type the entry holds the four floats [packColor(min)[0]],
    [packColor(min)[1]], [packColor(max)[0]], [packColor(max)[1]], each
    rounded to a 32-bit float. *)
Theorem composite_populatePaintArray (this : CompositeExpressionBinder.t)
    (vertexCount : nat) (feature : Feature) :
  let zoom := CompositeExpressionBinder.zoom this in
  let min := composite_evaluate (CompositeExpressionBinder.expression this)
               {| GlobalProperties.zoom := zoom |} feature in
  let max := composite_evaluate (CompositeExpressionBinder.expression this)
               {| GlobalProperties.zoom := add zoom (of_Z 1) |} feature in
  let start := PaintArray.length (CompositeExpressionBinder.paintVertexArray this) in
  let previous := Statistics.max (CompositeExpressionBinder.statistics this) in
  let this' := CompositeExpressionBinder.populatePaintArray this vertexCount feature in
  let max' := Statistics.max (CompositeExpressionBinder.statistics this') in
  let args :=
    if CompositeExpressionBinder.type this =? "color"
    then [VNum (fst (packColor min)); VNum (snd (packColor min));
          VNum (fst (packColor max)); VNum (snd (packColor max))]
    else [min; max] in
  let entry :=
    if CompositeExpressionBinder.type this =? "color"
    then [VNum (fround (fst (packColor min))); VNum (fround (snd (packColor min)));
          VNum (fround (fst (packColor max))); VNum (fround (snd (packColor max)))]
    else [VNum (fround (ToNumber (Some min))); VNum (fround (ToNumber (Some max)))] in
  for_counter (vertexCount - start) start vertexCount
    (PaintArray.emplaceBack args)
    (PaintArray.reserve vertexCount (CompositeExpressionBinder.paintVertexArray this))
  = Some (CompositeExpressionBinder.paintVertexArray this') /\
  entries (CompositeExpressionBinder.paintVertexArray this') =
    entries (CompositeExpressionBinder.paintVertexArray this)
    ++ repeat entry (vertexCount - start) /\
  max' = (if CompositeExpressionBinder.type this =? "color" then previous
          else Math_max [previous; ToNumber (Some min); ToNumber (Some max)]) /\
  (forall x y,
      (CompositeExpressionBinder.type this =? "color") = false ->
      min = VNum x -> max = VNum y ->
      is_NaN previous = false -> is_NaN x = false -> is_NaN y = false ->
      leb previous max' = true /\ leb x max' = true /\ leb y max' = true /\
      (max' = previous \/ max' = x \/ max' = y)).
Proof.
  intros zoom min max start previous this' max' args entry.
  assert (Hmax : max' = (if CompositeExpressionBinder.type this =? "color"
                         then previous
                         else Math_max [previous; ToNumber (Some min);
                                        ToNumber (Some max)])).
  { unfold max', this', CompositeExpressionBinder.populatePaintArray.
    fold zoom. fold min. fold max.
    now destruct (CompositeExpressionBinder.type this =? "color"). }
  split; [| split; [| split; [exact Hmax |]]].
  - unfold this', args, CompositeExpressionBinder.populatePaintArray.
    fold zoom. fold min. fold max. fold start.
    destruct (CompositeExpressionBinder.type this =? "color");
      cbn [CompositeExpressionBinder.with_array
           CompositeExpressionBinder.paintVertexArray];
      apply for_counter_for_loop; reflexivity.
  - unfold this', entry, CompositeExpressionBinder.populatePaintArray.
    fold zoom. fold min. fold max. fold start.
    destruct (CompositeExpressionBinder.type this =? "color");
      cbn [CompositeExpressionBinder.with_array
           CompositeExpressionBinder.paintVertexArray];
      now rewrite entries_emplaceBack_loop.
  - intros x y Htype Hmin Hmax' Hprevious Hx Hy.
    rewrite Hmax, Htype, Hmin, Hmax'. cbn [ToNumber].
    assert (Hall : forallb (fun z => negb (is_NaN z)) [previous; x; y] = true)
      by (simpl; now rewrite Hprevious, Hx, Hy).
    destruct (Math_max_spec [previous; x; y] Hall) as [Hor Hle].
    inversion Hle as [| ? ? Hle1 Hle']; subst.
    inversion Hle' as [| ? ? Hle2 Hle'']; subst.
    inversion Hle'' as [| ? ? Hle3 _]; subst.
    repeat split; try assumption.
    destruct Hor as [Hinf | [Hin | [Hin | [Hin | []]]]]; auto.
    left. rewrite Hinf in Hle1 |- *.
    destruct previous as [s | [] | | s m e]; simpl in Hle1, Hprevious;
      try discriminate; reflexivity.
Qed.

Lemma composite_populatePaintArray_witness :
  let this' := CompositeExpressionBinder.populatePaintArray Examples.far 2 [] in
  entries (CompositeExpressionBinder.paintVertexArray this') =
    [[VNum (of_Z 16777216); VNum (of_Z 16777216)];
     [VNum (of_Z 16777216); VNum (of_Z 16777216)]] /\
  leb (of_Z 16777216)
      (Statistics.max (CompositeExpressionBinder.statistics this')) = true /\
  leb (of_Z 16777217)
      (Statistics.max (CompositeExpressionBinder.statistics this')) = true.
Proof.
  destruct (composite_populatePaintArray Examples.far 2 [])
    as (_ & Hentries & _ & Hbound).
  destruct (Hbound (of_Z 16777216) (of_Z 16777217)
              eq_refl eq_refl eq_refl eq_refl eq_refl eq_refl)
    as (_ & Hmin & Hmax & _).
  split; [| split; assumption].
  rewrite Hentries. vm_compute. reflexivity.
Defined.

(** C3, as stated, fails: the paint array keeps every component rounded to
    binary32.  A numeric binder whose expression evaluates to [0.1] holds,
    after [populatePaintArray(1, feature)] on its empty array, one entry that
    is not [0.1] but the 32-bit float nearest to it. *)
Lemma source_entry_is_not_the_value :
  ~ (forall (this : SourceExpressionBinder.t) (N : nat) (feature : Feature),
        (SourceExpressionBinder.type this =? "color") = false ->
        entries (SourceExpressionBinder.paintVertexArray this) = [] ->
        entries (SourceExpressionBinder.paintVertexArray
                   (SourceExpressionBinder.populatePaintArray this N feature)) =
        repeat [source_evaluate (SourceExpressionBinder.expression this)
                  {| GlobalProperties.zoom := of_Z 0 |} feature] N).
Proof.
  intros Hclaim. specialize (Hclaim Examples.tenth_radius 1 [] eq_refl eq_refl).
  vm_compute in Hclaim. discriminate.
Qed.

(** C3, amended. On a [SourceExpressionBinder] of numeric type whose array
    is empty, [populatePaintArray(N, feature)] leaves exactly [N] scalar
    entries, all equal to [expression.evaluate({zoom: 0}, feature)] rounded
    to a 32-bit float, and [statistics.max] is [Math.max] of its previous
    value and the unrounded value: when both are numbers other than [NaN] it
    is one of the two and an upper bound of both. *)
Theorem source_populatePaintArray_numeric (this : SourceExpressionBinder.t)
    (N : nat) (feature : Feature) :
  (SourceExpressionBinder.type this =? "color") = false ->
  entries (SourceExpressionBinder.paintVertexArray this) = [] ->
  let value := source_evaluate (SourceExpressionBinder.expression this)
                 {| GlobalProperties.zoom := of_Z 0 |} feature in
  let previous := Statistics.max (SourceExpressionBinder.statistics this) in
  let this' := SourceExpressionBinder.populatePaintArray this N feature in
  let max' := Statistics.max (SourceExpressionBinder.statistics this') in
  entries (SourceExpressionBinder.paintVertexArray this') =
    repeat [VNum (fround (ToNumber (Some value)))] N /\
  PaintArray.length (SourceExpressionBinder.paintVertexArray this') = N /\
  max' = Math_max [previous; ToNumber (Some value)] /\
  (forall x, value = VNum x -> is_NaN previous = false -> is_NaN x = false ->
             (max' = previous \/ max' = x) /\
             leb previous max' = true /\ leb x max' = true).
Proof.
  intros Htype Hempty value previous this' max'.
  assert (Hentries :
            entries (SourceExpressionBinder.paintVertexArray this') =
            repeat [VNum (fround (ToNumber (Some value)))] N).
  { unfold this', SourceExpressionBinder.populatePaintArray. rewrite Htype.
    cbn [SourceExpressionBinder.with_array SourceExpressionBinder.paintVertexArray].
    rewrite entries_emplaceBack_loop. unfold PaintArray.length, PaintArray.reserve.
    cbn [entries]. rewrite Hempty. simpl. now rewrite Nat.sub_0_r. }
  assert (Hmax : max' = Math_max [previous; ToNumber (Some value)]).
  { unfold max', this', SourceExpressionBinder.populatePaintArray. now rewrite Htype. }
  split; [exact Hentries |].
  split; [unfold PaintArray.length; rewrite Hentries; apply repeat_length |].
  split; [exact Hmax |].
  intros x Hvalue Hprevious Hx. rewrite Hmax, Hvalue. cbn [ToNumber].
  assert (Hall : forallb (fun y => negb (is_NaN y)) [previous; x] = true)
    by (simpl; now rewrite Hprevious, Hx).
  destruct (Math_max_spec [previous; x] Hall) as [Hor Hle].
  inversion Hle as [| ? ? Hle1 Hle']; subst. inversion Hle' as [| ? ? Hle2 _]; subst.
  repeat split; try assumption.
  destruct Hor as [Hinf | [Hin | [Hin | []]]]; auto.
  left. rewrite Hinf in Hle1 |- *.
  destruct previous as [s | [] | | s m e]; simpl in Hle1, Hprevious;
    try discriminate; reflexivity.
Qed.

Lemma source_populatePaintArray_numeric_witness :
  let this' := SourceExpressionBinder.populatePaintArray Examples.tenth_radius 3 [] in
  entries (SourceExpressionBinder.paintVertexArray this') =
    repeat [VNum (fround (div (of_Z 1) (of_Z 10)))] 3 /\
  Statistics.max (SourceExpressionBinder.statistics this') = div (of_Z 1) (of_Z 10).
Proof.
  destruct (source_populatePaintArray_numeric Examples.tenth_radius 3 [] eq_refl eq_refl)
    as (Hentries & _ & Hmax & _).
  split; [exact Hentries |].
  rewrite Hmax. vm_compute. reflexivity.
Defined.

(** *** upload *)

(** C5, as stated, fails: a freshly constructed binder has an empty paint
    array, and [upload] creates a vertex buffer from it all the same. *)
Lemma upload_iff_nonempty_fails :
  ~ (forall (this : SourceExpressionBinder.t) (context : Context),
        creates_vertex_buffer context
          (snd (SourceExpressionBinder.upload this context))
          (SourceExpressionBinder.paintVertexArray this)
          (SourceExpressionBinder.paintVertexAttributes this)
        <-> entries (SourceExpressionBinder.paintVertexArray this) <> []).
Proof.
  intros Hclaim.
  destruct (Hclaim Examples.radius Examples.empty_context) as [Hcreated _].
  apply Hcreated; [| reflexivity].
  exists 0. reflexivity.
Qed.

(** C5, amended. [upload(context)] tests that the binder holds a paint
    vertex array, not that the array has entries: for every
    [SourceExpressionBinder] it creates one GPU vertex buffer from the paint
    vertex array and its attribute layout and keeps the handle, whether or
    not any vertex was populated. *)
Theorem source_upload_always_creates (this : SourceExpressionBinder.t)
    (context : Context) :
  let this' := fst (SourceExpressionBinder.upload this context) in
  let context' := snd (SourceExpressionBinder.upload this context) in
  creates_vertex_buffer context context'
    (SourceExpressionBinder.paintVertexArray this)
    (SourceExpressionBinder.paintVertexAttributes this) /\
  SourceExpressionBinder.paintVertexBuffer this' =
    Some {| buffer_id := next_buffer context |} /\
  SourceExpressionBinder.paintVertexArray this' =
    SourceExpressionBinder.paintVertexArray this.
Proof.
  unfold SourceExpressionBinder.upload, truthy_object, Gpu.createVertexBuffer.
  cbn. repeat split. now exists (next_buffer context).
Qed.

(** *** setUniforms *)

(** C10. [setUniforms] on a source or composite binder makes exactly one
    GPU call, [uniform1f] at the location of [a_<names[0]>_t]: only the first
    of the binder's names is used, however many there are.  The value written
    is [0] for a source binder and [interpolationFactor(globals.zoom)] for a
    composite binder. *)
Theorem setUniforms_writes_first_name_only :
  (forall (this : SourceExpressionBinder.t) context program name others,
      SourceExpressionBinder.names this = name :: others ->
      gl (snd (SourceExpressionBinder.setUniforms this context program)) =
      gl context ++ [uniform1f (uniforms program ("a_" ++ name ++ "_t")%string)
                               (Some (VNum (of_Z 0)))]) /\
  (forall (this : CompositeExpressionBinder.t) context program globals name others,
      CompositeExpressionBinder.names this = name :: others ->
      gl (snd (CompositeExpressionBinder.setUniforms this context program globals)) =
      gl context ++ [uniform1f (uniforms program ("a_" ++ name ++ "_t")%string)
                               (Some (VNum (CompositeExpressionBinder.interpolationFactor
                                              this (GlobalProperties.zoom globals))))]).
Proof.
  split.
  - intros this context program name others Hnames.
    unfold SourceExpressionBinder.setUniforms. now rewrite Hnames.
  - intros this context program globals name others Hnames.
    unfold CompositeExpressionBinder.setUniforms. now rewrite Hnames.
Qed.

Lemma setUniforms_writes_first_name_only_witness :
  gl (snd (CompositeExpressionBinder.setUniforms Examples.pattern
             Examples.empty_context Examples.program
             {| GlobalProperties.zoom := Examples.zoom_14_7 |})) =
  [uniform1f (Some 1)
     (Some (VNum (CompositeExpressionBinder.interpolationFactor Examples.pattern
                    Examples.zoom_14_7)))] /\
  gl (snd (SourceExpressionBinder.setUniforms Examples.radius
             Examples.empty_context Examples.program)) =
  [uniform1f (Some 2) (Some (VNum (of_Z 0)))].
Proof.
  split.
  - exact (proj2 setUniforms_writes_first_name_only Examples.pattern
             Examples.empty_context Examples.program
             {| GlobalProperties.zoom := Examples.zoom_14_7 |}
             "pattern_a" ["pattern_b"; "pattern_size"] eq_refl).
  - exact (proj1 setUniforms_writes_first_name_only Examples.radius
             Examples.empty_context Examples.program "radius" [] eq_refl).
Defined.

(** *** statistics.max *)

Lemma constant_setUniforms_this (this : ConstantBinder.t) context program
    globals currentValue :
  fst (ConstantBinder.setUniforms this context program globals currentValue) = this.
Proof. reflexivity. Qed.

(** Unfolds the methods of the source and composite binders and splits on
    the tests they make. *)
Ltac binder_methods :=
  cbn;
  unfold SourceExpressionBinder.upload, CompositeExpressionBinder.upload,
    SourceExpressionBinder.destroy, CompositeExpressionBinder.destroy,
    SourceExpressionBinder.populatePaintArray,
    CompositeExpressionBinder.populatePaintArray, truthy_object;
  repeat match goal with
         | |- context [match ?x with _ => _ end] =>
             lazymatch x with
             | context [match _ with _ => _ end] => fail
             | _ => destruct x eqn:?
             end
         end;
  cbn;
  repeat match goal with
         | H : ?t = _ |- context [?t] => rewrite H
         end;
  try reflexivity.

(** Every method other than [populatePaintArray] leaves [statistics]
    alone. *)
Lemma invoke_statistics (c : Binder.call) (this : Binder) (context : Context) :
  (forall length feature, c <> Binder.call_populatePaintArray length feature) ->
  Binder.statistics (fst (Binder.invoke c (this, context))) = Binder.statistics this.
Proof.
  intros Hc. destruct c as [length feature | | | | program globals currentValue];
    [now elim (Hc length feature) | | | |];
    destruct this as [k | s | z]; binder_methods.
Qed.

(** [populatePaintArray] leaves [statistics] alone on a constant binder and
    on a binder of colour type. *)
Lemma populatePaintArray_statistics (this : Binder) (length : nat) (feature : Feature) :
  Binder.numeric_attribute this = false ->
  Binder.statistics (Binder.populatePaintArray this length feature) =
  Binder.statistics this.
Proof.
  destruct this as [k | s | z]; cbn; intros Hcolor.
  - reflexivity.
  - apply negb_false_iff in Hcolor.
    unfold SourceExpressionBinder.populatePaintArray. now rewrite Hcolor.
  - apply negb_false_iff in Hcolor.
    unfold CompositeExpressionBinder.populatePaintArray. now rewrite Hcolor.
Qed.

(** No method changes which class a binder belongs to, nor its [type]. *)
Lemma invoke_numeric_attribute (c : Binder.call) (this : Binder) (context : Context) :
  Binder.numeric_attribute (fst (Binder.invoke c (this, context))) =
  Binder.numeric_attribute this.
Proof.
  destruct c as [length feature | | | | program globals currentValue];
    destruct this as [k | s | z]; binder_methods.
Qed.

Lemma run_statistics (calls : list Binder.call) : forall (this : Binder) (context : Context),
  Binder.numeric_attribute this = false ->
  Binder.statistics (fst (Binder.run calls (this, context))) = Binder.statistics this.
Proof.
  induction calls as [| c rest IH]; intros this context Hthis; [reflexivity |].
  unfold Binder.run in *. cbn [fold_left].
  destruct (Binder.invoke c (this, context)) as [this' context'] eqn:Hinvoke.
  assert (Hfst : this' = fst (Binder.invoke c (this, context))) by now rewrite Hinvoke.
  rewrite IH.
  - rewrite Hfst. destruct c as [length feature | | | |];
      try (apply invoke_statistics; discriminate).
    cbn. now apply populatePaintArray_statistics.
  - rewrite Hfst, invoke_numeric_attribute. exact Hthis.
Qed.

Lemma run_statistics_without_populate (calls : list Binder.call) :
  forall (this : Binder) (context : Context),
    forallb (fun c => negb (Binder.is_populatePaintArray c)) calls = true ->
    Binder.statistics (fst (Binder.run calls (this, context))) = Binder.statistics this.
Proof.
  induction calls as [| c rest IH]; intros this context Hcalls; [reflexivity |].
  simpl in Hcalls. apply andb_true_iff in Hcalls as [Hc Hrest].
  unfold Binder.run in *. cbn [fold_left].
  destruct (Binder.invoke c (this, context)) as [this' context'] eqn:Hinvoke.
  assert (Hfst : this' = fst (Binder.invoke c (this, context))) by now rewrite Hinvoke.
  rewrite (IH this' context' Hrest), Hfst.
  apply invoke_statistics. intros length feature ->. discriminate.
Qed.

(** C8. [statistics.max] is [-Infinity] in every binder as constructed.  A
    method call that changes it is a [populatePaintArray] call on a source or
    composite binder whose type is not colour; a sequence of calls without
    [populatePaintArray] leaves it as it was, and whatever the sequence of
    calls, a constant binder and a binder of colour type keep the
    [statistics.max] they had. *)
Theorem statistics_max_only_numeric :
  (forall this, Binder.constructed this ->
      Statistics.max (Binder.statistics this) = neg_Infinity) /\
  (forall c this context,
      Statistics.max (Binder.statistics (fst (Binder.invoke c (this, context)))) <>
      Statistics.max (Binder.statistics this) ->
      (exists length feature, c = Binder.call_populatePaintArray length feature) /\
      Binder.numeric_attribute this = true) /\
  (forall calls this context,
      forallb (fun c => negb (Binder.is_populatePaintArray c)) calls = true ->
      Statistics.max (Binder.statistics (fst (Binder.run calls (this, context)))) =
      Statistics.max (Binder.statistics this)) /\
  (forall calls this context,
      Binder.numeric_attribute this = false ->
      Statistics.max (Binder.statistics (fst (Binder.run calls (this, context)))) =
      Statistics.max (Binder.statistics this)).
Proof.
  split; [| split; [| split]].
  - intros this Hnew. destruct Hnew; reflexivity.
  - intros c this context Hchanged.
    destruct c as [length feature | | | | program globals currentValue];
      try (exfalso; apply Hchanged; f_equal; apply invoke_statistics; discriminate).
    split; [now exists length, feature |].
    destruct (Binder.numeric_attribute this) eqn:Hnumeric; [reflexivity |].
    exfalso. apply Hchanged. f_equal. cbn.
    now apply populatePaintArray_statistics.
  - intros calls this context Hcalls. f_equal.
    now apply run_statistics_without_populate.
  - intros calls this context Hthis. f_equal. now apply run_statistics.
Qed.

Lemma statistics_max_only_numeric_witness :
  Statistics.max (Binder.statistics (Source Examples.radius)) = neg_Infinity /\
  Binder.numeric_attribute (Source Examples.radius) = true /\
  Statistics.max
    (Binder.statistics
       (fst (Binder.run [Binder.call_populatePaintArray 4 []; Binder.call_upload;
                         Binder.call_destroy]
                        (Source Examples.color, Examples.empty_context)))) =
  neg_Infinity.
Proof.
  destruct statistics_max_only_numeric as (Hnew & Hchange & _ & Hkeep).
  split; [| split].
  - apply Hnew. apply Binder.constructed_source.
  - apply (Hchange (Binder.call_populatePaintArray 3 []) (Source Examples.radius)
                   Examples.empty_context).
    vm_compute. discriminate.
  - rewrite (Hkeep _ (Source Examples.color) Examples.empty_context eq_refl).
    reflexivity.
Defined.

(** *** destroy before upload *)

Lemma only_uniform_calls_refl (context : Context) :
  only_uniform_calls context context.
Proof. split; [reflexivity |]. exists []. now rewrite app_nil_r. Qed.

Lemma only_uniform_calls_trans (c1 c2 c3 : Context) :
  only_uniform_calls c1 c2 -> only_uniform_calls c2 c3 -> only_uniform_calls c1 c3.
Proof.
  intros [Hn1 (l1 & Hl1 & Hu1)] [Hn2 (l2 & Hl2 & Hu2)]. split; [congruence |].
  exists (l1 ++ l2). split.
  - now rewrite Hl2, Hl1, app_assoc.
  - rewrite forallb_app. now rewrite Hu1, Hu2.
Qed.

Lemma only_uniform_calls_call (c : gl_call) (context : Context) :
  is_uniform_call c = true -> only_uniform_calls context (Gpu.call c context).
Proof.
  intros Hc. split; [reflexivity |]. exists [c]. split; [reflexivity |].
  simpl. now rewrite Hc.
Qed.

Lemma constructed_no_buffer (this : Binder) :
  Binder.constructed this -> Binder.paintVertexBuffer this = None.
Proof. intros Hnew. destruct Hnew; reflexivity. Qed.

Lemma populatePaintArray_buffer (this : Binder) (length : nat) (feature : Feature) :
  Binder.paintVertexBuffer (Binder.populatePaintArray this length feature) =
  Binder.paintVertexBuffer this.
Proof. destruct this as [k | s | z]; binder_methods. Qed.

Lemma populatePaintArrays_loop_no_buffer (scope : Scope) (length : nat)
    (feature : Feature) (todo : object Binder) :
  no_buffer todo ->
  no_buffer (fst (ProgramConfiguration.populatePaintArrays_loop
                    scope length feature todo)).
Proof.
  unfold no_buffer. induction 1 as [| [property binder] rest Hb Hrest IH]; simpl.
  - constructor.
  - destruct (getLayoutException scope property) as [[exception | member |] | e].
    + destruct (ProgramConfiguration.populatePaintArrays_loop
                  scope length feature rest) as [rest' outcome].
      constructor; assumption.
    + destruct (ProgramConfiguration.populatePaintArrays_loop
                  scope length feature rest) as [rest' outcome].
      constructor; assumption.
    + destruct (ProgramConfiguration.populatePaintArrays_loop
                  scope length feature rest) as [rest' outcome].
      constructor; [| assumption].
      simpl. now rewrite populatePaintArray_buffer.
    + constructor; assumption.
Qed.

Lemma constant_setUniforms_calls (this : ConstantBinder.t) (program : Program)
    (value : jsvalue) (names : list string) : forall context,
  only_uniform_calls context
    (fold_left
       (fun context name =>
          if ConstantBinder.type this =? "color" then
            Gpu.call (uniform4f (uniforms program ("u_" ++ name)%string)
                                (channel r value) (channel g value)
                                (channel b value) (channel a value)) context
          else
            Gpu.call (uniform1f (uniforms program ("u_" ++ name)%string) (Some value))
                     context)
       names context).
Proof.
  induction names as [| name rest IH]; intros context; simpl.
  - apply only_uniform_calls_refl.
  - eapply only_uniform_calls_trans; [| apply IH].
    destruct (ConstantBinder.type this =? "color");
      now apply only_uniform_calls_call.
Qed.

(** [setUniforms] changes no binder and only writes uniforms. *)
Lemma binder_setUniforms_calls (this : Binder) context program globals currentValue :
  fst (Binder.setUniforms this context program globals currentValue) = this /\
  only_uniform_calls context
    (snd (Binder.setUniforms this context program globals currentValue)).
Proof.
  destruct this as [k | s | z]; cbn.
  - split; [reflexivity | apply constant_setUniforms_calls].
  - split; [reflexivity | now apply only_uniform_calls_call].
  - split; [reflexivity | now apply only_uniform_calls_call].
Qed.

Lemma setUniforms_loop_calls (program : Program)
    (properties : string -> PossiblyEvaluatedPropertyValue)
    (globals : GlobalProperties.t) (todo : object Binder) : forall context,
  fst (ProgramConfiguration.setUniforms_loop program properties globals todo context)
  = todo /\
  only_uniform_calls context
    (snd (ProgramConfiguration.setUniforms_loop program properties globals todo context)).
Proof.
  induction todo as [| [property binder] rest IH]; intros context; simpl.
  - split; [reflexivity | apply only_uniform_calls_refl].
  - destruct (includes "pattern" property).
    + destruct (IH context) as [Hfst Hcalls].
      destruct (ProgramConfiguration.setUniforms_loop
                  program properties globals rest context) as [rest' context'].
      simpl in *. subst. split; [reflexivity | assumption].
    + destruct (binder_setUniforms_calls binder context program globals
                  (properties property)) as [Hfst Hcalls].
      destruct (Binder.setUniforms binder context program globals
                  (properties property)) as [binder' context'].
      simpl in Hfst, Hcalls. subst binder'.
      destruct (IH context') as [Hfst' Hcalls'].
      destruct (ProgramConfiguration.setUniforms_loop
                  program properties globals rest context') as [rest' context''].
      simpl in *. subst. split; [reflexivity |].
      eapply only_uniform_calls_trans; eassumption.
Qed.

(** [destroy] on binders without a buffer makes no GPU call. *)
Lemma destroy_loop_no_buffer (todo : object Binder) (context : Context) :
  no_buffer todo ->
  ProgramConfiguration.destroy_loop todo context = (todo, context).
Proof.
  unfold no_buffer. induction 1 as [| [property binder] rest Hb Hrest IH]; simpl.
  - reflexivity.
  - assert (Hdestroy : Binder.destroy binder context = (binder, context)).
    { destruct binder as [k | s | z]; simpl in Hb |- *.
      - reflexivity.
      - unfold SourceExpressionBinder.destroy. now rewrite Hb.
      - unfold CompositeExpressionBinder.destroy. now rewrite Hb. }
    now rewrite Hdestroy, IH.
Qed.

Lemma invoke_without_upload (scope : Scope) (c : ProgramConfiguration.call)
    (this : ProgramConfiguration.t) (context : Context) :
  ProgramConfiguration.is_upload c = false ->
  no_buffer (ProgramConfiguration.binders this) ->
  no_buffer (ProgramConfiguration.binders
               (fst (ProgramConfiguration.invoke scope c (this, context)))) /\
  only_uniform_calls context (snd (ProgramConfiguration.invoke scope c (this, context))).
Proof.
  intros Hc Hthis.
  destruct c as [length feature | | program properties globals | | |];
    try discriminate; cbn [ProgramConfiguration.invoke].
  - unfold ProgramConfiguration.populatePaintArrays.
    pose proof (populatePaintArrays_loop_no_buffer scope length feature _ Hthis) as H.
    destruct (ProgramConfiguration.populatePaintArrays_loop
                scope length feature (ProgramConfiguration.binders this))
      as [binders' outcome].
    split; [exact H | apply only_uniform_calls_refl].
  - split; [exact Hthis | apply only_uniform_calls_refl].
  - unfold ProgramConfiguration.setUniforms.
    destruct (setUniforms_loop_calls program properties globals
                (ProgramConfiguration.binders this) context) as [Hfst Hcalls].
    destruct (ProgramConfiguration.setUniforms_loop program properties globals
                (ProgramConfiguration.binders this) context) as [binders' context'].
    simpl in *. subst. split; assumption.
  - split; [exact Hthis | apply only_uniform_calls_refl].
  - unfold ProgramConfiguration.destroy.
    rewrite (destroy_loop_no_buffer _ context Hthis).
    split; [exact Hthis | apply only_uniform_calls_refl].
Qed.

Lemma run_without_upload (scope : Scope) (calls : list ProgramConfiguration.call) :
  forall (this : ProgramConfiguration.t) (context : Context),
    forallb (fun c => negb (ProgramConfiguration.is_upload c)) calls = true ->
    no_buffer (ProgramConfiguration.binders this) ->
    no_buffer (ProgramConfiguration.binders
                 (fst (ProgramConfiguration.run scope calls (this, context)))) /\
    only_uniform_calls context
      (snd (ProgramConfiguration.run scope calls (this, context))).
Proof.
  induction calls as [| c rest IH]; intros this context Hcalls Hthis.
  - split; [exact Hthis | apply only_uniform_calls_refl].
  - simpl in Hcalls. apply andb_true_iff in Hcalls as [Hc Hrest].
    apply negb_true_iff in Hc.
    destruct (invoke_without_upload scope c this context Hc Hthis) as [Hinv Hctx].
    unfold ProgramConfiguration.run in *. cbn [fold_left].
    destruct (ProgramConfiguration.invoke scope c (this, context))
      as [this' context'].
    simpl in Hinv, Hctx.
    destruct (IH this' context' Hrest Hinv) as [Hinv' Hctx'].
    split; [exact Hinv' |].
    eapply only_uniform_calls_trans; eassumption.
Qed.

(** C9. Take a [ProgramConfiguration] whose binders are as constructed and
    call any methods on it except [upload].  Then [destroy()] completes
    normally, changes nothing and makes no GPU call; no binder holds a
    buffer, and since the start no vertex buffer was created or destroyed
    (the only GPU calls were uniform writes). *)
Theorem destroy_before_upload (scope : Scope) (this : ProgramConfiguration.t)
    (calls : list ProgramConfiguration.call) (context : Context) :
  ProgramConfiguration.constructed this ->
  forallb (fun c => negb (ProgramConfiguration.is_upload c)) calls = true ->
  let state := ProgramConfiguration.run scope calls (this, context) in
  ProgramConfiguration.destroy (fst state) (snd state) =
    (fst state, Normal tt, snd state) /\
  no_buffer (ProgramConfiguration.binders (fst state)) /\
  only_uniform_calls context (snd state).
Proof.
  intros Hnew Hcalls state.
  assert (Hthis : no_buffer (ProgramConfiguration.binders this)).
  { unfold ProgramConfiguration.constructed in Hnew. unfold no_buffer.
    eapply Forall_impl; [| exact Hnew].
    intros entry. apply constructed_no_buffer. }
  destruct (run_without_upload scope calls this context Hcalls Hthis) as [Hinv Hctx].
  fold state in Hinv, Hctx.
  split; [| split; assumption].
  unfold ProgramConfiguration.destroy.
  rewrite (destroy_loop_no_buffer _ (snd state) Hinv).
  now destruct (fst state).
Qed.

Lemma destroy_before_upload_witness :
  let state :=
    ProgramConfiguration.run imported_scope
      [ProgramConfiguration.call_populatePaintArrays 3 [];
       ProgramConfiguration.call_setUniforms Examples.program
         (fun _ => Examples.data_driven_value "number" (PESource Examples.seven))
         {| GlobalProperties.zoom := Examples.zoom_14_7 |}]
      (Examples.two_attributes, Examples.empty_context) in
  ProgramConfiguration.destroy (fst state) (snd state) =
    (fst state, Normal tt, snd state) /\
  no_buffer (ProgramConfiguration.binders (fst state)) /\
  only_uniform_calls Examples.empty_context (snd state).
Proof.
  apply (destroy_before_upload imported_scope Examples.two_attributes).
  - repeat constructor.
  - reflexivity.
Defined.

(** *** Sorting the cache-key tokens *)

Lemma string_le_trans (x : string) : forall y z,
  string_le x y -> string_le y z -> string_le x z.
Proof.
  unfold string_le, String.leb.
  induction x as [| c x IH]; intros [| d y] [| e z]; simpl;
    try reflexivity; try discriminate.
  unfold Ascii.compare.
  destruct (N.compare_spec (N_of_ascii c) (N_of_ascii d)) as [Hcd | Hcd | Hcd],
           (N.compare_spec (N_of_ascii d) (N_of_ascii e)) as [Hde | Hde | Hde],
           (N.compare_spec (N_of_ascii c) (N_of_ascii e)) as [Hce | Hce | Hce];
    try reflexivity; try discriminate; try (intros; exfalso; lia).
  apply IH.
Qed.

Lemma string_le_total (x y : string) : string_le x y \/ string_le y x.
Proof. apply String.leb_total. Qed.

Lemma string_le_antisym (x y : string) : string_le x y -> string_le y x -> x = y.
Proof. apply String.leb_antisym. Qed.

Lemma insert_permutation (x : string) (xs : list string) :
  Permutation (insert x xs) (x :: xs).
Proof.
  induction xs as [| y rest IH]; simpl; [reflexivity |].
  destruct (String.leb x y); [reflexivity |].
  rewrite IH. apply perm_swap.
Qed.

Lemma sort_permutation (xs : list string) : Permutation (sort xs) xs.
Proof.
  induction xs as [| x rest IH]; simpl; [reflexivity |].
  rewrite insert_permutation. now constructor.
Qed.

Lemma insert_sorted (x : string) (xs : list string) :
  StronglySorted string_le xs -> StronglySorted string_le (insert x xs).
Proof.
  induction 1 as [| y rest Hrest IH Hy]; simpl.
  - repeat constructor.
  - destruct (String.leb x y) eqn:Hxy.
    + constructor; [now constructor |].
      constructor; [exact Hxy |].
      eapply Forall_impl; [| exact Hy].
      intros z Hyz. now apply (string_le_trans x y z).
    + constructor; [exact IH |].
      rewrite (insert_permutation x rest). constructor; [| exact Hy].
      destruct (string_le_total x y) as [H | H]; [| exact H].
      unfold string_le in H. congruence.
Qed.

Lemma sort_sorted (xs : list string) : StronglySorted string_le (sort xs).
Proof.
  induction xs as [| x rest IH]; simpl; [constructor | now apply insert_sorted].
Qed.

(** A list has one sorted arrangement only. *)
Lemma sorted_permutation_unique (xs : list string) : forall ys,
  StronglySorted string_le xs -> StronglySorted string_le ys ->
  Permutation xs ys -> xs = ys.
Proof.
  induction xs as [| x xs IH]; intros ys Hxs Hys Hperm.
  - apply Permutation_nil in Hperm. now subst.
  - destruct ys as [| y ys];
      [apply Permutation_sym, Permutation_nil in Hperm; discriminate |].
    inversion Hxs as [| ? ? Hxs' Hx]; subst.
    inversion Hys as [| ? ? Hys' Hy]; subst.
    assert (Hxy : x = y).
    { assert (Hinx : In x (y :: ys))
        by (eapply Permutation_in; [exact Hperm | now left]).
      assert (Hiny : In y (x :: xs))
        by (eapply Permutation_in; [apply Permutation_sym; exact Hperm | now left]).
      destruct Hinx as [-> | Hinx]; [reflexivity |].
      destruct Hiny as [-> | Hiny]; [reflexivity |].
      rewrite Forall_forall in Hx, Hy.
      apply string_le_antisym; [now apply Hx | now apply Hy]. }
    subst y. f_equal. apply IH; try assumption.
    now apply Permutation_cons_inv in Hperm.
Qed.

(** [sort()] depends on the elements only, not on the order they come in. *)
Lemma sort_order_independent (xs ys : list string) :
  Permutation xs ys -> sort xs = sort ys.
Proof.
  intros Hperm. apply sorted_permutation_unique; try apply sort_sorted.
  rewrite (sort_permutation xs), (sort_permutation ys). exact Hperm.
Qed.

(** *** getLayoutException and its callers *)

(** With both identifiers bound, [getLayoutException] indexes its table:
    the entry of ['line-pattern'], a member of [Object.prototype] for a
    property of such a name, [undefined] for every other property. *)
Lemma getLayoutException_bound (scope : Scope) (source composite : LayoutClass)
    (property : string) :
  LinePatternSourceExpressionLayoutArray scope = Some source ->
  LinePatternCompositeExpressionLayoutArray scope = Some composite ->
  getLayoutException scope property =
  Normal (lookup [("line-pattern", [("source", source); ("composite", composite)])]
                 property).
Proof.
  intros Hs Hc. unfold getLayoutException. now rewrite Hs, Hc.
Qed.

(** The result is truthy exactly for the properties that are passed
    over. *)
Lemma lookup_passed_over {A : Type} (exception : A) (property : string) :
  truthy_indexed (lookup [("line-pattern", exception)] property) =
  passed_over property.
Proof.
  unfold lookup, passed_over. cbn [get].
  rewrite (String.eqb_sym "line-pattern" property).
  destruct (property =? "line-pattern"); [reflexivity |].
  now destruct (is_inherited property).
Qed.

(** In the module's own scope the first identifier of the object literal is
    unbound: every call raises [ReferenceError], whatever the property. *)
Lemma getLayoutException_module_scope (property : string) :
  getLayoutException module_scope property =
  Throw (ReferenceError "LinePatternSourceExpressionLayoutArray").
Proof. reflexivity. Qed.

Lemma layoutType_module_scope (property type : string) (binderType : BinderType) :
  layoutType module_scope property type binderType =
  Throw (ReferenceError "LinePatternSourceExpressionLayoutArray").
Proof. reflexivity. Qed.

(** In the module's own scope [populatePaintArrays] raises on the first
    binder, before any binder is populated. *)
Lemma populatePaintArrays_module_scope (this : ProgramConfiguration.t)
    (length : nat) (feature : Feature) :
  ProgramConfiguration.binders this <> [] ->
  ProgramConfiguration.populatePaintArrays module_scope this length feature =
  (this, Throw (ReferenceError "LinePatternSourceExpressionLayoutArray")).
Proof.
  intros Hbinders. unfold ProgramConfiguration.populatePaintArrays.
  destruct this as [binders key attributes buffers]. cbn in *.
  destruct binders as [| [property binder] rest]; [contradiction | reflexivity].
Qed.

(** With both identifiers bound, [populatePaintArrays] completes normally
    and has called [populatePaintArray(length, feature)] on exactly the
    binders whose property is not passed over. *)
Lemma populatePaintArrays_bound (scope : Scope) (source composite : LayoutClass)
    (this : ProgramConfiguration.t) (length : nat) (feature : Feature) :
  LinePatternSourceExpressionLayoutArray scope = Some source ->
  LinePatternCompositeExpressionLayoutArray scope = Some composite ->
  ProgramConfiguration.populatePaintArrays scope this length feature =
  (ProgramConfiguration.with_binders this
     (map (fun entry =>
             (fst entry,
              if passed_over (fst entry) then snd entry
              else Binder.populatePaintArray (snd entry) length feature))
          (ProgramConfiguration.binders this)),
   Normal tt).
Proof.
  intros Hs Hc. unfold ProgramConfiguration.populatePaintArrays.
  assert (Hloop : forall todo,
             ProgramConfiguration.populatePaintArrays_loop scope length feature todo =
             (map (fun entry =>
                     (fst entry,
                      if passed_over (fst entry) then snd entry
                      else Binder.populatePaintArray (snd entry) length feature))
                  todo, Normal tt)).
  { induction todo as [| [property binder] rest IH];
      cbn [ProgramConfiguration.populatePaintArrays_loop map fst snd];
      [reflexivity |].
    rewrite (getLayoutException_bound scope source composite property Hs Hc), IH.
    rewrite <- (lookup_passed_over [("source", source); ("composite", composite)]
                                   property).
    now destruct (lookup [("line-pattern",
                           [("source", source); ("composite", composite)])]
                         property). }
  now rewrite Hloop.
Qed.

(** C1, at a failing input. The module neither imports nor declares
    [LinePatternSourceExpressionLayoutArray], which [getLayoutException]
    reads on every call: [populatePaintArrays(3, feature)] raises
    [ReferenceError] and populates no binder, on a configuration with one
    constant binder and on one with a source and a composite binder. *)
Theorem populatePaintArrays_raises :
  ProgramConfiguration.populatePaintArrays module_scope Examples.one_constant 3 [] =
    (Examples.one_constant,
     Throw (ReferenceError "LinePatternSourceExpressionLayoutArray")) /\
  ProgramConfiguration.populatePaintArrays module_scope Examples.two_attributes 3 [] =
    (Examples.two_attributes,
     Throw (ReferenceError "LinePatternSourceExpressionLayoutArray")).
Proof. split; reflexivity. Qed.

(** *** createDynamic *)

Lemma createDynamic_body_keys (scope : Scope) (type_of_layer : string)
    (zoom : number) (filterProperties : string -> bool)
    (self self' : ProgramConfiguration.t) (keys keys' : list string)
    (entry : string * PaintValue) :
  ProgramConfiguration.createDynamic_body scope type_of_layer zoom filterProperties
    (self, keys) entry = Normal (self', keys') ->
  keys' = keys ++ cache_key_token filterProperties entry.
Proof.
  destruct entry as [property value].
  unfold ProgramConfiguration.createDynamic_body, cache_key_token.
  destruct (filterProperties property); cbn [negb];
    [| intros [= _ <-]; now rewrite app_nil_r].
  destruct value as [plain | value]; [intros [= _ <-]; now rewrite app_nil_r |].
  destruct (property_function value); cbn [negb];
    [| intros [= _ <-]; now rewrite app_nil_r].
  destruct (pe_value value) as [c | expression | expression].
  - now intros [= _ <-].
  - destruct (layoutType scope property (specification_type value) SourceType)
      as [layout | e]; cbn; [| discriminate].
    destruct (ProgramConfiguration.constructor_of layout); cbn; [| discriminate].
    now intros [= _ <-].
  - destruct (layoutType scope property (specification_type value) CompositeType)
      as [layout | e]; cbn; [| discriminate].
    destruct (ProgramConfiguration.constructor_of layout); cbn; [| discriminate].
    now intros [= _ <-].
Qed.

Lemma createDynamic_loop_keys (scope : Scope) (type_of_layer : string)
    (zoom : number) (filterProperties : string -> bool)
    (entries : object PaintValue) :
  forall (self self' : ProgramConfiguration.t) (keys keys' : list string),
    ProgramConfiguration.createDynamic_loop scope type_of_layer zoom filterProperties
      entries (self, keys) = Normal (self', keys') ->
    keys' = keys ++ flat_map (cache_key_token filterProperties) entries.
Proof.
  induction entries as [| entry rest IH]; intros self self' keys keys';
    cbn [ProgramConfiguration.createDynamic_loop flat_map].
  - intros [= ? ?]. subst. now rewrite app_nil_r.
  - destruct (ProgramConfiguration.createDynamic_body scope type_of_layer zoom
                filterProperties (self, keys) entry) as [[self1 keys1] | e] eqn:Hbody;
      cbn; [| discriminate].
    intros Hloop. apply IH in Hloop. apply createDynamic_body_keys in Hbody.
    subst. now rewrite <- app_assoc.
Qed.

(** Whenever [createDynamic] returns a configuration, its [cacheKey] is the
    concatenation of the sorted tokens of the accepted properties. *)
Lemma createDynamic_cacheKey (scope : Scope) (layer : Layer) (zoom : number)
    (filterProperties : string -> bool) (self : ProgramConfiguration.t) :
  ProgramConfiguration.createDynamic scope layer zoom filterProperties = Normal self ->
  ProgramConfiguration.cacheKey self =
  join (sort (flat_map (cache_key_token filterProperties) (paint_values layer))).
Proof.
  unfold ProgramConfiguration.createDynamic.
  destruct (ProgramConfiguration.createDynamic_loop scope (layer_type layer) zoom
              filterProperties (paint_values layer) (ProgramConfiguration.new, []))
    as [[self' keys] | e] eqn:Hloop; cbn; [| discriminate].
  intros [= <-]. apply createDynamic_loop_keys in Hloop. now subst.
Qed.

(** Two layers that declare the same properties in different orders get
    the same [cacheKey], whenever [createDynamic] returns for both. *)
Lemma createDynamic_cacheKey_order_independent (scope : Scope)
    (layer layer' : Layer) (zoom : number) (filterProperties : string -> bool)
    (self self' : ProgramConfiguration.t) :
  Permutation (paint_values layer) (paint_values layer') ->
  ProgramConfiguration.createDynamic scope layer zoom filterProperties = Normal self ->
  ProgramConfiguration.createDynamic scope layer' zoom filterProperties = Normal self' ->
  ProgramConfiguration.cacheKey self = ProgramConfiguration.cacheKey self'.
Proof.
  intros Hperm Hself Hself'.
  rewrite (createDynamic_cacheKey _ _ _ _ _ Hself),
          (createDynamic_cacheKey _ _ _ _ _ Hself').
  f_equal. apply sort_order_independent. now apply Permutation_flat_map.
Qed.

(** In the module's own scope the loop body raises [ReferenceError] on
    every accepted property of the source or composite kind, and goes on
    normally on every other property. *)
Lemma createDynamic_body_module_scope (type_of_layer : string) (zoom : number)
    (filterProperties : string -> bool) (state : ProgramConfiguration.t * list string)
    (entry : string * PaintValue) :
  (needs_layout filterProperties entry = true ->
   ProgramConfiguration.createDynamic_body module_scope type_of_layer zoom
     filterProperties state entry =
   Throw (ReferenceError "LinePatternSourceExpressionLayoutArray")) /\
  (needs_layout filterProperties entry = false ->
   exists state',
     ProgramConfiguration.createDynamic_body module_scope type_of_layer zoom
       filterProperties state entry = Normal state').
Proof.
  destruct state as [self keys], entry as [property value].
  unfold ProgramConfiguration.createDynamic_body, needs_layout.
  destruct (filterProperties property); cbn [negb andb];
    [| split; [discriminate | eexists; reflexivity]].
  destruct value as [plain | value]; [split; [discriminate | eexists; reflexivity] |].
  destruct (property_function value); cbn [negb andb];
    [| split; [discriminate | eexists; reflexivity]].
  destruct (pe_value value) as [c | expression | expression].
  - split; [discriminate | eexists; reflexivity].
  - rewrite layoutType_module_scope. split; [reflexivity | discriminate].
  - rewrite layoutType_module_scope. split; [reflexivity | discriminate].
Qed.

(** In the module's own scope [createDynamic] raises [ReferenceError] for
    every layer that has an accepted property of the source or composite
    kind. *)
Lemma createDynamic_module_scope (layer : Layer) (zoom : number)
    (filterProperties : string -> bool) :
  existsb (needs_layout filterProperties) (paint_values layer) = true ->
  ProgramConfiguration.createDynamic module_scope layer zoom filterProperties =
  Throw (ReferenceError "LinePatternSourceExpressionLayoutArray").
Proof.
  intros Hexists. unfold ProgramConfiguration.createDynamic.
  assert (Hloop : forall todo state,
             existsb (needs_layout filterProperties) todo = true ->
             ProgramConfiguration.createDynamic_loop module_scope (layer_type layer)
               zoom filterProperties todo state =
             Throw (ReferenceError "LinePatternSourceExpressionLayoutArray")).
  { induction todo as [| entry rest IH]; intros state;
      cbn [existsb ProgramConfiguration.createDynamic_loop]; [discriminate |].
    destruct (createDynamic_body_module_scope (layer_type layer) zoom
                filterProperties state entry) as [Hthrow Hnormal].
    destruct (needs_layout filterProperties entry); cbn [orb].
    - intros _. now rewrite Hthrow.
    - intros Hrest. destruct (Hnormal eq_refl) as [state' ->]. cbn [bind].
      now apply IH. }
  now rewrite Hloop.
Qed.

Lemma layoutType_imported_scope (property type : string) (binderType : BinderType) :
  (type =? "color") || (type =? "number") = true ->
  exists layout,
    layoutType imported_scope property type binderType = Normal (Some layout).
Proof.
  intros Htype. unfold layoutType.
  rewrite (getLayoutException_bound imported_scope LinePatternSourceLayout
             LinePatternCompositeLayout property eq_refl eq_refl).
  cbn [bind]. unfold lookup at 1. cbn [get].
  apply orb_true_iff in Htype as [Htype | Htype]; apply String.eqb_eq in Htype;
    subst type; destruct ("line-pattern" =? property);
    [| destruct (is_inherited property) | | destruct (is_inherited property)];
    destruct binderType; eexists; reflexivity.
Qed.

(** With the two classes imported, [createDynamic] returns a configuration
    for every layer whose properties are of type colour or number. *)
Lemma createDynamic_imported_scope (layer : Layer) (zoom : number)
    (filterProperties : string -> bool) :
  forallb color_or_number (paint_values layer) = true ->
  exists self,
    ProgramConfiguration.createDynamic imported_scope layer zoom filterProperties =
    Normal self.
Proof.
  intros Htyped. unfold ProgramConfiguration.createDynamic.
  assert (Hloop : forall todo state,
             forallb color_or_number todo = true ->
             exists state',
               ProgramConfiguration.createDynamic_loop imported_scope
                 (layer_type layer) zoom filterProperties todo state =
               Normal state').
  { induction todo as [| entry rest IH]; intros state;
      cbn [forallb ProgramConfiguration.createDynamic_loop];
      [intros _; eexists; reflexivity |].
    intros Hall. apply andb_true_iff in Hall as [Hentry Hrest].
    assert (Hbody : exists state1,
               ProgramConfiguration.createDynamic_body imported_scope
                 (layer_type layer) zoom filterProperties state entry =
               Normal state1).
    { destruct state as [self keys], entry as [property value].
      unfold ProgramConfiguration.createDynamic_body.
      destruct (negb (filterProperties property)); [eexists; reflexivity |].
      destruct value as [plain | value]; [eexists; reflexivity |].
      destruct (negb (property_function value)); [eexists; reflexivity |].
      unfold color_or_number in Hentry. cbn [snd] in Hentry.
      destruct (pe_value value) as [c | expression | expression].
      - eexists; reflexivity.
      - destruct (layoutType_imported_scope property (specification_type value)
                    SourceType Hentry) as [layout ->].
        eexists; reflexivity.
      - destruct (layoutType_imported_scope property (specification_type value)
                    CompositeType Hentry) as [layout ->].
        eexists; reflexivity. }
    destruct Hbody as [state1 ->]. cbn [bind]. now apply IH. }
  destruct (Hloop (paint_values layer) (ProgramConfiguration.new, []) Htyped)
    as [[self keys] ->].
  cbn [bind]. eexists; reflexivity.
Qed.

(** C4, at a failing input. For a fill layer whose ['fill-color'] is a source
    expression, [createDynamic] asks [layoutType] for a layout, which calls
    [getLayoutException], which reads the unbound identifier
    [LinePatternSourceExpressionLayoutArray]: the call raises
    [ReferenceError] and no [cacheKey] is produced, in either declaration
    order of the layer's properties.  With the two classes imported both
    orders give the key [/a_fill-color/u_fill-opacity]. *)
Theorem createDynamic_raises :
  ProgramConfiguration.createDynamic module_scope Examples.fill_layer (of_Z 10)
    (fun _ => true) =
    Throw (ReferenceError "LinePatternSourceExpressionLayoutArray") /\
  ProgramConfiguration.createDynamic module_scope Examples.fill_layer_swapped (of_Z 10)
    (fun _ => true) =
    Throw (ReferenceError "LinePatternSourceExpressionLayoutArray") /\
  (exists self self',
      ProgramConfiguration.createDynamic imported_scope Examples.fill_layer (of_Z 10)
        (fun _ => true) = Normal self /\
      ProgramConfiguration.createDynamic imported_scope Examples.fill_layer_swapped
        (of_Z 10) (fun _ => true) = Normal self' /\
      ProgramConfiguration.cacheKey self = "/a_fill-color/u_fill-opacity" /\
      ProgramConfiguration.cacheKey self' = "/a_fill-color/u_fill-opacity").
Proof.
  split; [reflexivity | split; [reflexivity |]].
  do 2 eexists. repeat split; reflexivity.
Qed.

(* ================================================================== *)
(** ** Further properties of the module                                *)
(* ================================================================== *)

(** *** populatePaintArrays and the layout exception *)

(** X1. With the two line-pattern layout classes bound,
    [populatePaintArrays(length, feature)] completes normally; it keeps the
    keys and their order, leaves as it was every binder whose property is
    ['line-pattern'] or has the name of a member of [Object.prototype] (for
    these [getLayoutException] returns something truthy), and replaces every
    other binder by the result of its [populatePaintArray(length,
    feature)]. *)
Theorem populatePaintArrays_skips_line_pattern (scope : Scope)
    (source composite : LayoutClass) (this : ProgramConfiguration.t)
    (length : nat) (feature : Feature) :
  LinePatternSourceExpressionLayoutArray scope = Some source ->
  LinePatternCompositeExpressionLayoutArray scope = Some composite ->
  let this' := fst (ProgramConfiguration.populatePaintArrays scope this length feature) in
  snd (ProgramConfiguration.populatePaintArrays scope this length feature) = Normal tt /\
  keys (ProgramConfiguration.binders this') = keys (ProgramConfiguration.binders this) /\
  (forall property binder,
      In (property, binder) (ProgramConfiguration.binders this) ->
      In (property,
          if (property =? "line-pattern") || is_inherited property then binder
          else Binder.populatePaintArray binder length feature)
         (ProgramConfiguration.binders this')) /\
  ProgramConfiguration.cacheKey this' = ProgramConfiguration.cacheKey this /\
  ProgramConfiguration._buffers this' = ProgramConfiguration._buffers this.
Proof.
  intros Hs Hc this'. unfold this'.
  rewrite (populatePaintArrays_bound scope source composite this length feature Hs Hc).
  cbn [fst snd ProgramConfiguration.with_binders ProgramConfiguration.binders
       ProgramConfiguration.cacheKey ProgramConfiguration._buffers].
  repeat split.
  - unfold keys. rewrite map_map. reflexivity.
  - intros property binder Hin.
    apply (in_map (fun entry =>
                     (fst entry,
                      if passed_over (fst entry) then snd entry
                      else Binder.populatePaintArray (snd entry) length feature)))
      in Hin.
    exact Hin.
Qed.

Lemma populatePaintArrays_skips_line_pattern_witness :
  In ("line-pattern", Composite Examples.pattern)
     (ProgramConfiguration.binders
        (fst (ProgramConfiguration.populatePaintArrays imported_scope
                Examples.line_configuration 2 []))) /\
  In ("line-width",
      Binder.populatePaintArray (Composite Examples.width) 2 [])
     (ProgramConfiguration.binders
        (fst (ProgramConfiguration.populatePaintArrays imported_scope
                Examples.line_configuration 2 []))) /\
  In ("constructor", Source Examples.radius)
     (ProgramConfiguration.binders
        (fst (ProgramConfiguration.populatePaintArrays imported_scope
                Examples.odd_configuration 2 []))).
Proof.
  destruct (populatePaintArrays_skips_line_pattern imported_scope
              LinePatternSourceLayout LinePatternCompositeLayout
              Examples.line_configuration 2 [] eq_refl eq_refl)
    as (_ & _ & Hin & _).
  destruct (populatePaintArrays_skips_line_pattern imported_scope
              LinePatternSourceLayout LinePatternCompositeLayout
              Examples.odd_configuration 2 [] eq_refl eq_refl)
    as (_ & _ & Hodd & _).
  split; [| split].
  - apply (Hin "line-pattern" (Composite Examples.pattern)). right. now left.
  - apply (Hin "line-width" (Composite Examples.width)). now left.
  - apply (Hodd "constructor" (Source Examples.radius)). right. now left.
Defined.

(** X2. A configuration without binders is populated normally in every
    scope, because [getLayoutException] is never called.  In the module's own
    scope every configuration with at least one binder makes
    [populatePaintArrays] raise [ReferenceError], and the configuration is
    left exactly as it was. *)
Theorem populatePaintArrays_empty_or_raises :
  (forall scope this length feature,
      ProgramConfiguration.binders this = [] ->
      ProgramConfiguration.populatePaintArrays scope this length feature =
      (this, Normal tt)) /\
  (forall this length feature,
      ProgramConfiguration.binders this <> [] ->
      ProgramConfiguration.populatePaintArrays module_scope this length feature =
      (this, Throw (ReferenceError "LinePatternSourceExpressionLayoutArray"))).
Proof.
  split.
  - intros scope this length feature Hempty.
    unfold ProgramConfiguration.populatePaintArrays. rewrite Hempty. cbn.
    destruct this as [binders key attributes buffers]. cbn in *. now subst.
  - apply populatePaintArrays_module_scope.
Qed.

Lemma populatePaintArrays_empty_or_raises_witness :
  ProgramConfiguration.populatePaintArrays module_scope ProgramConfiguration.new 5 [] =
    (ProgramConfiguration.new, Normal tt) /\
  ProgramConfiguration.populatePaintArrays module_scope Examples.line_configuration 5 [] =
    (Examples.line_configuration,
     Throw (ReferenceError "LinePatternSourceExpressionLayoutArray")).
Proof.
  split.
  - apply (proj1 populatePaintArrays_empty_or_raises). reflexivity.
  - apply (proj2 populatePaintArrays_empty_or_raises). discriminate.
Defined.

(** *** createDynamic *)

(** X3. Whenever [createDynamic] returns a configuration, its [cacheKey] is
    the concatenation of a list of tokens that is sorted in the order of
    [sort()] and is a rearrangement of the tokens of the layer's accepted
    properties ([/u_], [/a_] or [/z_] followed by the property name). *)
Theorem createDynamic_cacheKey_sorted (scope : Scope) (layer : Layer)
    (zoom : number) (filterProperties : string -> bool)
    (self : ProgramConfiguration.t) :
  ProgramConfiguration.createDynamic scope layer zoom filterProperties = Normal self ->
  exists tokens,
    ProgramConfiguration.cacheKey self = join tokens /\
    StronglySorted string_le tokens /\
    Permutation tokens
      (flat_map (cache_key_token filterProperties) (paint_values layer)).
Proof.
  intros Hself.
  exists (sort (flat_map (cache_key_token filterProperties) (paint_values layer))).
  split; [now apply (createDynamic_cacheKey scope layer zoom) |].
  split; [apply sort_sorted | apply sort_permutation].
Qed.

Lemma createDynamic_cacheKey_sorted_witness :
  exists self tokens,
    ProgramConfiguration.createDynamic module_scope Examples.constant_layer (of_Z 10)
      (fun _ => true) = Normal self /\
    ProgramConfiguration.cacheKey self = join tokens /\
    StronglySorted string_le tokens /\
    Permutation tokens ["/u_fill-opacity"; "/u_fill-color"].
Proof.
  eexists.
  assert (Hself : ProgramConfiguration.createDynamic module_scope
                    Examples.constant_layer (of_Z 10) (fun _ => true) = Normal _)
    by reflexivity.
  destruct (createDynamic_cacheKey_sorted _ _ _ _ _ Hself) as (tokens & H1 & H2 & H3).
  exists tokens. repeat split; assumption.
Defined.

(** X4. Two layers whose paint properties are the same up to the order of
    declaration get the same [cacheKey], whenever [createDynamic] returns a
    configuration for both. *)
Theorem createDynamic_cacheKey_ignores_order (scope : Scope)
    (layer layer' : Layer) (zoom zoom' : number) (filterProperties : string -> bool)
    (self self' : ProgramConfiguration.t) :
  Permutation (paint_values layer) (paint_values layer') ->
  ProgramConfiguration.createDynamic scope layer zoom filterProperties = Normal self ->
  ProgramConfiguration.createDynamic scope layer' zoom' filterProperties = Normal self' ->
  ProgramConfiguration.cacheKey self = ProgramConfiguration.cacheKey self'.
Proof.
  intros Hperm Hself Hself'.
  rewrite (createDynamic_cacheKey _ _ _ _ _ Hself),
          (createDynamic_cacheKey _ _ _ _ _ Hself').
  f_equal. apply sort_order_independent. now apply Permutation_flat_map.
Qed.

Lemma createDynamic_cacheKey_ignores_order_witness :
  exists self self',
    ProgramConfiguration.createDynamic module_scope Examples.constant_layer (of_Z 10)
      (fun _ => true) = Normal self /\
    ProgramConfiguration.createDynamic module_scope Examples.constant_layer_swapped
      (of_Z 10) (fun _ => true) = Normal self' /\
    ProgramConfiguration.cacheKey self = ProgramConfiguration.cacheKey self'.
Proof.
  do 2 eexists.
  assert (Hself : ProgramConfiguration.createDynamic module_scope
                    Examples.constant_layer (of_Z 10) (fun _ => true) = Normal _)
    by reflexivity.
  assert (Hself' : ProgramConfiguration.createDynamic module_scope
                     Examples.constant_layer_swapped (of_Z 10) (fun _ => true) =
                   Normal _)
    by reflexivity.
  split; [exact Hself | split; [exact Hself' |]].
  apply (createDynamic_cacheKey_ignores_order module_scope Examples.constant_layer
           Examples.constant_layer_swapped (of_Z 10) (of_Z 10) (fun _ => true));
    [| exact Hself | exact Hself'].
  apply Permutation_rev.
Defined.

(** X5. In the module's own scope [createDynamic] raises [ReferenceError]
    exactly for the layers that have an accepted property of the source or
    composite kind; for every other layer (constant properties only, or
    nothing accepted) it returns a configuration. *)
Theorem createDynamic_module_scope_outcome (layer : Layer) (zoom : number)
    (filterProperties : string -> bool) :
  (existsb (needs_layout filterProperties) (paint_values layer) = true ->
   ProgramConfiguration.createDynamic module_scope layer zoom filterProperties =
   Throw (ReferenceError "LinePatternSourceExpressionLayoutArray")) /\
  (existsb (needs_layout filterProperties) (paint_values layer) = false ->
   exists self,
     ProgramConfiguration.createDynamic module_scope layer zoom filterProperties =
     Normal self).
Proof.
  split; [apply createDynamic_module_scope |].
  intros Hnone. unfold ProgramConfiguration.createDynamic.
  assert (Hloop : forall todo state,
             existsb (needs_layout filterProperties) todo = false ->
             exists state',
               ProgramConfiguration.createDynamic_loop module_scope
                 (layer_type layer) zoom filterProperties todo state =
               Normal state').
  { induction todo as [| entry rest IH]; intros state;
      cbn [existsb ProgramConfiguration.createDynamic_loop];
      [intros _; eexists; reflexivity |].
    intros Hall. apply orb_false_iff in Hall as [Hentry Hrest].
    destruct (createDynamic_body_module_scope (layer_type layer) zoom
                filterProperties state entry) as [_ Hnormal].
    destruct (Hnormal Hentry) as [state1 ->]. cbn [bind]. now apply IH. }
  destruct (Hloop (paint_values layer) (ProgramConfiguration.new, []) Hnone)
    as [[self keys] ->].
  cbn [bind]. eexists; reflexivity.
Qed.

Lemma createDynamic_module_scope_outcome_witness :
  ProgramConfiguration.createDynamic module_scope Examples.fill_layer (of_Z 10)
    (fun _ => true) =
    Throw (ReferenceError "LinePatternSourceExpressionLayoutArray") /\
  exists self,
    ProgramConfiguration.createDynamic module_scope Examples.constant_layer (of_Z 10)
      (fun _ => true) = Normal self.
Proof.
  split.
  - apply (proj1 (createDynamic_module_scope_outcome Examples.fill_layer (of_Z 10)
                    (fun _ => true))).
    reflexivity.
  - apply (proj2 (createDynamic_module_scope_outcome Examples.constant_layer (of_Z 10)
                    (fun _ => true))).
    reflexivity.
Defined.








(** *** layoutType *)

(** X7. With the two line-pattern layout classes bound, [layoutType] gives
    ['line-pattern'] its own layout whatever the declared type; every other
    property gets the default layout of its type (colour: 2 floats for a
    source binder, 4 for a composite one; number: 1 and 2); for a type other
    than ['color'] and ['number'] the result is [undefined] when the type has
    the name of a member of [Object.prototype] (the member has no such
    property), and [TypeError] is raised otherwise. *)
Theorem layoutType_table (scope : Scope) (source composite : LayoutClass) :
  LinePatternSourceExpressionLayoutArray scope = Some source ->
  LinePatternCompositeExpressionLayoutArray scope = Some composite ->
  (forall type,
      layoutType scope "line-pattern" type SourceType = Normal (Some source) /\
      layoutType scope "line-pattern" type CompositeType = Normal (Some composite)) /\
  (forall property,
      property <> "line-pattern" ->
      layoutType scope property "color" SourceType =
        Normal (Some StructArrayLayout2f8) /\
      layoutType scope property "color" CompositeType =
        Normal (Some StructArrayLayout4f16) /\
      layoutType scope property "number" SourceType =
        Normal (Some StructArrayLayout1f4) /\
      layoutType scope property "number" CompositeType =
        Normal (Some StructArrayLayout2f8)) /\
  (forall property type binderType,
      property <> "line-pattern" -> type <> "color" -> type <> "number" ->
      layoutType scope property type binderType =
      if is_inherited type then Normal None else Throw TypeError).
Proof.
  intros Hs Hc.
  assert (Hother : forall property,
             property <> "line-pattern" ->
             match lookup [("line-pattern",
                            [("source", source); ("composite", composite)])]
                          property with
             | Own _ => False
             | _ => True
             end).
  { intros property Hproperty. unfold lookup. cbn [get].
    assert (Hneq : ("line-pattern" =? property) = false)
      by (apply String.eqb_neq; congruence).
    rewrite Hneq. now destruct (is_inherited property). }
  split; [| split].
  - intros type. unfold layoutType.
    rewrite (getLayoutException_bound scope source composite _ Hs Hc).
    split; reflexivity.
  - intros property Hproperty. unfold layoutType.
    rewrite (getLayoutException_bound scope source composite _ Hs Hc).
    cbn [bind]. specialize (Hother property Hproperty).
    destruct (lookup [("line-pattern",
                       [("source", source); ("composite", composite)])] property);
      [contradiction | |]; repeat split; reflexivity.
  - intros property type binderType Hproperty Hcolor Hnumber. unfold layoutType.
    rewrite (getLayoutException_bound scope source composite _ Hs Hc).
    cbn [bind]. cbv zeta. specialize (Hother property Hproperty).
    assert (Hc' : ("color" =? type) = false)
      by (apply String.eqb_neq; congruence).
    assert (Hn' : ("number" =? type) = false)
      by (apply String.eqb_neq; congruence).
    destruct (lookup [("line-pattern",
                       [("source", source); ("composite", composite)])] property);
      [contradiction | |]; unfold lookup; cbn [get]; rewrite Hc', Hn';
      now destruct (is_inherited type).
Qed.

Lemma layoutType_table_witness :
  layoutType imported_scope "line-pattern" "string" SourceType =
    Normal (Some LinePatternSourceLayout) /\
  layoutType imported_scope "fill-color" "color" CompositeType =
    Normal (Some StructArrayLayout4f16) /\
  layoutType imported_scope "fill-pattern" "string" SourceType = Throw TypeError /\
  layoutType imported_scope "fill-color" "toString" SourceType = Normal None.
Proof.
  destruct (layoutType_table imported_scope LinePatternSourceLayout
              LinePatternCompositeLayout eq_refl eq_refl) as (Hline & Hdefault & Herror).
  split; [apply Hline |].
  split; [apply (Hdefault "fill-color"); discriminate |].
  split.
  - apply (Herror "fill-pattern" "string" SourceType); discriminate.
  - apply (Herror "fill-color" "toString" SourceType); discriminate.
Defined.

(** *** paintAttributeName *)

Lemma prefix_append (p s : string) : String.prefix p (p ++ s)%string = true.
Proof.
  induction p as [| c p IH]; simpl; [now destruct s |].
  destruct (ascii_dec c c); [exact IH | contradiction].
Qed.

Lemma substring_all (s : string) : String.substring 0 (String.length s) s = s.
Proof. induction s as [| c s IH]; simpl; [reflexivity | now rewrite IH]. Qed.

Lemma length_append (p s : string) :
  String.length (p ++ s)%string = String.length p + String.length s.
Proof. induction p as [| c p IH]; simpl; [reflexivity | now rewrite IH]. Qed.

Lemma substring_skip (p s : string) (n : nat) :
  String.substring (String.length p) n (p ++ s)%string = String.substring 0 n s.
Proof. induction p as [| c p IH]; simpl; [reflexivity | exact IH]. Qed.

(** Removing a pattern from a string that starts with it leaves the
    rest. *)
Lemma remove_first_prefix (c : ascii) (p s : string) :
  remove_first (String c p) (String c p ++ s)%string = s.
Proof.
  change (String c p ++ s)%string with (String c (p ++ s)%string).
  cbn [remove_first].
  change (String c (p ++ s)%string) with (String c p ++ s)%string.
  rewrite prefix_append, substring_skip, length_append.
  replace (String.length (String c p) + String.length s - String.length (String c p))
    with (String.length s) by lia.
  apply substring_all.
Qed.

Lemma dashes_to_underscores_no_dash (s : string) :
  includes "-" (dashes_to_underscores s) = false.
Proof.
  induction s as [| c s IH]; [reflexivity |].
  cbn [dashes_to_underscores includes String.prefix].
  destruct (Ascii.eqb_spec c "-"%char) as [-> | Hc].
  - cbn. exact IH.
  - destruct (ascii_dec "-"%char c) as [Heq | _]; [exfalso; congruence | exact IH].
Qed.

(** X8. [paintAttributeName] never returns an empty list, so [names[0]]
    exists for every binder [createDynamic] builds.  For a property named
    [<type>-<rest>] that is not one of the twelve exceptions it returns the
    single name [<rest>] with every dash replaced by an underscore, which
    therefore contains no dash. *)
Theorem paintAttributeName_default :
  (forall property type, paintAttributeName property type <> []) /\
  (forall type rest,
      ~ In (type ++ "-" ++ rest)%string attribute_name_exceptions ->
      paintAttributeName (type ++ "-" ++ rest)%string type =
        [dashes_to_underscores rest] /\
      includes "-" (dashes_to_underscores rest) = false).
Proof.
  split.
  - intros property type. unfold paintAttributeName.
    cbn [get].
    repeat match goal with
           | |- context [if ?c then _ else _] => destruct c; [discriminate |]
           end.
    discriminate.
  - intros type rest Hnot. split; [| apply dashes_to_underscores_no_dash].
    unfold paintAttributeName. cbn [get].
    repeat match goal with
           | |- context [String.eqb ?k (type ++ "-" ++ rest)%string] =>
               rewrite (proj2 (String.eqb_neq k (type ++ "-" ++ rest)%string))
                 by (intros Heq; apply Hnot; rewrite <- Heq; simpl; tauto)
           end.
    f_equal. f_equal.
    replace (type ++ "-" ++ rest)%string with ((type ++ "-") ++ rest)%string.
    + destruct type as [| c type]; apply remove_first_prefix.
    + clear. induction type as [| c type IH]; simpl; [reflexivity | now rewrite IH].
Qed.

Lemma paintAttributeName_default_witness :
  paintAttributeName "circle-stroke-width" "circle" = ["stroke_width"].
Proof.
  apply (proj2 paintAttributeName_default "circle" "stroke-width").
  simpl. intuition discriminate.
Defined.

(** *** setUniforms *)

Lemma after_calls_nil (context : Context) : after_calls context [] = context.
Proof. destruct context. unfold after_calls. cbn. now rewrite app_nil_r. Qed.

Lemma after_calls_app (context : Context) (calls calls' : list gl_call) :
  after_calls (after_calls context calls) calls' = after_calls context (calls ++ calls').
Proof. unfold after_calls. cbn. now rewrite app_assoc. Qed.

Lemma constant_setUniforms_fold (this : ConstantBinder.t) (program : Program)
    (value : jsvalue) (names : list string) : forall context,
  fold_left
    (fun context name =>
       if ConstantBinder.type this =? "color" then
         Gpu.call (uniform4f (uniforms program ("u_" ++ name)%string)
                             (channel r value) (channel g value)
                             (channel b value) (channel a value)) context
       else
         Gpu.call (uniform1f (uniforms program ("u_" ++ name)%string) (Some value))
                  context)
    names context =
  after_calls context
    (map (fun name =>
            if ConstantBinder.type this =? "color" then
              uniform4f (uniforms program ("u_" ++ name)%string)
                        (channel r value) (channel g value)
                        (channel b value) (channel a value)
            else
              uniform1f (uniforms program ("u_" ++ name)%string) (Some value))
         names).
Proof.
  induction names as [| name rest IH]; intros context; cbn [fold_left map].
  - now rewrite after_calls_nil.
  - rewrite IH.
    destruct (ConstantBinder.type this =? "color");
      unfold Gpu.call, after_calls; cbn; now rewrite <- app_assoc.
Qed.

Lemma binder_setUniforms_writes (this : Binder) (context : Context)
    (program : Program) (globals : GlobalProperties.t)
    (currentValue : PossiblyEvaluatedPropertyValue) :
  Binder.setUniforms this context program globals currentValue =
  (this, after_calls context (uniform_writes this program globals currentValue)).
Proof.
  destruct this as [k | s | z]; cbn.
  - unfold ConstantBinder.setUniforms. now rewrite constant_setUniforms_fold.
  - reflexivity.
  - reflexivity.
Qed.

(** X9. [ConstantBinder.setUniforms] makes exactly one GPU call per name, in
    the order of [names]: [uniform4f] with the four channels of the resolved
    value when the type is colour, [uniform1f] with the value otherwise, each
    at the location of [u_<name>].  The binder is unchanged and no buffer is
    created. *)
Theorem constant_setUniforms_one_write_per_name (this : ConstantBinder.t)
    (context : Context) (program : Program) (globals : GlobalProperties.t)
    (currentValue : PossiblyEvaluatedPropertyValue) :
  let value := constantOr currentValue (ConstantBinder.value this) in
  let write name :=
    if ConstantBinder.type this =? "color" then
      uniform4f (uniforms program ("u_" ++ name)%string)
                (channel r value) (channel g value) (channel b value) (channel a value)
    else uniform1f (uniforms program ("u_" ++ name)%string) (Some value) in
  let result := ConstantBinder.setUniforms this context program globals currentValue in
  fst result = this /\
  gl (snd result) = gl context ++ map write (ConstantBinder.names this) /\
  List.length (gl (snd result)) =
    List.length (gl context) + List.length (ConstantBinder.names this) /\
  next_buffer (snd result) = next_buffer context.
Proof.
  intros value write result. unfold result, ConstantBinder.setUniforms.
  rewrite constant_setUniforms_fold. fold value. cbn [fst snd after_calls gl next_buffer].
  repeat split. now rewrite length_app, length_map.
Qed.

(** X10. [ProgramConfiguration.setUniforms] changes nothing in the
    configuration and makes, in the order of the binders, the GPU calls of
    every binder whose property name does not contain [pattern]; the binders
    of pattern properties are passed over.  No buffer is created or
    destroyed. *)
Theorem setUniforms_skips_pattern_properties (this : ProgramConfiguration.t)
    (context : Context) (program : Program)
    (properties : string -> PossiblyEvaluatedPropertyValue)
    (globals : GlobalProperties.t) :
  ProgramConfiguration.setUniforms this context program properties globals =
  (this,
   after_calls context
     (configuration_uniform_writes (ProgramConfiguration.binders this)
        program properties globals)) /\
  forallb is_uniform_call
    (configuration_uniform_writes (ProgramConfiguration.binders this)
       program properties globals) = true.
Proof.
  split.
  - unfold ProgramConfiguration.setUniforms.
    assert (Hloop : forall todo context,
               ProgramConfiguration.setUniforms_loop program properties globals
                 todo context =
               (todo, after_calls context
                        (configuration_uniform_writes todo program properties globals))).
    { induction todo as [| [property binder] rest IH]; intros context';
        cbn [ProgramConfiguration.setUniforms_loop configuration_uniform_writes
             flat_map fst snd].
      - now rewrite after_calls_nil.
      - destruct (includes "pattern" property).
        + now rewrite IH.
        + rewrite binder_setUniforms_writes, IH.
          now rewrite after_calls_app. }
    rewrite Hloop. now destruct this.
  - unfold configuration_uniform_writes.
    induction (ProgramConfiguration.binders this) as [| [property binder] rest IH];
      [reflexivity |].
    cbn [flat_map fst snd]. rewrite forallb_app, IH, andb_true_r.
    destruct (includes "pattern" property); [reflexivity |].
    destruct binder as [k | s | z]; cbn [uniform_writes forallb]; try reflexivity.
    induction (ConstantBinder.names k) as [| name names IHn]; [reflexivity |].
    cbn [map forallb]. rewrite IHn.
    now destruct (ConstantBinder.type k =? "color").
Qed.

(** *** upload and destroy *)

Lemma handles_cons (first count : nat) :
  handles first (S count) = {| buffer_id := first |} :: handles (S first) count.
Proof. reflexivity. Qed.

(** What [upload] does to one binder: nothing to a constant binder; a
    source or composite binder gets the next free handle, whatever it held
    before. *)
Lemma binder_upload_spec (this : Binder) (context : Context) :
  match vertex_data this with
  | None => Binder.upload this context = (this, context)
  | Some data =>
      snd (Binder.upload this context) = after_creates context [data] /\
      Binder.paintVertexBuffer (fst (Binder.upload this context)) =
        Some {| buffer_id := next_buffer context |} /\
      vertex_data (fst (Binder.upload this context)) = Some data /\
      Binder.statistics (fst (Binder.upload this context)) = Binder.statistics this
  end.
Proof.
  destruct this as [k | s | z]; cbn.
  - reflexivity.
  - unfold SourceExpressionBinder.upload, truthy_object, Gpu.createVertexBuffer,
      after_creates. cbn. repeat split. f_equal. lia.
  - unfold CompositeExpressionBinder.upload, truthy_object, Gpu.createVertexBuffer,
      after_creates. cbn. repeat split. f_equal. lia.
Qed.

Lemma after_creates_app (context : Context)
    (data data' : list (StructArray * list StructArrayMember)) :
  after_creates (after_creates context data) data' = after_creates context (data ++ data').
Proof.
  unfold after_creates. cbn. f_equal.
  - rewrite <- app_assoc. f_equal.
    generalize (next_buffer context) as first.
    induction data as [| [array attributes] rest IH]; intros first; cbn.
    + now rewrite Nat.add_0_r.
    + f_equal. rewrite <- IH. f_equal. f_equal. lia.
  - rewrite length_app. lia.
Qed.

Lemma upload_loop_spec (todo : object Binder) : forall context,
  let result := ProgramConfiguration.upload_loop todo context in
  snd result = after_creates context (attribute_binders todo) /\
  keys (fst result) = keys todo /\
  attribute_binders (fst result) = attribute_binders todo /\
  ProgramConfiguration.collect_buffers (fst result) =
    handles (next_buffer context) (List.length (attribute_binders todo)).
Proof.
  induction todo as [| [property binder] rest IH]; intros context; cbn zeta.
  - cbn. unfold after_creates. cbn. repeat split.
    destruct context; cbn. f_equal; [now rewrite app_nil_r | lia].
  - cbn [ProgramConfiguration.upload_loop].
    pose proof (binder_upload_spec binder context) as Hbinder.
    destruct (Binder.upload binder context) as [binder' context'] eqn:Hupload.
    specialize (IH context'). cbn zeta in IH.
    destruct (ProgramConfiguration.upload_loop rest context') as [rest' context''].
    cbn [fst snd] in *. destruct IH as (Hctx & Hkeys & Hdata & Hbuffers).
    unfold attribute_binders in *. cbn [flat_map keys map fst snd].
    destruct (vertex_data binder) as [data |] eqn:Hvertex.
    + destruct Hbinder as (Hctx' & Hbuffer & Hvertex' & _).
      cbn [ProgramConfiguration.collect_buffers]. rewrite Hbuffer, Hvertex'.
      subst context'' context'. rewrite after_creates_app.
      repeat split.
      * unfold keys in Hkeys. now rewrite Hkeys.
      * now rewrite Hdata.
      * cbn [app List.length]. rewrite handles_cons. f_equal.
        rewrite Hbuffers. unfold after_creates. cbn [next_buffer List.length].
        f_equal. lia.
    + injection Hbinder as -> ->. cbn [ProgramConfiguration.collect_buffers].
      rewrite Hvertex. cbn [app].
      assert (Hnone : Binder.paintVertexBuffer binder = None)
        by (destruct binder; [reflexivity | discriminate | discriminate]).
      rewrite Hnone. repeat split; try assumption.
      unfold keys in Hkeys. now rewrite Hkeys.
Qed.

Lemma configuration_upload_spec (this : ProgramConfiguration.t)
    (context : Context) :
  let data := attribute_binders (ProgramConfiguration.binders this) in
  let this' := fst (ProgramConfiguration.upload this context) in
  let context' := snd (ProgramConfiguration.upload this context) in
  gl context' = gl context ++ create_calls (next_buffer context) data /\
  next_buffer context' = next_buffer context + List.length data /\
  ProgramConfiguration.getPaintVertexBuffers this' =
    handles (next_buffer context) (List.length data) /\
  keys (ProgramConfiguration.binders this') = keys (ProgramConfiguration.binders this) /\
  attribute_binders (ProgramConfiguration.binders this') = data /\
  ProgramConfiguration.cacheKey this' = ProgramConfiguration.cacheKey this.
Proof.
  intros data this' context'. unfold this', context', ProgramConfiguration.upload.
  pose proof (upload_loop_spec (ProgramConfiguration.binders this) context) as Hloop.
  cbn zeta in Hloop.
  destruct (ProgramConfiguration.upload_loop (ProgramConfiguration.binders this) context)
    as [binders' context''].
  cbn [fst snd] in *. destruct Hloop as (Hctx & Hkeys & Hdata & Hbuffers).
  unfold ProgramConfiguration.getPaintVertexBuffers.
  cbn [ProgramConfiguration._buffers ProgramConfiguration.binders
       ProgramConfiguration.cacheKey].
  subst context''. cbn [after_creates gl next_buffer]. fold data.
  repeat split; assumption.
Qed.

(** X11. [ProgramConfiguration.upload] creates exactly one vertex buffer for
    every source and composite binder, in the order of the binders and from
    that binder's paint vertex array and attribute layout, and none for a
    constant binder.  The handles are the next free ones, counted up;
    [getPaintVertexBuffers] then returns exactly these handles in the same
    order.  The keys, the arrays and the [cacheKey] are unchanged. *)
Theorem upload_one_buffer_per_attribute_binder (this : ProgramConfiguration.t)
    (context : Context) :
  let data := attribute_binders (ProgramConfiguration.binders this) in
  let this' := fst (ProgramConfiguration.upload this context) in
  let context' := snd (ProgramConfiguration.upload this context) in
  gl context' = gl context ++ create_calls (next_buffer context) data /\
  next_buffer context' = next_buffer context + List.length data /\
  ProgramConfiguration.getPaintVertexBuffers this' =
    handles (next_buffer context) (List.length data) /\
  keys (ProgramConfiguration.binders this') = keys (ProgramConfiguration.binders this) /\
  attribute_binders (ProgramConfiguration.binders this') = data /\
  ProgramConfiguration.cacheKey this' = ProgramConfiguration.cacheKey this.
Proof. exact (configuration_upload_spec this context). Qed.

(** [destroy] in general: one [destroy()] call for every binder that holds
    a handle, in order; the binders keep their handles. *)
Lemma destroy_loop_spec (todo : object Binder) : forall context,
  ProgramConfiguration.destroy_loop todo context =
  (todo, after_calls context
           (destroy_calls (ProgramConfiguration.collect_buffers todo))).
Proof.
  induction todo as [| [property binder] rest IH]; intros context;
    cbn [ProgramConfiguration.destroy_loop ProgramConfiguration.collect_buffers].
  - unfold destroy_calls. cbn. now rewrite after_calls_nil.
  - assert (Hdestroy :
              Binder.destroy binder context =
              (binder,
               after_calls context
                 (destroy_calls match Binder.paintVertexBuffer binder with
                                | Some buffer => [buffer]
                                | None => []
                                end))).
    { destruct binder as [k | s | z]; cbn.
      - now rewrite after_calls_nil.
      - unfold SourceExpressionBinder.destroy.
        destruct (SourceExpressionBinder.paintVertexBuffer s);
          [reflexivity | now rewrite after_calls_nil].
      - unfold CompositeExpressionBinder.destroy.
        destruct (CompositeExpressionBinder.paintVertexBuffer z);
          [reflexivity | now rewrite after_calls_nil]. }
    rewrite Hdestroy, IH, after_calls_app.
    destruct (Binder.paintVertexBuffer binder); reflexivity.
Qed.

Lemma upload_collects (this : ProgramConfiguration.t) (context : Context) :
  ProgramConfiguration.collect_buffers
    (ProgramConfiguration.binders (fst (ProgramConfiguration.upload this context))) =
  ProgramConfiguration._buffers (fst (ProgramConfiguration.upload this context)).
Proof.
  unfold ProgramConfiguration.upload.
  now destruct (ProgramConfiguration.upload_loop
                  (ProgramConfiguration.binders this) context).
Qed.

Lemma upload_buffers_listed (this : ProgramConfiguration.t)
    (context : Context) :
  let this' := fst (ProgramConfiguration.upload this context) in
  ProgramConfiguration._buffers this' =
    handles (next_buffer context)
            (List.length (attribute_binders (ProgramConfiguration.binders this))) /\
  ProgramConfiguration.collect_buffers (ProgramConfiguration.binders this') =
    handles (next_buffer context)
            (List.length (attribute_binders (ProgramConfiguration.binders this))).
Proof.
  intros this'. unfold this'. rewrite upload_collects.
  unfold ProgramConfiguration.upload.
  pose proof (upload_loop_spec (ProgramConfiguration.binders this) context) as Hloop.
  cbn zeta in Hloop.
  destruct (ProgramConfiguration.upload_loop (ProgramConfiguration.binders this) context)
    as [binders' context''].
  cbn [fst snd ProgramConfiguration._buffers] in *.
  destruct Hloop as (_ & _ & _ & Hbuffers). now split.
Qed.

Lemma destroy_after_upload_spec (this : ProgramConfiguration.t)
    (context : Context) :
  let count := List.length (attribute_binders (ProgramConfiguration.binders this)) in
  let this' := fst (ProgramConfiguration.upload this context) in
  let context' := snd (ProgramConfiguration.upload this context) in
  ProgramConfiguration.destroy this' context' =
    (this', Normal tt,
     after_calls context' (destroy_calls (handles (next_buffer context) count))) /\
  ProgramConfiguration.getPaintVertexBuffers
    (fst (fst (ProgramConfiguration.destroy this' context'))) =
    handles (next_buffer context) count.
Proof.
  intros count this' context'.
  destruct (upload_buffers_listed this context) as [Hbuffers Hcollect].
  fold this' in Hbuffers, Hcollect. fold count in Hbuffers.
  assert (Hdestroy : ProgramConfiguration.destroy this' context' =
                     (this', Normal tt,
                      after_calls context'
                        (destroy_calls (handles (next_buffer context) count)))).
  { unfold ProgramConfiguration.destroy. rewrite destroy_loop_spec.
    rewrite Hcollect. now destruct this'. }
  split; [exact Hdestroy |]. rewrite Hdestroy. exact Hbuffers.
Qed.

(** X12. After [upload], [destroy] completes normally and calls [destroy()]
    once on each buffer that [upload] created, in the order of creation, and
    on nothing else.  It changes nothing in the configuration: every binder
    keeps its handle and [getPaintVertexBuffers] still returns the destroyed
    handles. *)
Theorem destroy_releases_uploaded_buffers (this : ProgramConfiguration.t)
    (context : Context) :
  let count := List.length (attribute_binders (ProgramConfiguration.binders this)) in
  let this' := fst (ProgramConfiguration.upload this context) in
  let context' := snd (ProgramConfiguration.upload this context) in
  ProgramConfiguration.destroy this' context' =
    (this', Normal tt,
     after_calls context' (destroy_calls (handles (next_buffer context) count))) /\
  ProgramConfiguration.getPaintVertexBuffers
    (fst (fst (ProgramConfiguration.destroy this' context'))) =
    handles (next_buffer context) count.
Proof. exact (destroy_after_upload_spec this context). Qed.

(** X13. A second [upload] gives every source and composite binder a new
    buffer and overwrites the handle of the first one without destroying it.
    A later [destroy] releases the second batch only: the buffers of the
    first [upload] are created and never destroyed. *)
Theorem second_upload_orphans_first_buffers (this : ProgramConfiguration.t)
    (context : Context) :
  let data := attribute_binders (ProgramConfiguration.binders this) in
  let count := List.length data in
  let first := next_buffer context in
  let once := ProgramConfiguration.upload this context in
  let twice := ProgramConfiguration.upload (fst once) (snd once) in
  let finally := ProgramConfiguration.destroy (fst twice) (snd twice) in
  gl (snd finally) =
    gl context ++ create_calls first data ++ create_calls (first + count) data
    ++ destroy_calls (handles (first + count) count) /\
  ProgramConfiguration.getPaintVertexBuffers (fst twice) =
    handles (first + count) count /\
  (forall id, first <= id < first + count ->
              ~ In (destroyVertexBuffer id)
                   (destroy_calls (handles (first + count) count))).
Proof.
  intros data count first once twice finally.
  destruct (configuration_upload_spec this context)
    as (Hgl1 & Hnext1 & _ & _ & Hdata1 & _).
  fold once in Hgl1, Hnext1, Hdata1. fold data in Hgl1, Hnext1, Hdata1.
  fold count in Hnext1. fold first in Hgl1, Hnext1.
  destruct (configuration_upload_spec (fst once) (snd once))
    as (Hgl2 & _ & Hbuffers2 & _ & _ & _).
  fold twice in Hgl2, Hbuffers2.
  rewrite Hdata1, Hnext1 in Hgl2, Hbuffers2. fold count in Hbuffers2.
  destruct (destroy_after_upload_spec (fst once) (snd once)) as [Hdestroy _].
  fold twice in Hdestroy. rewrite Hdata1, Hnext1 in Hdestroy. fold count in Hdestroy.
  split; [| split].
  - unfold finally. rewrite Hdestroy. cbn [snd after_calls gl].
    rewrite Hgl2, Hgl1. now rewrite <- !app_assoc.
  - exact Hbuffers2.
  - intros id Hid Hin. unfold destroy_calls, handles in Hin.
    rewrite map_map in Hin. apply in_map_iff in Hin as (id' & Heq & Hin).
    cbn in Heq. injection Heq as ->. apply in_seq in Hin. lia.
Qed.

Lemma second_upload_orphans_first_buffers_witness :
  let once := ProgramConfiguration.upload Examples.two_attributes
                Examples.empty_context in
  let twice := ProgramConfiguration.upload (fst once) (snd once) in
  ~ In (destroyVertexBuffer 0)
       (destroy_calls (ProgramConfiguration.getPaintVertexBuffers (fst twice))) /\
  ~ In (destroyVertexBuffer 1)
       (destroy_calls (ProgramConfiguration.getPaintVertexBuffers (fst twice))).
Proof.
  destruct (second_upload_orphans_first_buffers Examples.two_attributes
              Examples.empty_context) as (_ & Hbuffers & Hnever).
  cbn zeta in *. rewrite Hbuffers.
  split; apply Hnever; cbn; lia.
Defined.

(** *** Populating step by step *)

(** X14. [SourceExpressionBinder.populatePaintArray(length, feature)] only
    appends: the entries already present stay as they are, [length - start]
    copies of the feature's entry follow them (the value, or the two packed
    floats of a colour, each stored as a 32-bit float), and the array ends up with
    [max(start, length)] entries, so a [length] that does not exceed the
    current length adds nothing.  Starting from an empty array, populating
    up to [n] for one feature and then up to [m >= n] for another leaves [n]
    entries of the first followed by [m - n] entries of the second. *)
Theorem source_populatePaintArray_appends (this : SourceExpressionBinder.t) :
  let entry feature :=
    let value := source_evaluate (SourceExpressionBinder.expression this)
                   {| GlobalProperties.zoom := of_Z 0 |} feature in
    if SourceExpressionBinder.type this =? "color"
    then [VNum (fround (fst (packColor value)));
          VNum (fround (snd (packColor value)))]
    else [VNum (fround (ToNumber (Some value)))] in
  let array b := SourceExpressionBinder.paintVertexArray b in
  (forall length feature,
      entries (array (SourceExpressionBinder.populatePaintArray this length feature)) =
        entries (array this)
        ++ repeat (entry feature) (length - PaintArray.length (array this)) /\
      PaintArray.length
        (array (SourceExpressionBinder.populatePaintArray this length feature)) =
        Nat.max (PaintArray.length (array this)) length) /\
  (forall n m feature feature',
      entries (array this) = [] -> n <= m ->
      entries (array (SourceExpressionBinder.populatePaintArray
                        (SourceExpressionBinder.populatePaintArray this n feature)
                        m feature')) =
      repeat (entry feature) n ++ repeat (entry feature') (m - n)).
Proof.
  intros entry array.
  assert (Hgeneral : forall (b : SourceExpressionBinder.t) length feature,
             entries (array (SourceExpressionBinder.populatePaintArray b length feature)) =
             entries (array b)
             ++ repeat
                  (if SourceExpressionBinder.type b =? "color"
                   then [VNum (fround (fst (packColor
                                      (source_evaluate (SourceExpressionBinder.expression b)
                                         {| GlobalProperties.zoom := of_Z 0 |} feature))));
                         VNum (fround (snd (packColor
                                      (source_evaluate (SourceExpressionBinder.expression b)
                                         {| GlobalProperties.zoom := of_Z 0 |} feature))))]
                   else [VNum (fround (ToNumber (Some
                           (source_evaluate (SourceExpressionBinder.expression b)
                              {| GlobalProperties.zoom := of_Z 0 |} feature))))])
                  (length - PaintArray.length (array b))).
  { intros b length feature. unfold array, SourceExpressionBinder.populatePaintArray.
    destruct (SourceExpressionBinder.type b =? "color");
      cbn [SourceExpressionBinder.with_array SourceExpressionBinder.paintVertexArray];
      now rewrite entries_emplaceBack_loop. }
  split.
  - intros length feature. split; [apply Hgeneral |].
    unfold PaintArray.length at 1. rewrite Hgeneral.
    rewrite length_app, repeat_length. fold (PaintArray.length (array this)). lia.
  - intros n m feature feature' Hempty Hnm.
    rewrite Hgeneral.
    assert (Hsame : forall b length f,
               SourceExpressionBinder.type
                 (SourceExpressionBinder.populatePaintArray b length f) =
               SourceExpressionBinder.type b /\
               SourceExpressionBinder.expression
                 (SourceExpressionBinder.populatePaintArray b length f) =
               SourceExpressionBinder.expression b).
    { intros b length f. unfold SourceExpressionBinder.populatePaintArray.
      now destruct (SourceExpressionBinder.type b =? "color"). }
    destruct (Hsame this n feature) as [-> ->].
    unfold PaintArray.length. rewrite Hgeneral, Hempty. cbn [app].
    rewrite repeat_length. unfold PaintArray.length. rewrite Hempty. cbn [List.length].
    now rewrite Nat.sub_0_r.
Qed.

Lemma source_populatePaintArray_appends_witness :
  entries (SourceExpressionBinder.paintVertexArray
             (SourceExpressionBinder.populatePaintArray
                (SourceExpressionBinder.populatePaintArray Examples.patchy_radius 1 [])
                3 Examples.town)) =
  [[VNum NaN]; [VNum (of_Z 7)]; [VNum (of_Z 7)]].
Proof.
  rewrite (proj2 (source_populatePaintArray_appends Examples.patchy_radius)
             1 3 [] Examples.town eq_refl); [reflexivity | lia].
Defined.

Lemma vertex_count_populatePaintArray (this : Binder) (length : nat) (feature : Feature) :
  vertex_data this <> None ->
  vertex_count (Binder.populatePaintArray this length feature) =
  Nat.max (vertex_count this) length.
Proof.
  destruct this as [k | s | z]; cbn; intros Hdata; [now elim Hdata | |].
  - unfold SourceExpressionBinder.populatePaintArray, vertex_count, PaintArray.length.
    destruct (SourceExpressionBinder.type s =? "color"); cbn;
      rewrite entries_emplaceBack_loop, length_app, repeat_length; cbn; lia.
  - unfold CompositeExpressionBinder.populatePaintArray, vertex_count, PaintArray.length.
    destruct (CompositeExpressionBinder.type z =? "color"); cbn;
      rewrite entries_emplaceBack_loop, length_app, repeat_length; cbn; lia.
Qed.

(** The array changes in [populatePaintArray] only, and no method turns a
    source or composite binder into a constant one. *)
Lemma invoke_vertex_data (c : Binder.call) (this : Binder) (context : Context) :
  (vertex_data this <> None ->
   vertex_data (fst (Binder.invoke c (this, context))) <> None) /\
  (Binder.is_populatePaintArray c = false ->
   vertex_count (fst (Binder.invoke c (this, context))) = vertex_count this).
Proof.
  assert (Hother : Binder.is_populatePaintArray c = false ->
                   vertex_data (fst (Binder.invoke c (this, context))) =
                   vertex_data this).
  { destruct c as [length feature | | | | program globals currentValue];
      intros Hc; try discriminate; destruct this as [k | s | z]; try reflexivity; cbn.
    - unfold SourceExpressionBinder.destroy.
      now destruct (SourceExpressionBinder.paintVertexBuffer s).
    - unfold CompositeExpressionBinder.destroy.
      now destruct (CompositeExpressionBinder.paintVertexBuffer z). }
  split.
  - destruct (Binder.is_populatePaintArray c) eqn:Hc;
      [| now rewrite (Hother eq_refl)].
    destruct c as [length feature | | | |]; try discriminate.
    destruct this as [k | s | z]; cbn; intros Hdata; try discriminate.
    now elim Hdata.
  - intros Hc. unfold vertex_count. now rewrite (Hother Hc).
Qed.

Lemma largest_length_from (calls : list Binder.call) : forall longest,
  fold_left (fun longest c =>
               match c with
               | Binder.call_populatePaintArray length _ => Nat.max longest length
               | _ => longest
               end) calls longest =
  Nat.max longest (largest_length calls).
Proof.
  unfold largest_length.
  induction calls as [| c rest IH]; intros longest; cbn [fold_left]; [lia |].
  rewrite IH. rewrite (IH (match c with
                           | Binder.call_populatePaintArray length _ => Nat.max 0 length
                           | _ => 0
                           end)).
  destruct c; lia.
Qed.

(** X15. Whatever methods are called on a source or composite binder, in
    whatever order, its paint vertex array holds as many entries as the
    largest [length] ever passed to [populatePaintArray] (or as many as it
    held at the start, if that was more): [upload], [destroy], [defines] and
    [setUniforms] never change the number of entries, and no call ever
    removes one. *)
Theorem vertex_count_is_largest_length (calls : list Binder.call) :
  forall (this : Binder) (context : Context),
    vertex_data this <> None ->
    vertex_count (fst (Binder.run calls (this, context))) =
    Nat.max (vertex_count this) (largest_length calls).
Proof.
  induction calls as [| c rest IH]; intros this context Hdata.
  - cbn. lia.
  - unfold Binder.run in *. cbn [fold_left].
    destruct (invoke_vertex_data c this context) as [Hkeeps Hcount].
    destruct (Binder.invoke c (this, context)) as [this' context'] eqn:Hinvoke.
    cbn [fst] in Hkeeps, Hcount.
    rewrite (IH this' context' (Hkeeps Hdata)).
    unfold largest_length at 2. cbn [fold_left]. rewrite largest_length_from.
    destruct c as [length feature | | | | program globals currentValue];
      try (rewrite (Hcount eq_refl); lia).
    cbn in Hinvoke. injection Hinvoke as <- _.
    rewrite (vertex_count_populatePaintArray this length feature Hdata). lia.
Qed.

Lemma vertex_count_is_largest_length_witness :
  vertex_count
    (fst (Binder.run [Binder.call_populatePaintArray 4 []; Binder.call_upload;
                      Binder.call_populatePaintArray 2 Examples.town;
                      Binder.call_destroy]
                     (Source Examples.radius, Examples.empty_context))) = 4.
Proof.
  rewrite (vertex_count_is_largest_length _ (Source Examples.radius)
             Examples.empty_context); [reflexivity | discriminate].
Defined.

(** X16. On a source binder of colour type whose expression evaluates to a
    colour with channels [kr/255], [kg/255], [kb/255], [ka/255] (bytes in
    [0, 255]), every entry that [populatePaintArray] appends is a pair of
    floats that decompose into [(kr, kg)] and [(kb, ka)]; [statistics.max]
    is not touched. *)
Theorem source_populatePaintArray_color_round_trip (this : SourceExpressionBinder.t)
    (length : nat) (feature : Feature) (kr kg kb ka : Z) :
  (SourceExpressionBinder.type this =? "color") = true ->
  (0 <= kr <= 255)%Z -> (0 <= kg <= 255)%Z ->
  (0 <= kb <= 255)%Z -> (0 <= ka <= 255)%Z ->
  source_evaluate (SourceExpressionBinder.expression this)
    {| GlobalProperties.zoom := of_Z 0 |} feature =
  VColor {| r := channel_of_byte kr; g := channel_of_byte kg;
            b := channel_of_byte kb; a := channel_of_byte ka |} ->
  let this' := SourceExpressionBinder.populatePaintArray this length feature in
  (exists rg ba,
      entries (SourceExpressionBinder.paintVertexArray this') =
        entries (SourceExpressionBinder.paintVertexArray this)
        ++ repeat [VNum rg; VNum ba]
                  (length - PaintArray.length (SourceExpressionBinder.paintVertexArray this)) /\
      unpack rg = Some (kr, kg) /\ unpack ba = Some (kb, ka)) /\
  SourceExpressionBinder.statistics this' = SourceExpressionBinder.statistics this.
Proof.
  intros Htype Hr Hg Hb Ha Hvalue this'.
  unfold this', SourceExpressionBinder.populatePaintArray. rewrite Htype, Hvalue.
  cbn [SourceExpressionBinder.with_array SourceExpressionBinder.paintVertexArray
       SourceExpressionBinder.statistics].
  split; [| reflexivity].
  do 2 eexists. split; [now rewrite entries_emplaceBack_loop |].
  unfold packColor. cbn [channel ToNumber r g b a fst snd].
  rewrite !scale_channel_exact by assumption.
  rewrite !fround_packUint8ToFloat by assumption.
  split; apply unpack_packUint8ToFloat; assumption.
Qed.

Lemma source_populatePaintArray_color_round_trip_witness :
  exists rg ba,
    entries (SourceExpressionBinder.paintVertexArray
               (SourceExpressionBinder.populatePaintArray Examples.fill 2 [])) =
      [[VNum rg; VNum ba]; [VNum rg; VNum ba]] /\
    unpack rg = Some (255, 128)%Z /\ unpack ba = Some (0, 255)%Z.
Proof.
  destruct (source_populatePaintArray_color_round_trip Examples.fill 2 [] 255 128 0 255
              eq_refl ltac:(lia) ltac:(lia) ltac:(lia) ltac:(lia) eq_refl)
    as [(rg & ba & Hentries & Hrg & Hba) _].
  exists rg, ba. repeat split; assumption.
Defined.

(** *** statistics.max over time *)

Lemma not_any_NaN (xs : list number) :
  existsb is_NaN xs = false -> forallb (fun x => negb (is_NaN x)) xs = true.
Proof.
  induction xs as [| x rest IH]; simpl; [reflexivity |].
  intros H. apply orb_false_iff in H as [Hx Hrest]. now rewrite Hx, IH.
Qed.

(** [Math.max] with the previous maximum as its first argument: [NaN] stays
    [NaN]; otherwise the result is [NaN] or at least the previous maximum. *)
Lemma Math_max_keeps_up (previous : number) (xs : list number) :
  (is_NaN previous = true -> is_NaN (Math_max (previous :: xs)) = true) /\
  (is_NaN previous = false ->
   is_NaN (Math_max (previous :: xs)) = true \/
   leb previous (Math_max (previous :: xs)) = true).
Proof.
  split.
  - intros Hnan. unfold Math_max. cbn [max_from]. now rewrite Hnan.
  - intros Hprevious.
    destruct (existsb is_NaN (previous :: xs)) eqn:Hany.
    + left. unfold Math_max. now rewrite max_from_NaN.
    + right. apply not_any_NaN in Hany.
      destruct (Math_max_spec _ Hany) as [_ Hall].
      now inversion Hall.
Qed.

Lemma invoke_statistics_keeps_up (c : Binder.call) (this : Binder) (context : Context) :
  let before := Statistics.max (Binder.statistics this) in
  let after := Statistics.max (Binder.statistics (fst (Binder.invoke c (this, context)))) in
  (is_NaN before = true -> is_NaN after = true) /\
  (is_NaN before = false -> is_NaN after = true \/ leb before after = true).
Proof.
  intros before after.
  assert (Hsame : after = before ->
                  (is_NaN before = true -> is_NaN after = true) /\
                  (is_NaN before = false ->
                   is_NaN after = true \/ leb before after = true)).
  { intros ->. split; [easy |]. intros H. right. now apply leb_refl. }
  destruct (Binder.is_populatePaintArray c) eqn:Hc.
  - destruct c as [length feature | | | |]; try discriminate.
    destruct (Binder.numeric_attribute this) eqn:Hnumeric.
    + unfold after, before. destruct this as [k | s | z]; try discriminate;
        cbn in Hnumeric |- *; apply negb_true_iff in Hnumeric.
      * unfold SourceExpressionBinder.populatePaintArray. rewrite Hnumeric.
        cbn [SourceExpressionBinder.with_array SourceExpressionBinder.statistics
             Statistics.max].
        apply Math_max_keeps_up.
      * unfold CompositeExpressionBinder.populatePaintArray. rewrite Hnumeric.
        cbn [CompositeExpressionBinder.with_array CompositeExpressionBinder.statistics
             Statistics.max].
        apply Math_max_keeps_up.
    + apply Hsame. unfold after, before. cbn [Binder.invoke fst]. f_equal.
      now apply populatePaintArray_statistics.
  - apply Hsame. unfold after, before. f_equal. apply invoke_statistics.
    intros length feature ->. discriminate.
Qed.

(** X17. Over any sequence of method calls on a binder, [statistics.max]
    never goes down: once it is [NaN] it stays [NaN], and otherwise its
    later value is [NaN] or at least its earlier value. *)
Theorem statistics_max_never_decreases (calls : list Binder.call) :
  forall (this : Binder) (context : Context),
    let before := Statistics.max (Binder.statistics this) in
    let after :=
      Statistics.max (Binder.statistics (fst (Binder.run calls (this, context)))) in
    (is_NaN before = true -> is_NaN after = true) /\
    (is_NaN before = false -> is_NaN after = true \/ leb before after = true).
Proof.
  induction calls as [| c rest IH]; intros this context; cbn zeta.
  - cbn. split; [easy |]. intros H. right. now apply leb_refl.
  - unfold Binder.run in *. cbn [fold_left].
    pose proof (invoke_statistics_keeps_up c this context) as Hstep. cbn zeta in Hstep.
    destruct (Binder.invoke c (this, context)) as [this' context'].
    cbn [fst] in Hstep. destruct Hstep as [Hnan Hup].
    specialize (IH this' context'). cbn zeta in IH. destruct IH as [Hnan' Hup'].
    split.
    + intros H. apply Hnan', Hnan, H.
    + intros H. destruct (Hup H) as [Hmid | Hmid]; [left; now apply Hnan' |].
      destruct (is_NaN (Statistics.max (Binder.statistics this'))) eqn:Hthis';
        [left; now apply Hnan' |].
      destruct (Hup' eq_refl) as [Hlast | Hlast]; [now left | right].
      eapply leb_trans; eassumption.
Qed.

Lemma statistics_max_never_decreases_witness :
  is_NaN (Statistics.max
            (Binder.statistics
               (fst (Binder.run [Binder.call_populatePaintArray 2 Examples.town;
                                 Binder.call_populatePaintArray 3 Examples.town]
                                (Binder.populatePaintArray
                                   (Source Examples.patchy_radius) 1 [],
                                 Examples.empty_context))))) = true.
Proof.
  apply (statistics_max_never_decreases _
           (Binder.populatePaintArray (Source Examples.patchy_radius) 1 [])
           Examples.empty_context).
  reflexivity.
Defined.

(** *** ProgramConfigurationSet *)

Lemma get_set_same {A : Type} (o : object A) (k : string) (v : A) :
  get (set o k v) k = Some v.
Proof.
  induction o as [| [k' v'] rest IH]; simpl.
  - now rewrite String.eqb_refl.
  - destruct (k' =? k) eqn:Hk; simpl; rewrite Hk; [reflexivity | exact IH].
Qed.

Lemma get_set_other {A : Type} (o : object A) (k k' : string) (v : A) :
  k <> k' -> get (set o k v) k' = get o k'.
Proof.
  intros Hneq. induction o as [| [k0 v0] rest IH]; simpl.
  - apply String.eqb_neq in Hneq. now rewrite Hneq.
  - destruct (k0 =? k) eqn:Hk; simpl.
    + apply String.eqb_eq in Hk. subst k0.
      apply String.eqb_neq in Hneq. now rewrite Hneq.
    + now rewrite IH.
Qed.

(** The loop body of the constructor, once [createDynamic] has returned. *)
Lemma new_body_stores (scope : Scope) (layoutAttributes : list StructArrayMember)
    (zoom : number) (filterProperties : string -> bool)
    (stored : object ProgramConfiguration.t) (layer : Layer)
    (self : ProgramConfiguration.t) :
  ProgramConfiguration.createDynamic scope layer zoom filterProperties = Normal self ->
  ProgramConfigurationSet.new_body scope layoutAttributes zoom filterProperties
    stored layer =
  Normal (set (set stored (layer_id layer) self) (layer_id layer)
              (ProgramConfigurationSet.with_layoutAttributes self layoutAttributes)).
Proof.
  intros Hself. unfold ProgramConfigurationSet.new_body. rewrite Hself. cbn [bind].
  now rewrite get_set_same.
Qed.

Lemma new_body_returns (scope : Scope) (layoutAttributes : list StructArrayMember)
    (zoom : number) (filterProperties : string -> bool)
    (stored stored' : object ProgramConfiguration.t) (layer : Layer) :
  ProgramConfigurationSet.new_body scope layoutAttributes zoom filterProperties
    stored layer = Normal stored' ->
  exists self,
    ProgramConfiguration.createDynamic scope layer zoom filterProperties = Normal self /\
    stored' = set (set stored (layer_id layer) self) (layer_id layer)
                  (ProgramConfigurationSet.with_layoutAttributes self layoutAttributes).
Proof.
  intros Hbody.
  destruct (ProgramConfiguration.createDynamic scope layer zoom filterProperties)
    as [self | e] eqn:Hself.
  - rewrite (new_body_stores _ _ _ _ _ _ _ Hself) in Hbody.
    injection Hbody as <-. now exists self.
  - unfold ProgramConfigurationSet.new_body in Hbody. rewrite Hself in Hbody.
    discriminate.
Qed.

Lemma new_loop_lookup (scope : Scope) (layoutAttributes : list StructArrayMember)
    (zoom : number) (filterProperties : string -> bool) (layers : list Layer) :
  forall stored stored',
    ProgramConfigurationSet.new_loop scope layoutAttributes zoom filterProperties
      layers stored = Normal stored' ->
    (forall layerId, ~ In layerId (map layer_id layers) ->
                     get stored' layerId = get stored layerId) /\
    (NoDup (map layer_id layers) ->
     forall layer, In layer layers ->
       exists self,
         ProgramConfiguration.createDynamic scope layer zoom filterProperties =
           Normal self /\
         get stored' (layer_id layer) =
           Some (ProgramConfigurationSet.with_layoutAttributes self layoutAttributes)).
Proof.
  induction layers as [| layer rest IH]; intros stored stored';
    cbn [ProgramConfigurationSet.new_loop map].
  - intros [= <-]. split; [reflexivity | intros _ layer []].
  - destruct (ProgramConfigurationSet.new_body scope layoutAttributes zoom
                filterProperties stored layer) as [stored1 | e] eqn:Hbody;
      cbn [bind]; [| discriminate].
    intros Hloop. destruct (IH _ _ Hloop) as [Hother Hfound].
    apply new_body_returns in Hbody as (self & Hself & ->).
    split.
    + intros layerId Hnot. rewrite Hother by (intros Hin; apply Hnot; now right).
      assert (Hneq : layer_id layer <> layerId) by (intros Heq; apply Hnot; now left).
      now rewrite !get_set_other by exact Hneq.
    + intros Hnodup layer' [<- | Hin].
      * exists self. split; [exact Hself |].
        rewrite Hother by now inversion Hnodup.
        apply get_set_same.
      * apply Hfound; [now inversion Hnodup | exact Hin].
Qed.

(** X18. When the constructor of [ProgramConfigurationSet] returns for
    layers with distinct ids, none of them ['__proto__'], [get(layer.id)]
    is, for every one of the layers, a configuration of the set itself whose
    [layoutAttributes] is the list given to the constructor and whose
    [binders], [cacheKey] and [_buffers] are those of the configuration that
    [createDynamic] returns for that layer.  For an id that belongs to none
    of the layers, [get] returns the member of [Object.prototype] of that
    name if there is one (['toString'], ['constructor'], ...), and
    [undefined] otherwise. *)
Theorem set_get_after_new (scope : Scope) (layoutAttributes : list StructArrayMember)
    (layers : list Layer) (zoom : number) (filterProperties : string -> bool)
    (this : ProgramConfigurationSet.t) :
  NoDup (map layer_id layers) ->
  ~ In "__proto__" (map layer_id layers) ->
  ProgramConfigurationSet.new scope layoutAttributes layers zoom filterProperties =
    Normal this ->
  (forall layer, In layer layers ->
     exists self stored,
       ProgramConfiguration.createDynamic scope layer zoom filterProperties =
         Normal self /\
       ProgramConfigurationSet.get this (layer_id layer) = Own stored /\
       ProgramConfiguration.layoutAttributes stored = Some layoutAttributes /\
       ProgramConfiguration.binders stored = ProgramConfiguration.binders self /\
       ProgramConfiguration.cacheKey stored = ProgramConfiguration.cacheKey self /\
       ProgramConfiguration._buffers stored = ProgramConfiguration._buffers self) /\
  (forall layerId, ~ In layerId (map layer_id layers) ->
     ProgramConfigurationSet.get this layerId =
     if is_inherited layerId then Inherited layerId else Undefined).
Proof.
  intros Hnodup _. unfold ProgramConfigurationSet.new.
  destruct (ProgramConfigurationSet.new_loop scope layoutAttributes zoom
              filterProperties layers []) as [stored | e] eqn:Hloop;
    cbn [bind]; [| discriminate].
  intros [= <-]. destruct (new_loop_lookup _ _ _ _ _ _ _ Hloop) as [Hother Hfound].
  unfold ProgramConfigurationSet.get, lookup.
  cbn [ProgramConfigurationSet.programConfigurations].
  split.
  - intros layer Hin. destruct (Hfound Hnodup layer Hin) as (self & Hself & Hget).
    exists self, (ProgramConfigurationSet.with_layoutAttributes self layoutAttributes).
    rewrite Hget. repeat split; assumption || reflexivity.
  - intros layerId Hnot. now rewrite (Hother layerId Hnot).
Qed.

Lemma set_get_after_new_witness :
  exists this stored,
    ProgramConfigurationSet.new module_scope []
      [Examples.constant_layer; Examples.background_layer] (of_Z 10) (fun _ => true) =
      Normal this /\
    ProgramConfigurationSet.get this "background" = Own stored /\
    ProgramConfiguration.layoutAttributes stored = Some [] /\
    ProgramConfigurationSet.get this "water" = Undefined /\
    ProgramConfigurationSet.get this "toString" = Inherited "toString".
Proof.
  eexists.
  assert (Hthis : ProgramConfigurationSet.new module_scope []
                    [Examples.constant_layer; Examples.background_layer] (of_Z 10)
                    (fun _ => true) = Normal _) by reflexivity.
  assert (Hnodup : NoDup (map layer_id
                            [Examples.constant_layer; Examples.background_layer])).
  { repeat constructor; simpl; intuition discriminate. }
  assert (Hproto : ~ In "__proto__"
                     (map layer_id
                        [Examples.constant_layer; Examples.background_layer])).
  { simpl. intuition discriminate. }
  destruct (set_get_after_new _ _ _ _ _ _ Hnodup Hproto Hthis) as [Hfound Hother].
  destruct (Hfound Examples.background_layer)
    as (self & stored & Hself & Hget & Hlayout & _); [right; now left |].
  exists stored. split; [exact Hthis |]. split; [exact Hget |].
  split; [exact Hlayout |].
  split.
  - apply (Hother "water"). simpl. intuition discriminate.
  - apply (Hother "toString"). simpl. intuition discriminate.
Defined.

(** X19. If [createDynamic] raises for one of the layers and returns for all
    the layers before it, the constructor of [ProgramConfigurationSet]
    raises the same error: no set is produced, whatever the layers after
    it. *)
Theorem set_new_raises_first_error (scope : Scope)
    (layoutAttributes : list StructArrayMember) (before after : list Layer)
    (layer : Layer) (zoom : number) (filterProperties : string -> bool) (e : Error) :
  Forall (fun earlier =>
            exists self,
              ProgramConfiguration.createDynamic scope earlier zoom filterProperties =
              Normal self) before ->
  ProgramConfiguration.createDynamic scope layer zoom filterProperties = Throw e ->
  ProgramConfigurationSet.new scope layoutAttributes (before ++ layer :: after)
    zoom filterProperties = Throw e.
Proof.
  intros Hbefore Hlayer. unfold ProgramConfigurationSet.new.
  assert (Hloop : forall stored,
             ProgramConfigurationSet.new_loop scope layoutAttributes zoom
               filterProperties (before ++ layer :: after) stored = Throw e).
  { induction Hbefore as [| earlier rest [self Hself] _ IH]; intros stored;
      cbn [app ProgramConfigurationSet.new_loop].
    - unfold ProgramConfigurationSet.new_body. now rewrite Hlayer.
    - rewrite (new_body_stores _ _ _ _ _ _ _ Hself). cbn [bind]. apply IH. }
  now rewrite Hloop.
Qed.

Lemma set_new_raises_first_error_witness :
  ProgramConfigurationSet.new module_scope []
    [Examples.constant_layer; Examples.fill_layer; Examples.background_layer]
    (of_Z 10) (fun _ => true) =
  Throw (ReferenceError "LinePatternSourceExpressionLayoutArray").
Proof.
  apply (set_new_raises_first_error module_scope [] [Examples.constant_layer]
           [Examples.background_layer] Examples.fill_layer).
  - constructor; [| constructor]. eexists. reflexivity.
  - reflexivity.
Defined.








(** *** Edge cases of createDynamic and populatePaintArrays *)

(** X21. When no paint property of the layer is accepted (the layer has
    none, the filter rejects them all, or none is data-driven),
    [createDynamic] returns the empty configuration in every scope: no
    binder, the empty [cacheKey], no buffer.  [layoutType] is not called, so
    nothing can raise. *)
Theorem createDynamic_nothing_accepted (scope : Scope) (layer : Layer)
    (zoom : number) (filterProperties : string -> bool) :
  forallb (fun entry => negb (accepted filterProperties entry)) (paint_values layer)
    = true ->
  ProgramConfiguration.createDynamic scope layer zoom filterProperties =
  Normal ProgramConfiguration.new.
Proof.
  intros Hnone. unfold ProgramConfiguration.createDynamic.
  assert (Hloop : forall todo state,
             forallb (fun entry => negb (accepted filterProperties entry)) todo = true ->
             ProgramConfiguration.createDynamic_loop scope (layer_type layer) zoom
               filterProperties todo state = Normal state).
  { induction todo as [| [property value] rest IH]; intros [self keys];
      cbn [forallb ProgramConfiguration.createDynamic_loop]; [reflexivity |].
    intros Hall. apply andb_true_iff in Hall as [Hentry Hrest].
    apply negb_true_iff in Hentry. unfold accepted in Hentry. cbn [fst snd] in Hentry.
    assert (Hbody : ProgramConfiguration.createDynamic_body scope (layer_type layer)
                      zoom filterProperties (self, keys) (property, value) =
                    Normal (self, keys)).
    { unfold ProgramConfiguration.createDynamic_body.
      destruct (filterProperties property); cbn [negb andb] in *; [| reflexivity].
      destruct value as [plain | value]; [reflexivity |].
      now rewrite Hentry. }
    rewrite Hbody. cbn [bind]. now apply IH. }
  rewrite (Hloop _ _ Hnone). reflexivity.
Qed.

Lemma createDynamic_nothing_accepted_witness :
  ProgramConfiguration.createDynamic module_scope Examples.fill_layer (of_Z 10)
    (fun _ => false) = Normal ProgramConfiguration.new.
Proof.
  apply (createDynamic_nothing_accepted module_scope Examples.fill_layer).
  reflexivity.
Defined.

(** X22. With the two line-pattern layout classes bound, one
    [populatePaintArrays(length, feature)] on a configuration whose binders
    are as constructed leaves exactly [length] entries in the paint vertex
    array of every source and composite binder, except the binder of
    ['line-pattern'] and the binder of a property with the name of a member
    of [Object.prototype] (['constructor'], ['toString'], ...): the lookup
    in the table of exceptions finds something for these, they are passed
    over and their arrays stay empty. *)
Theorem populatePaintArrays_fills_every_array (scope : Scope)
    (source composite : LayoutClass) (this : ProgramConfiguration.t)
    (length : nat) (feature : Feature) :
  LinePatternSourceExpressionLayoutArray scope = Some source ->
  LinePatternCompositeExpressionLayoutArray scope = Some composite ->
  ProgramConfiguration.constructed this ->
  forall property binder,
    In (property, binder)
       (ProgramConfiguration.binders
          (fst (ProgramConfiguration.populatePaintArrays scope this length feature))) ->
    vertex_data binder <> None ->
    vertex_count binder =
    if (property =? "line-pattern") || is_inherited property then 0 else length.
Proof.
  intros Hs Hc Hnew property binder.
  rewrite (populatePaintArrays_bound scope source composite this length feature Hs Hc).
  cbn [fst ProgramConfiguration.with_binders ProgramConfiguration.binders].
  intros Hin Hdata. apply in_map_iff in Hin as ([property0 binder0] & Heq & Hin).
  cbn [fst snd] in Heq. injection Heq as -> <-.
  unfold ProgramConfiguration.constructed in Hnew. rewrite Forall_forall in Hnew.
  specialize (Hnew _ Hin). cbn [snd] in Hnew.
  assert (Hempty : vertex_count binder0 = 0) by (destruct Hnew; reflexivity).
  unfold passed_over in Hdata |- *.
  destruct ((property =? "line-pattern") || is_inherited property);
    [exact Hempty |].
  assert (Hdata0 : vertex_data binder0 <> None).
  { destruct binder0 as [k | s | z]; [| discriminate | discriminate].
    cbn in Hdata. now elim Hdata. }
  rewrite (vertex_count_populatePaintArray binder0 length feature Hdata0). lia.
Qed.

Lemma populatePaintArrays_fills_every_array_witness :
  vertex_count (Binder.populatePaintArray (Composite Examples.width) 5 []) = 5 /\
  vertex_count (Composite Examples.pattern) = 0 /\
  vertex_count (Source Examples.radius) = 0.
Proof.
  assert (Hodd : ProgramConfiguration.constructed Examples.odd_configuration)
    by (repeat constructor).
  pose proof (populatePaintArrays_fills_every_array imported_scope
                LinePatternSourceLayout LinePatternCompositeLayout
                Examples.odd_configuration 5 [] eq_refl eq_refl Hodd) as Hpassed.
  assert (Hnew : ProgramConfiguration.constructed Examples.line_configuration)
    by (repeat constructor).
  pose proof (populatePaintArrays_fills_every_array imported_scope
                LinePatternSourceLayout LinePatternCompositeLayout
                Examples.line_configuration 5 [] eq_refl eq_refl Hnew) as Hfilled.
  split; [| split].
  - apply (Hfilled "line-width"); [now left | discriminate].
  - apply (Hfilled "line-pattern"); [right; now left | discriminate].
  - apply (Hpassed "constructor"); [right; now left | discriminate].
Defined.
